(** * market_analyzer: the daily market-review module, embedded in Rocq

    A shallow embedding of [src/market_analyzer.py].

    - Python [float] is IEEE binary64: the primitive floats of the standard
      library, with the arithmetic of the hardware ([PrimFloat.mul],
      [PrimFloat.div], comparisons that are false on NaN).
    - Python [str] is a Rocq [string] holding the UTF-8 encoding of the text;
      slices that count characters are taken on code points ([utf8_take]).
    - Python [int] is [Z].
    - Exceptions are the [Raise] outcomes of [result]; a call with effects is a
      value of [Py A]: its outcome and the events it emitted, in order.
    - A pandas table is a [DataFrame]: column names and rows of cells.
    - Calls to [logger] have no effect on any value and are not modelled. *)

From Stdlib Require Import ZArith List String Ascii Bool Lia DecimalString.
From Stdlib Require Import Floats.
Import ListNotations.

Set Warnings "-inexact-float".

Open Scope string_scope.
Open Scope Z_scope.

(** ** Exceptions, outcomes and effects *)

(** The exceptions that derive from [Exception]: the ones every handler of
    the module catches. *)
Inductive exn : Type :=
| ZeroDivisionError
| ValueError
| KeyError
| AttributeError
| IndexError
| OtherError (message : string).

Inductive result (A : Type) : Type :=
| Ok (value : A)
| Raise (e : exn).

Arguments Ok {A} value.
Arguments Raise {A} e.

(** What a run does to the outside world, in the order it does it. *)
Inductive event : Type :=
| EvCall (name : string)        (* one invocation of a wrapped data-source call *)
| EvSleep (seconds : Z)         (* time.sleep(seconds) *)
| EvHistory (yf_code : string). (* yf.Ticker(yf_code).history(period='2d') *)

Definition Py (A : Type) : Type := (result A * list event)%type.

Definition ret {A} (a : A) : Py A := (Ok a, []).

Definition raise {A} (e : exn) : Py A := (Raise e, []).

Definition emit (ev : event) : Py unit := (Ok tt, [ev]).

Definition lift {A} (r : result A) : Py A := (r, []).

Definition bind {A B} (m : Py A) (k : A -> Py B) : Py B :=
  match m with
  | (Ok a, t) => let (r, t') := k a in (r, (t ++ t')%list)
  | (Raise e, t) => (Raise e, t)
  end.

(** [try: body / except Exception as e: handler e] *)
Definition try_except {A} (body : Py A) (handler : exn -> Py A) : Py A :=
  match body with
  | (Ok a, t) => (Ok a, t)
  | (Raise e, t) => let (r, t') := handler e in (r, (t ++ t')%list)
  end.

Declare Scope py_scope.
Delimit Scope py_scope with py.
Notation "x <- m ;; k" := (bind m (fun x => k))
  (at level 61, m at next level, right associativity) : py_scope.
Notation "m ;;; k" := (bind m (fun _ => k))
  (at level 61, right associativity) : py_scope.
Open Scope py_scope.

Definition outcome {A} (m : Py A) : result A := fst m.
Definition trace {A} (m : Py A) : list event := snd m.

(** ** Strings *)

Module PyStr.

(** [sep.join(parts)] *)
Fixpoint join (sep : string) (parts : list string) : string :=
  match parts with
  | [] => ""
  | [p] => p
  | p :: rest => p ++ sep ++ join sep rest
  end.

Fixpoint starts_with (needle hay : string) : bool :=
  match needle, hay with
  | EmptyString, _ => true
  | String a n', String b h' => Ascii.eqb a b && starts_with n' h'
  | String _ _, EmptyString => false
  end.

(** [needle in hay] *)
Fixpoint is_infix (needle hay : string) : bool :=
  starts_with needle hay ||
  match hay with
  | EmptyString => false
  | String _ h' => is_infix needle h'
  end.

(** The text [hay] contains [needle] somewhere. *)
Definition Contains (hay needle : string) : Prop :=
  exists pre post, hay = pre ++ needle ++ post.

(** A byte that continues a UTF-8 sequence: 10xxxxxx. *)
Definition utf8_continuation (c : ascii) : bool :=
  let n := N_of_ascii c in (128 <=? n)%N && (n <? 192)%N.

(** The continuation bytes at the head of [s], and what follows them. *)
Fixpoint utf8_tail (s : string) : string * string :=
  match s with
  | String c s' =>
      if utf8_continuation c
      then let (t, r) := utf8_tail s' in (String c t, r)
      else ("", s)
  | EmptyString => ("", "")
  end.

(** [s[:n]]: the first [n] code points of [s]. *)
Fixpoint utf8_take_fuel (fuel : nat) (n : nat) (s : string) : string :=
  match fuel, n, s with
  | S f, S n', String c s' =>
      let (t, r) := utf8_tail s' in
      String c t ++ utf8_take_fuel f n' r
  | _, _, _ => ""
  end.

Definition utf8_take (n : nat) (s : string) : string :=
  utf8_take_fuel (String.length s) n s.



(** [str(n)] for an integer *)
Definition of_Z (z : Z) : string := NilZero.string_of_int (Z.to_int z).

End PyStr.

(** ** Floats *)

Module PyFloat.

(** Python's comparison operators *)
Definition gt (x y : float) : bool := PrimFloat.ltb y x.
Definition ge (x y : float) : bool := PrimFloat.leb y x.
Definition lt (x y : float) : bool := PrimFloat.ltb x y.
Definition le (x y : float) : bool := PrimFloat.leb x y.
Definition eq (x y : float) : bool := PrimFloat.eqb x y.

(** [bool(x)]: every float but the zeros is true, NaN included. *)
Definition truthy (x : float) : bool := negb (PrimFloat.eqb x 0%float).

(** [x / y] *)
Definition div (x y : float) : result float :=
  if PrimFloat.eqb y 0%float then Raise ZeroDivisionError
  else Ok (PrimFloat.div x y).

(** The integer nearest to [num / den], ties to the even one
    ([0 <= num], [0 < den]). *)
Definition round_half_even (num den : Z) : Z :=
  let q := num / den in
  let r := num mod den in
  match Z.compare (2 * r) den with
  | Gt => q + 1
  | Lt => q
  | Eq => if Z.even q then q else q + 1
  end.

(** The integer nearest to [m * 2^e * 10^digits], from the exact binary
    value, ties to even: what the correctly rounded decimal conversion of
    CPython yields for a float of magnitude [m * 2^e]. *)
Definition scaled_magnitude (digits : nat) (m : positive) (e : Z) : Z :=
  let p := 10 ^ Z.of_nat digits in
  if 0 <=? e then Z.pos m * 2 ^ e * p
  else round_half_even (Z.pos m * p) (2 ^ (- e)).

Definition signed_zero (s : bool) : float :=
  if s then (-0)%float else 0%float.

(** [round(x, ndigits)] for [0 <= ndigits]: the float nearest to the
    decimal that is nearest to [x]; NaN, infinities and zeros are returned
    as they are. *)
Definition round (x : float) (ndigits : nat) : float :=
  match Prim2SF x with
  | S754_finite s m e =>
      match scaled_magnitude ndigits m e with
      | Z.pos n =>
          SF2Prim (SFdiv prec emax (S754_finite s n 0)
                     (S754_finite false (Z.to_pos (10 ^ Z.of_nat ndigits)) 0))
      | _ => signed_zero s
      end
  | _ => x
  end.

Fixpoint fraction_digits (digits : nat) (n : Z) : string :=
  match digits with
  | O => ""
  | S d => fraction_digits d (n / 10) ++ PyStr.of_Z (n mod 10)
  end.

Definition sign_text (plus s : bool) : string :=
  if s then "-" else if plus then "+" else "".

Definition fixed_text (digits : nat) (n : Z) : string :=
  let p := 10 ^ Z.of_nat digits in
  match digits with
  | O => PyStr.of_Z n
  | _ => PyStr.of_Z (n / p) ++ "." ++ fraction_digits digits (n mod p)
  end.

(** [f"{x:.{digits}f}"], and [f"{x:+.{digits}f}"] when [plus]. *)
Definition format_f (plus : bool) (digits : nat) (x : float) : string :=
  match Prim2SF x with
  | S754_nan => sign_text plus false ++ "nan"
  | S754_infinity s => sign_text plus s ++ "inf"
  | S754_zero s => sign_text plus s ++ fixed_text digits 0
  | S754_finite s m e =>
      sign_text plus s ++ fixed_text digits (scaled_magnitude digits m e)
  end.

End PyFloat.

(** ** Data model *)

(** [@dataclass class MarketIndex] *)
Module MarketIndex.

Record t : Type := mk {
  code : string;
  name : string;
  current : float;
  change : float;
  change_pct : float;
  open : float;
  high : float;
  low : float;
  prev_close : float;
  volume : float;
  amount : float;
  amplitude : float
}.

Definition set_amplitude (v : float) (i : t) : t :=
  mk (code i) (name i) (current i) (change i) (change_pct i) (open i)
     (high i) (low i) (prev_close i) (volume i) (amount i) v.

End MarketIndex.

(** The dictionaries [{'name': ..., 'change_pct': ...}] of the sector lists. *)
Module Sector.

Record t : Type := mk {
  name : string;
  change_pct : float
}.

End Sector.

(** [@dataclass class MarketOverview] *)
Module MarketOverview.

Record t : Type := mk {
  date : string;
  indices : list MarketIndex.t;
  up_count : Z;
  down_count : Z;
  flat_count : Z;
  limit_up_count : Z;
  limit_down_count : Z;
  total_amount : float;
  north_flow : float;
  top_sectors : list Sector.t;
  bottom_sectors : list Sector.t;
  margin_balance : float;
  total_market_cap : float;
  margin_ratio : float;
  is_bull_top_warning : bool;
  margin_data_date : string
}.

(** [MarketOverview(date=today)]: every other field at its default. *)
Definition new (today : string) : t :=
  mk today [] 0 0 0 0 0 0%float 0%float [] [] 0%float 0%float 0%float false "".

(** Attribute assignments, [overview.field = v]. *)
Definition set_indices (v : list MarketIndex.t) (o : t) : t :=
  mk (date o) v (up_count o) (down_count o) (flat_count o) (limit_up_count o)
     (limit_down_count o) (total_amount o) (north_flow o) (top_sectors o)
     (bottom_sectors o) (margin_balance o) (total_market_cap o)
     (margin_ratio o) (is_bull_top_warning o) (margin_data_date o).

Definition set_up_count (v : Z) (o : t) : t :=
  mk (date o) (indices o) v (down_count o) (flat_count o) (limit_up_count o)
     (limit_down_count o) (total_amount o) (north_flow o) (top_sectors o)
     (bottom_sectors o) (margin_balance o) (total_market_cap o)
     (margin_ratio o) (is_bull_top_warning o) (margin_data_date o).

Definition set_down_count (v : Z) (o : t) : t :=
  mk (date o) (indices o) (up_count o) v (flat_count o) (limit_up_count o)
     (limit_down_count o) (total_amount o) (north_flow o) (top_sectors o)
     (bottom_sectors o) (margin_balance o) (total_market_cap o)
     (margin_ratio o) (is_bull_top_warning o) (margin_data_date o).

Definition set_flat_count (v : Z) (o : t) : t :=
  mk (date o) (indices o) (up_count o) (down_count o) v (limit_up_count o)
     (limit_down_count o) (total_amount o) (north_flow o) (top_sectors o)
     (bottom_sectors o) (margin_balance o) (total_market_cap o)
     (margin_ratio o) (is_bull_top_warning o) (margin_data_date o).

Definition set_limit_up_count (v : Z) (o : t) : t :=
  mk (date o) (indices o) (up_count o) (down_count o) (flat_count o) v
     (limit_down_count o) (total_amount o) (north_flow o) (top_sectors o)
     (bottom_sectors o) (margin_balance o) (total_market_cap o)
     (margin_ratio o) (is_bull_top_warning o) (margin_data_date o).

Definition set_limit_down_count (v : Z) (o : t) : t :=
  mk (date o) (indices o) (up_count o) (down_count o) (flat_count o)
     (limit_up_count o) v (total_amount o) (north_flow o) (top_sectors o)
     (bottom_sectors o) (margin_balance o) (total_market_cap o)
     (margin_ratio o) (is_bull_top_warning o) (margin_data_date o).

Definition set_total_amount (v : float) (o : t) : t :=
  mk (date o) (indices o) (up_count o) (down_count o) (flat_count o)
     (limit_up_count o) (limit_down_count o) v (north_flow o) (top_sectors o)
     (bottom_sectors o) (margin_balance o) (total_market_cap o)
     (margin_ratio o) (is_bull_top_warning o) (margin_data_date o).

Definition set_margin_balance (v : float) (o : t) : t :=
  mk (date o) (indices o) (up_count o) (down_count o) (flat_count o)
     (limit_up_count o) (limit_down_count o) (total_amount o) (north_flow o)
     (top_sectors o) (bottom_sectors o) v (total_market_cap o)
     (margin_ratio o) (is_bull_top_warning o) (margin_data_date o).

Definition set_total_market_cap (v : float) (o : t) : t :=
  mk (date o) (indices o) (up_count o) (down_count o) (flat_count o)
     (limit_up_count o) (limit_down_count o) (total_amount o) (north_flow o)
     (top_sectors o) (bottom_sectors o) (margin_balance o) v
     (margin_ratio o) (is_bull_top_warning o) (margin_data_date o).

Definition set_margin_ratio (v : float) (o : t) : t :=
  mk (date o) (indices o) (up_count o) (down_count o) (flat_count o)
     (limit_up_count o) (limit_down_count o) (total_amount o) (north_flow o)
     (top_sectors o) (bottom_sectors o) (margin_balance o)
     (total_market_cap o) v (is_bull_top_warning o) (margin_data_date o).

Definition set_is_bull_top_warning (v : bool) (o : t) : t :=
  mk (date o) (indices o) (up_count o) (down_count o) (flat_count o)
     (limit_up_count o) (limit_down_count o) (total_amount o) (north_flow o)
     (top_sectors o) (bottom_sectors o) (margin_balance o)
     (total_market_cap o) (margin_ratio o) v (margin_data_date o).

End MarketOverview.

(** ** Tables

    A cell of a pandas table. A cell that holds a number is a [CNum] whatever
    the dtype of its column (NaN included); [CStr] is text that does not spell
    a number; [CNone] is Python's [None]. *)
Inductive cell : Type :=
| CNum (f : float)
| CStr (s : string)
| CNone.

Module DataFrame.

Record t : Type := mk {
  columns : list string;
  rows : list (list cell)
}.

(** [df.empty]: one of the two axes has length zero. *)
Definition empty (df : t) : bool :=
  match columns df, rows df with
  | [], _ => true
  | _, [] => true
  | _, _ => false
  end.

Fixpoint position (col : string) (cols : list string) : option nat :=
  match cols with
  | [] => None
  | c :: rest =>
      if String.eqb c col then Some O
      else option_map S (position col rest)
  end.

(** [col in df.columns] *)
Definition has_column (df : t) (col : string) : bool :=
  match position col (columns df) with Some _ => true | None => false end.

(** [df[col]]: the cells of one column; [KeyError] without that column. *)
Definition column (df : t) (col : string) : result (list cell) :=
  match position col (columns df) with
  | Some k => Ok (map (fun r => nth k r CNone) (rows df))
  | None => Raise KeyError
  end.

(** [row.get(col, default)] on a row of [df]; [None] stands for the
    default. *)
Definition row_get (df : t) (row : list cell) (col : string) : option cell :=
  match position col (columns df) with
  | Some k => Some (nth k row CNone)
  | None => None
  end.

(** [df[mask]]: the rows at which the mask is true. *)
Fixpoint select (rs : list (list cell)) (mask : list bool) : list (list cell) :=
  match rs, mask with
  | r :: rs', b :: mask' =>
      if b then r :: select rs' mask' else select rs' mask'
  | _, _ => []
  end.

(** [pd.to_numeric(series, errors='coerce')] *)
Definition to_numeric (c : cell) : float :=
  match c with
  | CNum f => f
  | CStr _ => nan
  | CNone => nan
  end.

End DataFrame.

(** [float(value or 0)] on the value a [row.get(col, 0)] returned: the zeros,
    the empty text, [None] and a missing column all yield [0.0]. *)
Definition float_or_zero (v : option cell) : result float :=
  match v with
  | None => Ok 0%float
  | Some (CNum f) => if PyFloat.truthy f then Ok f else Ok 0%float
  | Some (CStr s) => if String.eqb s "" then Ok 0%float else Raise ValueError
  | Some CNone => Ok 0%float
  end.

(** [range(lo, hi)] *)
Definition py_range (lo hi : Z) : list Z :=
  map (fun i => lo + Z.of_nat i) (seq 0 (Z.to_nat (hi - lo))).

(** ** The retry wrapper *)

(** A zero-argument data-source call: what it does when it is invoked for the
    attempt of a given number. *)
Definition operation (A : Type) : Type := Z -> result A.

(** How the body of a loop iteration ends: with [return v], or by falling
    through to the next iteration. *)
Inductive completion (A : Type) : Type :=
| Return (v : A)
| Continue.

Arguments Return {A} v.
Arguments Continue {A}.

Definition backoff (attempt : Z) : Z := Z.min (2 ^ attempt) 5.

Fixpoint retry_attempts {A} (fn : operation A) (name : string) (attempts : Z)
    (todo : list Z) : Py (option A) :=
  match todo with
  | [] => ret None
  | attempt :: rest =>
      c <- try_except
             (emit (EvCall name) ;;;
              v <- lift (fn attempt) ;;
              ret (Return v))
             (fun e =>
                (if attempt <? attempts
                 then emit (EvSleep (backoff attempt))
                 else ret tt) ;;;
                ret Continue) ;;
      match c with
      | Return v => ret (Some v)
      | Continue => retry_attempts fn name attempts rest
      end
  end.

Definition _call_akshare_with_retry {A} (fn : operation A) (name : string)
    (attempts : Z) : Py (option A) :=
  retry_attempts fn name attempts (py_range 1 (attempts + 1)).


(** Sequencing of computations that may raise but have no effect. *)
Definition and_then {A B} (r : result A) (k : A -> result B) : result B :=
  match r with
  | Ok a => k a
  | Raise e => Raise e
  end.

Notation "x <~ r ;; k" := (and_then r (fun x => k))
  (at level 61, r at next level, right associativity) : py_scope.

Definition is_nil {A} (l : list A) : bool :=
  match l with [] => true | _ => false end.

(** ** The index resolver *)

Definition MAIN_INDICES : list (string * string) :=
  [ ("sh000001", "上证指数");
    ("sz399001", "深证成指");
    ("sz399006", "创业板指");
    ("sh000688", "科创50");
    ("sh000016", "上证50");
    ("sh000300", "沪深300") ].

(** [key in self.MAIN_INDICES] *)
Definition in_MAIN_INDICES (key : string) : bool :=
  existsb (fun kv => String.eqb (fst kv) key) MAIN_INDICES.

(** [df['代码'] == code] *)
Definition eq_mask (code : string) (col : list cell) : list bool :=
  map (fun c => match c with CStr s => String.eqb s code | _ => false end) col.

(** [df['代码'].str.contains(code)], as a mask to select rows with. The codes
    looked up hold letters and digits only, so the pattern matches as plain
    text. The column has the dtype [object], as the table of the source has
    it: a cell that is not text makes the selection raise (which exception
    it is cannot be observed: every handler catches [Exception]). *)
Fixpoint contains_mask (code : string) (col : list cell) : result (list bool) :=
  match col with
  | [] => Ok []
  | CStr s :: rest =>
      m <~ contains_mask code rest ;;
      Ok (PyStr.is_infix code s :: m)
  | _ :: _ => Raise ValueError
  end.

(** The row of [df] for [code]: the first exact match and, without one, the
    first row whose code contains [code]; [None] when [row.empty]. *)
Definition find_row (df : DataFrame.t) (code : string)
    : result (option (list cell)) :=
  col <~ DataFrame.column df "代码" ;;
  match DataFrame.select (DataFrame.rows df) (eq_mask code col) with
  | row :: _ => Ok (Some row)
  | [] =>
      m <~ contains_mask code col ;;
      Ok (hd_error (DataFrame.select (DataFrame.rows df) m))
  end.

(** [MarketIndex(code=code, name=name, current=float(row.get('最新价', 0) or 0), ...)]
    and the amplitude computed after it. *)
Definition index_of_row (df : DataFrame.t) (code name : string)
    (row : list cell) : result MarketIndex.t :=
  let get := DataFrame.row_get df row in
  current <~ float_or_zero (get "最新价") ;;
  change <~ float_or_zero (get "涨跌额") ;;
  change_pct <~ float_or_zero (get "涨跌幅") ;;
  open <~ float_or_zero (get "今开") ;;
  high <~ float_or_zero (get "最高") ;;
  low <~ float_or_zero (get "最低") ;;
  prev_close <~ float_or_zero (get "昨收") ;;
  volume <~ float_or_zero (get "成交量") ;;
  amount <~ float_or_zero (get "成交额") ;;
  let index :=
    MarketIndex.mk code name current change change_pct open high low
      prev_close volume amount 0%float in
  if PyFloat.gt (MarketIndex.prev_close index) 0%float then
    q <~ PyFloat.div (MarketIndex.high index - MarketIndex.low index)%float
           (MarketIndex.prev_close index) ;;
    Ok (MarketIndex.set_amplitude (q * 100)%float index)
  else Ok index.

(** The loop [for code, name in self.MAIN_INDICES.items()] over the primary
    table: the list [indices] as the loop leaves it, and the exception that
    ended it early, if one did. *)
Fixpoint primary_loop (df : DataFrame.t) (todo : list (string * string))
    (indices : list MarketIndex.t) : list MarketIndex.t * option exn :=
  match todo with
  | [] => (indices, None)
  | (code, name) :: rest =>
      match find_row df code with
      | Raise e => (indices, Some e)
      | Ok None => primary_loop df rest indices
      | Ok (Some row) =>
          match index_of_row df code name row with
          | Raise e => (indices, Some e)
          | Ok index => primary_loop df rest (indices ++ [index])%list
          end
      end
  end.

(** What the primary source contributes, from what the retry wrapper
    returned: [indices] at the end of the matching, and the exception that
    left the [try] block, if one did. *)
Definition primary_indices (fetched : result (option DataFrame.t))
    : list MarketIndex.t * option exn :=
  match fetched with
  | Raise e => ([], Some e)
  | Ok None => ([], None)
  | Ok (Some df) =>
      if negb (DataFrame.empty df) then primary_loop df MAIN_INDICES []
      else ([], None)
  end.

(** One row of the price history of the secondary source, oldest first
    (columns Open, High, Low, Close, Volume). *)
Record Bar : Type := mkBar {
  bar_open : float;
  bar_high : float;
  bar_low : float;
  bar_close : float;
  bar_volume : float
}.

(** The secondary source: [yf.Ticker(yf_code).history(period='2d')]. Making
    the ticker object performs no lookup; the lookup is [history]. *)
Definition history_source : Type := string -> result (list Bar).

Definition yf_mapping : list (string * (string * string)) :=
  [ ("sh000001", ("000001.SS", "上证指数"));
    ("sz399001", ("399001.SZ", "深证成指"));
    ("sz399006", ("399006.SZ", "创业板指"));
    ("sh000688", ("000688.SS", "科创50"));
    ("sh000016", ("000016.SS", "上证50"));
    ("sh000300", ("000300.SS", "沪深300")) ].

(** The index built from a history; [None] when [hist.empty]. *)
Definition index_of_history (ak_code name : string) (hist : list Bar)
    : result (option MarketIndex.t) :=
  match rev hist with
  | [] => Ok None
  | today :: earlier =>
      let prev := match earlier with p :: _ => p | [] => today end in
      let price := bar_close today in
      let prev_close := bar_close prev in
      let change := (price - prev_close)%float in
      change_pct <~ (if PyFloat.truthy prev_close
                     then q <~ PyFloat.div change prev_close ;;
                          Ok (q * 100)%float
                     else Ok 0%float) ;;
      Ok (Some (MarketIndex.mk ak_code name price change change_pct
                  (bar_open today) (bar_high today) (bar_low today)
                  prev_close (bar_volume today) 0%float 0%float))
  end.

(** The loop of [_get_indices_from_yfinance]; [indices] is the list built so
    far. Each lookup has its own [try]: what it raises is dropped and the
    loop goes on with the list as it was. *)
Fixpoint yf_loop (history : history_source)
    (todo : list (string * (string * string)))
    (indices : list MarketIndex.t) : Py (list MarketIndex.t) :=
  match todo with
  | [] => ret indices
  | (ak_code, (yf_code, name)) :: rest =>
      if negb (in_MAIN_INDICES ak_code) then yf_loop history rest indices
      else
        indices' <- try_except
                      (emit (EvHistory yf_code) ;;;
                       hist <- lift (history yf_code) ;;
                       found <- lift (index_of_history ak_code name hist) ;;
                       match found with
                       | None => ret indices
                       | Some index => ret (indices ++ [index])%list
                       end)
                      (fun e => ret indices) ;;
        yf_loop history rest indices'
  end.

(** Nothing in the loop raises outside the [try] of a lookup, so the outer
    handler of the source function is never entered and is left out here. *)
Definition _get_indices_from_yfinance (history : history_source)
    : Py (list MarketIndex.t) :=
  yf_loop history yf_mapping [].

(** [if not indices: indices = self._get_indices_from_yfinance()] *)
Definition fallback_if_empty (history : history_source)
    (indices : list MarketIndex.t) : Py (list MarketIndex.t) :=
  if is_nil indices then _get_indices_from_yfinance history
  else ret indices.

Definition _get_main_indices (spot : operation DataFrame.t)
    (history : history_source) : Py (list MarketIndex.t) :=
  let fetched := _call_akshare_with_retry spot "指数行情" 2 in
  let '(indices, raised) := primary_indices (outcome fetched) in
  let '(r, t) :=
    match raised with
    | None =>
        (* the end of the [try] block, and the handler around it *)
        try_except (fallback_if_empty history indices)
          (fun e => fallback_if_empty history indices)
    | Some e =>
        (* [except Exception as e] *)
        fallback_if_empty history indices
    end in
  (r, (trace fetched ++ t)%list).

Definition is_history (ev : event) : bool :=
  match ev with EvHistory _ => true | _ => false end.

(** The run looked something up in the secondary source. *)
Definition consulted_secondary (t : list event) : bool :=
  existsb is_history t.

(** ** The breadth calculator *)

(** [len(df[condition])] *)
Definition count_where (p : float -> bool) (col : list float) : Z :=
  Z.of_nat (List.length (filter p col)).

Section Breadth.

(** [series.sum()] of pandas, on a column made numeric; the order in which
    it adds is the library's. *)
Variable series_sum : list float -> float.

Definition numeric_column (df : DataFrame.t) (col : string)
    : option (list float) :=
  match DataFrame.column df col with
  | Ok cells => Some (map DataFrame.to_numeric cells)
  | Raise _ => None
  end.

(** The body of [if df is not None and not df.empty]. *)
Definition statistics_of (df : DataFrame.t) (overview : MarketOverview.t)
    : MarketOverview.t :=
  let overview :=
    match numeric_column df "涨跌幅" with
    | Some changes =>
        let overview := MarketOverview.set_up_count
          (count_where (fun c => PyFloat.gt c 0%float) changes) overview in
        let overview := MarketOverview.set_down_count
          (count_where (fun c => PyFloat.lt c 0%float) changes) overview in
        let overview := MarketOverview.set_flat_count
          (count_where (fun c => PyFloat.eq c 0%float) changes) overview in
        let overview := MarketOverview.set_limit_up_count
          (count_where (fun c => PyFloat.ge c 9.9%float) changes) overview in
        MarketOverview.set_limit_down_count
          (count_where (fun c => PyFloat.le c (-9.9)%float) changes) overview
    | None => overview
    end in
  match numeric_column df "成交额" with
  | Some amounts =>
      MarketOverview.set_total_amount
        (series_sum amounts / 1e8)%float overview
  | None => overview
  end.

(** Only the fetch can raise, and it comes before every assignment: the
    handler finds [overview] as it was handed in. *)
Definition _get_market_statistics (overview : MarketOverview.t)
    (spot : operation DataFrame.t) : Py MarketOverview.t :=
  try_except
    (fetched <- _call_akshare_with_retry spot "A股实时行情" 2 ;;
     match fetched with
     | Some df =>
         if negb (DataFrame.empty df) then ret (statistics_of df overview)
         else ret overview
     | None => ret overview
     end)
    (fun e => ret overview).

End Breadth.

(** ** The leverage indicator *)

(** The two getters [_get_margin_balance] and [_get_total_market_cap] are
    the arguments: what each returns (or raises) in this run. Whatever is
    raised is raised before the first assignment, so the handler finds
    [overview] as it was handed in. *)
Definition _get_bull_market_indicator (overview : MarketOverview.t)
    (_get_margin_balance _get_total_market_cap : Py float)
    : Py MarketOverview.t :=
  try_except
    (margin_balance <- _get_margin_balance ;;
     total_market_cap <- _get_total_market_cap ;;
     if PyFloat.gt margin_balance 0%float
        && PyFloat.gt total_market_cap 0%float
     then
       q <- lift (PyFloat.div margin_balance total_market_cap) ;;
       let margin_ratio := (q * 100)%float in
       let overview := MarketOverview.set_margin_balance margin_balance overview in
       let overview := MarketOverview.set_total_market_cap total_market_cap overview in
       let overview := MarketOverview.set_margin_ratio
                         (PyFloat.round margin_ratio 2) overview in
       let overview := MarketOverview.set_is_bull_top_warning
                         (PyFloat.gt margin_ratio 3.5%float) overview in
       ret overview
     else ret overview)
    (fun e => ret overview).

(** ** The report *)

Definition nl : string := String (ascii_of_nat 10) "".

(** [text if text else fallback] *)
Definition or_else (text fallback : string) : string :=
  if String.eqb text "" then fallback else text.

(** A loop [text = ""; for x in items: text += line(x)] *)
Definition accumulate {A} (line : A -> string) (items : list A) : string :=
  fold_left (fun text x => text ++ line x) items "".

(** A news item whose two fields the prompt can show: a [SearchResult]
    object or a dictionary. An attribute that is false ([None], the empty
    text) and a key that is missing are both [None] here; [RawNews], further
    down, is what the list may hold before its fields are read. *)
Inductive NewsItem : Type :=
| SearchResult (title snippet : option string)
| NewsDict (title snippet : option string).

(** [n.title[:k] if n.title else ''] and [n.get('title', '')[:k]] *)
Definition clipped (k : nat) (text : option string) : string :=
  match text with
  | Some s => PyStr.utf8_take k s
  | None => ""
  end.

Definition news_title (n : NewsItem) : string :=
  match n with
  | SearchResult title _ => clipped 50 title
  | NewsDict title _ => clipped 50 title
  end.

Definition news_snippet (n : NewsItem) : string :=
  match n with
  | SearchResult _ snippet => clipped 100 snippet
  | NewsDict _ snippet => clipped 100 snippet
  end.

(** [for i, n in enumerate(items, i): news_text += ...] *)
Fixpoint news_lines (i : Z) (items : list NewsItem) (news_text : string)
    : string :=
  match items with
  | [] => news_text
  | n :: rest =>
      news_lines (i + 1) rest
        (news_text ++ PyStr.of_Z i ++ ". " ++ news_title n ++ nl ++
         "   " ++ news_snippet n ++ nl)
  end.

Definition direction (change_pct : float) : string :=
  if PyFloat.gt change_pct 0%float then "↑"
  else if PyFloat.lt change_pct 0%float then "↓"
  else "-".

Definition sector_text (s : Sector.t) : string :=
  Sector.name s ++ "(" ++ PyFloat.format_f true 2 (Sector.change_pct s) ++ "%)".

Module Prompt.

Definition index_line (idx : MarketIndex.t) : string :=
  "- " ++ MarketIndex.name idx ++ ": " ++
  PyFloat.format_f false 2 (MarketIndex.current idx) ++ " (" ++
  direction (MarketIndex.change_pct idx) ++
  PyFloat.format_f false 2 (PrimFloat.abs (MarketIndex.change_pct idx)) ++
  "%)" ++ nl.

Definition indices_text (overview : MarketOverview.t) : string :=
  accumulate index_line (MarketOverview.indices overview).

Definition north_flow_line (overview : MarketOverview.t) : string :=
  "- 北向资金: " ++
  PyFloat.format_f true 2 (MarketOverview.north_flow overview) ++ " 亿元".

Definition _format_margin_data_for_prompt (overview : MarketOverview.t)
    : string :=
  if PyFloat.le (MarketOverview.margin_ratio overview) 0%float then "暂无数据"
  else
    let warning_text :=
      if MarketOverview.is_bull_top_warning overview
      then "【警告】触发逃顶信号！" else "" in
    "- 两市融资余额: " ++ PyFloat.format_f false 0 (MarketOverview.margin_balance overview) ++ "亿" ++ nl ++
    "                - 两市总市值: " ++ PyFloat.format_f false 0 (MarketOverview.total_market_cap overview) ++ "亿" ++ nl ++
    "                - 融资/市值比: " ++ PyFloat.format_f false 2 (MarketOverview.margin_ratio overview) ++ "% (阈值: 3.5%)" ++ nl ++
    "                " ++ warning_text.

Definition instructions : string :=
  "你是一位专业的A股市场分析师，请根据以下数据生成一份简洁的大盘复盘报告。" ++ nl ++
  nl ++
  "【重要】输出要求：" ++ nl ++
  "- 必须输出纯 Markdown 文本格式" ++ nl ++
  "- 禁止输出 JSON 格式" ++ nl ++
  "- 禁止输出代码块" ++ nl ++
  "- emoji 仅在标题处少量使用（每个标题最多1个）" ++ nl ++
  nl ++
  "---" ++ nl ++
  nl.

Definition date_block (overview : MarketOverview.t) : string :=
  "# 今日市场数据" ++ nl ++
  nl ++
  "## 日期" ++ nl ++
  MarketOverview.date overview ++ nl ++
  nl.

Definition indices_block (overview : MarketOverview.t) : string :=
  "## 主要指数" ++ nl ++
  or_else (indices_text overview) "暂无指数数据（接口异常）" ++ nl ++
  nl.

Definition market_block (overview : MarketOverview.t) : string :=
  "## 市场概况" ++ nl ++
  "- 上涨: " ++ PyStr.of_Z (MarketOverview.up_count overview) ++ " 家 | 下跌: " ++ PyStr.of_Z (MarketOverview.down_count overview) ++ " 家 | 平盘: " ++ PyStr.of_Z (MarketOverview.flat_count overview) ++ " 家" ++ nl ++
  "- 涨停: " ++ PyStr.of_Z (MarketOverview.limit_up_count overview) ++ " 家 | 跌停: " ++ PyStr.of_Z (MarketOverview.limit_down_count overview) ++ " 家" ++ nl ++
  "- 两市成交额: " ++ PyFloat.format_f false 0 (MarketOverview.total_amount overview) ++ " 亿元" ++ nl ++
  north_flow_line overview ++ nl ++
  nl.

Definition margin_block (overview : MarketOverview.t) : string :=
  "## 牛市逃顶指标" ++ nl ++
  _format_margin_data_for_prompt overview ++ nl ++
  nl.

Definition sectors_block (overview : MarketOverview.t) : string :=
  let top_sectors_text :=
    PyStr.join ", " (map sector_text (firstn 3 (MarketOverview.top_sectors overview))) in
  let bottom_sectors_text :=
    PyStr.join ", " (map sector_text (firstn 3 (MarketOverview.bottom_sectors overview))) in
  "## 板块表现" ++ nl ++
  "领涨: " ++ or_else top_sectors_text "暂无数据" ++ nl ++
  "领跌: " ++ or_else bottom_sectors_text "暂无数据" ++ nl ++
  nl.

Definition news_block (overview : MarketOverview.t) (news : list NewsItem)
    : string :=
  let news_text := news_lines 1 (firstn 6 news) "" in
  "## 市场新闻" ++ nl ++
  or_else news_text "暂无相关新闻" ++ nl ++
  nl ++
  (if String.eqb (indices_text overview) ""
   then "注意：由于行情数据获取失败，请主要根据【市场新闻】进行定性分析和总结，不要编造具体的指数点位。"
   else "") ++ nl ++
  nl ++
  "---" ++ nl ++
  nl.

Definition outline (overview : MarketOverview.t) : string :=
  "# 输出格式模板（请严格按此格式输出）" ++ nl ++
  nl ++
  "## 📊 " ++ MarketOverview.date overview ++ " 大盘复盘" ++ nl ++
  nl ++
  "### 一、市场总结" ++ nl ++
  "（2-3句话概括今日市场整体表现，包括指数涨跌、成交量变化）" ++ nl ++
  nl ++
  "### 二、指数点评" ++ nl ++
  "（分析上证、深证、创业板等各指数走势特点）" ++ nl ++
  nl ++
  "### 三、资金动向" ++ nl ++
  "（解读成交额和北向资金流向的含义）" ++ nl ++
  nl ++
  "### 四、逃顶指标分析" ++ nl ++
  "（分析融资余额/总市值比值，判断市场是否过热，是否触发逃顶警告）" ++ nl ++
  nl ++
  "### 五、热点解读" ++ nl ++
  "（分析领涨领跌板块背后的逻辑和驱动因素）" ++ nl ++
  nl ++
  "### 六、后市展望" ++ nl ++
  "（结合当前走势和新闻，给出明日市场预判）" ++ nl ++
  nl ++
  "### 七、风险提示" ++ nl ++
  "（需要关注的风险点，特别是如果逃顶指标异常需要重点提示）" ++ nl ++
  nl ++
  "---" ++ nl ++
  nl ++
  "请直接输出复盘报告内容，不要输出其他说明文字。" ++ nl.

(** The f-string of [_build_review_prompt], block after block. *)
Definition _build_review_prompt (overview : MarketOverview.t)
    (news : list NewsItem) : string :=
  instructions ++
  date_block overview ++
  indices_block overview ++
  market_block overview ++
  margin_block overview ++
  sectors_block overview ++
  news_block overview news ++
  outline overview.

End Prompt.

Module Template.

(** [next((idx for idx in overview.indices if idx.code == '000001'), None)] *)
Definition sh_index (overview : MarketOverview.t) : option MarketIndex.t :=
  find (fun idx => String.eqb (MarketIndex.code idx) "000001")
    (MarketOverview.indices overview).

(** An instance of the dataclass is always true, so [if sh_index] asks
    whether an index was found. *)
Definition market_mood (overview : MarketOverview.t) : string :=
  match sh_index overview with
  | Some sh =>
      if PyFloat.gt (MarketIndex.change_pct sh) 1%float then "强势上涨"
      else if PyFloat.gt (MarketIndex.change_pct sh) 0%float then "小幅上涨"
      else if PyFloat.gt (MarketIndex.change_pct sh) (-1)%float then "小幅下跌"
      else "明显下跌"
  | None => "震荡整理"
  end.

Definition index_line (idx : MarketIndex.t) : string :=
  "- **" ++ MarketIndex.name idx ++ "**: " ++
  PyFloat.format_f false 2 (MarketIndex.current idx) ++ " (" ++
  direction (MarketIndex.change_pct idx) ++
  PyFloat.format_f false 2 (PrimFloat.abs (MarketIndex.change_pct idx)) ++
  "%)" ++ nl.

Definition indices_text (overview : MarketOverview.t) : string :=
  accumulate index_line (firstn 4 (MarketOverview.indices overview)).

(** The four banners of the leverage section: the status line and its
    advisory sentence. *)
Definition warning_banner : string * string :=
  ("🔴 **警告：触发逃顶信号！**",
   "融资余额占比超过 3.5%，市场过热，建议谨慎操作").

Definition watch_banner : string * string :=
  ("🟡 **关注：接近警戒线**",
   "融资余额占比接近 3.5%，市场情绪偏热").

Definition normal_banner : string * string :=
  ("🟢 **正常：市场情绪适中**",
   "融资余额占比处于合理区间").

Definition cool_banner : string * string :=
  ("🟢 **安全：市场情绪偏冷**",
   "融资余额占比较低，市场相对安全").

(** The [if]/[elif] chain that sets [status] and [tip]. *)
Definition banner (overview : MarketOverview.t) : string * string :=
  if MarketOverview.is_bull_top_warning overview then warning_banner
  else if PyFloat.gt (MarketOverview.margin_ratio overview) 3.0%float
  then watch_banner
  else if PyFloat.gt (MarketOverview.margin_ratio overview) 2.5%float
  then normal_banner
  else cool_banner.

Definition margin_table (overview : MarketOverview.t) : string :=
  "| 指标 | 数值 |" ++ nl ++
  "|------|------|" ++ nl ++
  "| 两市融资余额 | " ++ PyFloat.format_f false 0 (MarketOverview.margin_balance overview) ++ "亿 |" ++ nl ++
  "| 两市总市值 | " ++ PyFloat.format_f false 0 (MarketOverview.total_market_cap overview) ++ "亿 |" ++ nl ++
  "| 融资/市值比 | **" ++ PyFloat.format_f false 2 (MarketOverview.margin_ratio overview) ++ "%** |" ++ nl ++
  "| 逃顶阈值 | 3.5% |" ++ nl.

Definition no_margin_data : string :=
  "暂无数据（融资余额或总市值数据获取失败）".

Definition _format_bull_top_indicator (overview : MarketOverview.t)
    : string :=
  if PyFloat.le (MarketOverview.margin_ratio overview) 0%float
  then no_margin_data
  else
    let (status, tip) := banner overview in
    margin_table overview ++
    nl ++
    status ++ nl ++
    nl ++
    "> 💡 " ++ tip.

Definition north_flow_row (overview : MarketOverview.t) : string :=
  "| 北向资金 | " ++
  PyFloat.format_f true 2 (MarketOverview.north_flow overview) ++ "亿 |".

Definition title_section (overview : MarketOverview.t) : string :=
  "## 📊 " ++ MarketOverview.date overview ++ " 大盘复盘" ++ nl ++
  nl.

Definition summary_section (overview : MarketOverview.t) : string :=
  "### 一、市场总结" ++ nl ++
  "今日A股市场整体呈现**" ++ market_mood overview ++ "**态势。" ++ nl ++
  nl.

Definition index_section (overview : MarketOverview.t) : string :=
  "### 二、主要指数" ++ nl ++
  indices_text overview ++ nl ++
  nl.

Definition breadth_section (overview : MarketOverview.t) : string :=
  "### 三、涨跌统计" ++ nl ++
  "| 指标 | 数值 |" ++ nl ++
  "|------|------|" ++ nl ++
  "| 上涨家数 | " ++ PyStr.of_Z (MarketOverview.up_count overview) ++ " |" ++ nl ++
  "| 下跌家数 | " ++ PyStr.of_Z (MarketOverview.down_count overview) ++ " |" ++ nl ++
  "| 涨停 | " ++ PyStr.of_Z (MarketOverview.limit_up_count overview) ++ " |" ++ nl ++
  "| 跌停 | " ++ PyStr.of_Z (MarketOverview.limit_down_count overview) ++ " |" ++ nl ++
  "| 两市成交额 | " ++ PyFloat.format_f false 0 (MarketOverview.total_amount overview) ++ "亿 |" ++ nl ++
  north_flow_row overview ++ nl ++
  nl.

Definition leverage_section (overview : MarketOverview.t) : string :=
  "### 四、牛市逃顶指标" ++ nl ++
  _format_bull_top_indicator overview ++ nl ++
  nl.

Definition sector_section (overview : MarketOverview.t) : string :=
  let top_text :=
    PyStr.join "、" (map Sector.name (firstn 3 (MarketOverview.top_sectors overview))) in
  let bottom_text :=
    PyStr.join "、" (map Sector.name (firstn 3 (MarketOverview.bottom_sectors overview))) in
  "### 五、板块表现" ++ nl ++
  "- **领涨**: " ++ top_text ++ nl ++
  "- **领跌**: " ++ bottom_text ++ nl ++
  nl.

Definition risk_section : string :=
  "### 六、风险提示" ++ nl ++
  "市场有风险，投资需谨慎。以上数据仅供参考，不构成投资建议。" ++ nl ++
  nl.

(** [now] is [datetime.now().strftime('%H:%M')]. *)
Definition footer (now : string) : string :=
  "---" ++ nl ++
  "*复盘时间: " ++ now ++ "*" ++ nl.

(** The f-string of [_generate_template_review], section after section. *)
Definition _generate_template_review (overview : MarketOverview.t)
    (news : list NewsItem) (now : string) : string :=
  title_section overview ++
  summary_section overview ++
  index_section overview ++
  breadth_section overview ++
  leverage_section overview ++
  sector_section overview ++
  risk_section ++
  footer now.

End Template.

(** ** The news as the report stage receives it *)

(** An element of the [news] list: an object that has the attribute [title]
    ([snippet] may be missing), a dictionary (a key may be missing), or a
    value with neither the attribute nor a [get]. The values read from them
    are texts, numbers or [None]. *)
Inductive RawNews : Type :=
| NewsObject (title : cell) (snippet : option cell)
| NewsMapping (title snippet : option cell)
| NewsOther.

(** [bool(v)] *)
Definition cell_truthy (v : cell) : bool :=
  match v with
  | CNum f => PyFloat.truthy f
  | CStr s => negb (String.eqb s "")
  | CNone => false
  end.

(** The text that [v[:k]] cuts: slicing anything but a text raises
    [TypeError]. *)
Definition sliceable (v : cell) : result string :=
  match v with
  | CStr s => Ok s
  | _ => Raise (OtherError "TypeError")
  end.

(** [n.title[:k] if n.title else '']: the text to cut, [None] for [''] *)
Definition read_attribute (v : cell) : result (option string) :=
  if cell_truthy v then s <~ sliceable v ;; Ok (Some s) else Ok None.

(** [n.get('title', '')[:k]] *)
Definition read_key (v : option cell) : result (option string) :=
  match v with
  | None => Ok None
  | Some v => s <~ sliceable v ;; Ok (Some s)
  end.

(** The body of the loop over the news, lines 684-691: the title is read and
    cut before the snippet is looked at. *)
Definition read_news_item (n : RawNews) : result NewsItem :=
  match n with
  | NewsObject title snippet =>
      title <~ read_attribute title ;;
      snippet <~ match snippet with
                 | Some v => read_attribute v
                 | None => Raise AttributeError
                 end ;;
      Ok (SearchResult title snippet)
  | NewsMapping title snippet =>
      title <~ read_key title ;;
      snippet <~ read_key snippet ;;
      Ok (NewsDict title snippet)
  | NewsOther => Raise AttributeError
  end.

(** The loop over the news: it ends at the first element that raises. *)
Fixpoint read_news (news : list RawNews) : result (list NewsItem) :=
  match news with
  | [] => Ok []
  | n :: rest =>
      item <~ read_news_item n ;;
      items <~ read_news rest ;;
      Ok (item :: items)
  end.

(** [self._build_review_prompt(overview, news)] on the list as it is
    received: the loop runs over [news[:6]], no other element is read. *)
Definition review_prompt (overview : MarketOverview.t) (news : list RawNews)
    : result string :=
  items <~ read_news (firstn 6 news) ;;
  Ok (Prompt._build_review_prompt overview items).

(** The text capability behind [self.analyzer]: what [is_available()] gives,
    and what a generation returns for a prompt (its text, [None] when it has
    none, or an exception). *)
Record Analyzer : Type := mkAnalyzer {
  is_available : result bool;
  generate : string -> result (option string)
}.

(** The body of [generate_market_review] on what its two renderings give:
    [template] is the outcome of [self._generate_template_review(overview,
    news)] and [prompt] that of [self._build_review_prompt(overview, news)],
    each a text or the exception it raises. The availability test and the
    building of the prompt come before the [try], and the template is
    rendered outside it or in its handler: what they raise leaves the
    method. *)
Definition market_review_of (template prompt : result string)
    (analyzer : option Analyzer) : result string :=
  match analyzer with
  | None => template
  | Some a =>
      available <~ is_available a ;;
      if negb available then template
      else
        prompt <~ prompt ;;
        match generate a prompt with
        | Ok (Some review) =>
            if String.eqb review "" then template else Ok review
        | Ok None => template
        | Raise e => template
        end
  end.

(** On a snapshot whose sector names are texts the template renders; it
    does not read the news. *)
Definition generate_market_review (analyzer : option Analyzer)
    (overview : MarketOverview.t) (news : list RawNews) (now : string)
    : result string :=
  market_review_of (Ok (Template._generate_template_review overview [] now))
    (review_prompt overview news) analyzer.

(** ** Vocabulary of the statements *)

(** What one attempt leaves in the trace when it fails: the call, and the
    wait that follows it unless the attempt was the last one. *)
Definition attempt_events (name : string) (attempts : Z) (attempt : Z)
    : list event :=
  EvCall name ::
  (if attempt <? attempts then [EvSleep (backoff attempt)] else []).

(** The trace of a run whose [k]-th call is the last one made: [k] calls,
    and between two calls the wait [min(2^i, 5)] after the [i]-th. *)
Definition calls_and_waits (name : string) (k : Z) : list event :=
  (flat_map (fun i => [EvCall name; EvSleep (backoff i)]) (py_range 1 k)
   ++ [EvCall name])%list.

(** The trace of a run in which every attempt failed. *)
Definition exhausted_events (name : string) (attempts : Z) : list event :=
  if 1 <=? attempts then calls_and_waits name attempts else [].

(** The four fields the leverage indicator derives, and their defaults. *)
Definition leverage_fields (o : MarketOverview.t)
    : float * float * float * bool :=
  (MarketOverview.margin_balance o, MarketOverview.total_market_cap o,
   MarketOverview.margin_ratio o, MarketOverview.is_bull_top_warning o).

Definition leverage_defaults : float * float * float * bool :=
  (0%float, 0%float, 0%float, false).

(** Both getters returned, and both values are strictly positive. *)
Definition both_positive (m c : Py float) : bool :=
  match outcome m, outcome c with
  | Ok margin_balance, Ok total_market_cap =>
      PyFloat.gt margin_balance 0%float && PyFloat.gt total_market_cap 0%float
  | _, _ => false
  end.

(** The snapshot of a day on which the getters return [margin_balance] and
    [total_market_cap], the other sources having delivered nothing. *)
Definition indicator_of (today : string)
    (margin_balance total_market_cap : float) : MarketOverview.t :=
  match outcome (_get_bull_market_indicator (MarketOverview.new today)
                   (ret margin_balance) (ret total_market_cap)) with
  | Ok overview => overview
  | Raise _ => MarketOverview.new today
  end.


(** The parts of a text, one after the other. *)
Definition flatten (parts : list string) : string :=
  fold_right String.append "" parts.

(** The stem of every placeholder the source writes for data it does not
    have: 暂无数据, 暂无指数数据, 暂无相关新闻. *)
Definition no_data_marker : string := "暂无".

(** A snapshot of a day on which no source delivered anything. *)
Definition empty_snapshot : MarketOverview.t := MarketOverview.new "2025-01-02".



(** What the primary source contributes in a run: the indices built from the
    table that the retry wrapper returned. *)
Definition primary_matches (spot : operation DataFrame.t)
    : list MarketIndex.t :=
  fst (primary_indices (outcome (_call_akshare_with_retry spot "指数行情" 2))).

(** What the lookup of one tracked index contributes to the list of the
    secondary source: its index, or nothing when the lookup raised or found
    no price. *)
Definition lookup_one (history : history_source)
    (entry : string * (string * string)) : list MarketIndex.t :=
  let '(ak_code, (yf_code, name)) := entry in
  match history yf_code with
  | Ok hist =>
      match index_of_history ak_code name hist with
      | Ok (Some index) => [index]
      | _ => []
      end
  | Raise _ => []
  end.

Definition tracked (entry : string * (string * string)) : bool :=
  in_MAIN_INDICES (fst entry).

(** The code of an index is one of the keys of [MAIN_INDICES]. *)
Definition has_tracked_code (idx : MarketIndex.t) : Prop :=
  in_MAIN_INDICES (MarketIndex.code idx) = true.

(** Tables of the primary source for the examples. *)
Definition spot_columns : list string :=
  ["代码"; "名称"; "最新价"; "涨跌额"; "涨跌幅"; "昨收"; "今开"; "最高"; "最低";
   "成交量"; "成交额"].

Definition spot_row (code name : string)
    (latest change pct prev_close : float) : list cell :=
  [CStr code; CStr name; CNum latest; CNum change; CNum pct; CNum prev_close;
   CNum prev_close; CNum latest; CNum prev_close; CNum 1000000%float;
   CNum 5e11%float].

(** Three of the six tracked codes are in the table. *)
Definition three_of_six : DataFrame.t :=
  DataFrame.mk spot_columns
    [ spot_row "sh000001" "上证指数" 3366%float 66%float 2%float 3300%float;
      spot_row "sz399001" "深证成指" 10450%float (-50)%float (-0.476)%float 10500%float;
      spot_row "sh000300" "沪深300" 3900%float 0%float 0%float 3900%float;
      spot_row "sh000905" "中证500" 5800%float 58%float 1.01%float 5742%float ].

(** A table in which no tracked code occurs. *)
Definition none_of_six : DataFrame.t :=
  DataFrame.mk spot_columns
    [ spot_row "sh000905" "中证500" 5800%float 58%float 1.01%float 5742%float ].

(** A secondary source that answers with two days of prices for every code
    but the one of the growth board, whose lookup raises. *)
Definition patchy_history : history_source :=
  fun yf_code =>
    if String.eqb yf_code "399006.SZ" then Raise (OtherError "no data")
    else Ok [ mkBar 99%float 101%float 98%float 100%float 1000%float;
              mkBar 100%float 103%float 99%float 102%float 1200%float ].

(** The composite index alone, up by 2%. *)
Definition composite_rally : DataFrame.t :=
  DataFrame.mk spot_columns
    [ spot_row "sh000001" "上证指数" 3366%float 66%float 2%float 3300%float ].

(** The snapshot whose indices the resolver built from [composite_rally]. *)
Definition composite_rally_snapshot : MarketOverview.t :=
  match outcome (_get_main_indices (fun _ => Ok composite_rally)
                   patchy_history) with
  | Ok indices => MarketOverview.set_indices indices empty_snapshot
  | Raise _ => empty_snapshot
  end.

(** The table of the breadth example: the changes
    10.0, 9.9, 5, 0, -3, -9.9, -10 and NaN. *)
Definition breadth_example : DataFrame.t :=
  DataFrame.mk ["代码"; "涨跌幅"]
    [ [CStr "600000"; CNum 10.0%float];
      [CStr "600001"; CNum 9.9%float];
      [CStr "600002"; CNum 5%float];
      [CStr "600003"; CNum 0%float];
      [CStr "600004"; CNum (-3)%float];
      [CStr "600005"; CNum (-9.9)%float];
      [CStr "600006"; CNum (-10)%float];
      [CStr "600007"; CNum nan] ].

(** The same table without its last row. *)
Definition breadth_example_without_nan : DataFrame.t :=
  DataFrame.mk (DataFrame.columns breadth_example)
    (removelast (DataFrame.rows breadth_example)).

From Stdlib Require Import Permutation Sorted.

(** ** The sector ranking *)

(** [x != x], the test behind [dropna] on a numeric column. *)
Definition is_nan (x : float) : bool := negb (PrimFloat.eqb x x).

(** The table of the sector source. A row gives the text of its 板块名称,
    a column of texts as the source has it, and the cell of its 涨跌幅;
    [has_names] and [has_changes] say whether the table has these two
    columns (what a row gives for a column the table does not have is not
    read). *)
Module SectorFrame.

Record t : Type := mk {
  has_names : bool;
  has_changes : bool;
  rows : list (string * cell)
}.

(** [df.empty] *)
Definition empty (df : t) : bool := is_nil (rows df).

End SectorFrame.

(** [pd.to_numeric(df[change_col], errors='coerce')] followed by
    [df.dropna(subset=[change_col])]: the rows whose change is a number, in
    the order of the table. *)
Definition valid_sector_rows (df : SectorFrame.t) : list (string * float) :=
  filter (fun r => negb (is_nan (snd r)))
    (map (fun r => (fst r, DataFrame.to_numeric (snd r)))
       (SectorFrame.rows df)).

(** [x] put in front of the first row that is not above it. *)
Fixpoint insert_descending (x : string * float) (l : list (string * float))
    : list (string * float) :=
  match l with
  | [] => [x]
  | y :: l' =>
      if PyFloat.ge (snd x) (snd y) then x :: l
      else y :: insert_descending x l'
  end.

(** [x] put in front of the first row that is not below it. *)
Fixpoint insert_ascending (x : string * float) (l : list (string * float))
    : list (string * float) :=
  match l with
  | [] => [x]
  | y :: l' =>
      if PyFloat.le (snd x) (snd y) then x :: l
      else y :: insert_ascending x l'
  end.

(** [df.nlargest(n, change_col)]: the first [n] rows in descending order of
    the change, rows of equal change in the order of the table. *)
Definition nlargest (n : nat) (l : list (string * float))
    : list (string * float) :=
  firstn n (fold_right insert_descending [] l).

(** [df.nsmallest(n, change_col)] *)
Definition nsmallest (n : nat) (l : list (string * float))
    : list (string * float) :=
  firstn n (fold_right insert_ascending [] l).

(** [[{'name': row['板块名称'], 'change_pct': row[change_col]}
      for _, row in selected.iterrows()]]: without the column of the names the
    first row raises [KeyError]. *)
Definition sector_dicts (df : SectorFrame.t) (selected : list (string * float))
    : result (list Sector.t) :=
  match selected with
  | [] => Ok []
  | _ :: _ =>
      if SectorFrame.has_names df
      then Ok (map (fun r => Sector.mk (fst r) (snd r)) selected)
      else Raise KeyError
  end.

(** [overview.top_sectors = v] and [overview.bottom_sectors = v] *)
Definition set_top_sectors (v : list Sector.t) (o : MarketOverview.t)
    : MarketOverview.t :=
  MarketOverview.mk (MarketOverview.date o) (MarketOverview.indices o)
    (MarketOverview.up_count o) (MarketOverview.down_count o)
    (MarketOverview.flat_count o) (MarketOverview.limit_up_count o)
    (MarketOverview.limit_down_count o) (MarketOverview.total_amount o)
    (MarketOverview.north_flow o) v (MarketOverview.bottom_sectors o)
    (MarketOverview.margin_balance o) (MarketOverview.total_market_cap o)
    (MarketOverview.margin_ratio o) (MarketOverview.is_bull_top_warning o)
    (MarketOverview.margin_data_date o).

Definition set_bottom_sectors (v : list Sector.t) (o : MarketOverview.t)
    : MarketOverview.t :=
  MarketOverview.mk (MarketOverview.date o) (MarketOverview.indices o)
    (MarketOverview.up_count o) (MarketOverview.down_count o)
    (MarketOverview.flat_count o) (MarketOverview.limit_up_count o)
    (MarketOverview.limit_down_count o) (MarketOverview.total_amount o)
    (MarketOverview.north_flow o) (MarketOverview.top_sectors o) v
    (MarketOverview.margin_balance o) (MarketOverview.total_market_cap o)
    (MarketOverview.margin_ratio o) (MarketOverview.is_bull_top_warning o)
    (MarketOverview.margin_data_date o).

(** The body of [if change_col in df.columns]. The two lists are assigned one
    after the other: an exception leaves [overview] with what was assigned
    before it. *)
Definition rankings_of (df : SectorFrame.t) (overview : MarketOverview.t)
    : MarketOverview.t :=
  let valid := valid_sector_rows df in
  match sector_dicts df (nlargest 5 valid) with
  | Raise _ => overview
  | Ok top =>
      let overview := set_top_sectors top overview in
      match sector_dicts df (nsmallest 5 valid) with
      | Raise _ => overview
      | Ok bottom => set_bottom_sectors bottom overview
      end
  end.

Definition _get_sector_rankings (overview : MarketOverview.t)
    (board : operation SectorFrame.t) : Py MarketOverview.t :=
  try_except
    (fetched <- _call_akshare_with_retry board "行业板块行情" 2 ;;
     match fetched with
     | Some df =>
         if negb (SectorFrame.empty df) then
           if SectorFrame.has_changes df then ret (rankings_of df overview)
           else ret overview
         else ret overview
     | None => ret overview
     end)
    (fun e => ret overview).

(** ** The sources of the leverage indicator *)

(** [float(value)] on a cell. *)
Definition py_float (c : cell) : result float :=
  match c with
  | CNum f => Ok f
  | CStr _ => Raise ValueError
  | CNone => Raise (OtherError "TypeError")
  end.

Section MarginBalance.

(** [df['日期'] = pd.to_datetime(df['日期'])] followed by
    [df.sort_values('日期', ascending=False)]: what pandas makes of the table,
    or the exception it raises on a date it cannot read. *)
Variable newest_first : DataFrame.t -> result DataFrame.t.

Definition _get_margin_balance (info : operation DataFrame.t) : Py float :=
  try_except
    (fetched <- _call_akshare_with_retry info "融资融券账户信息" 2 ;;
     match fetched with
     | Some df =>
         if negb (DataFrame.empty df) then
           df <- (if DataFrame.has_column df "日期"
                  then lift (newest_first df)
                  else ret df) ;;
           (* df.iloc[0] *)
           latest <- lift (match DataFrame.rows df with
                           | row :: _ => Ok row
                           | [] => Raise IndexError
                           end) ;;
           match DataFrame.row_get df latest "融资余额" with
           | Some value => lift (py_float value)
           | None => ret 0%float
           end
         else ret 0%float
     | None => ret 0%float
     end)
    (fun e => ret 0%float).

End MarginBalance.

Section SseMarketCap.

(** [series.sum()], [str.lower()] and whether [df[col].dtype] is one of
    float64 and int64: pandas' and Python's own. *)
Variable series_sum : list float -> float.
Variable str_lower : string -> string.
Variable numeric_dtype : DataFrame.t -> string -> bool.

(** [for col in df.columns]: the first column whose name holds 市值 or, in
    lower case, market decides; without one the loop ends and the function
    goes on to [return 0.0]. *)
Fixpoint scan_cap_columns (df : DataFrame.t) (cols : list string) : float :=
  match cols with
  | [] => 0%float
  | col :: rest =>
      if PyStr.is_infix "市值" col || PyStr.is_infix "market" (str_lower col)
      then
        if numeric_dtype df col then
          match DataFrame.column df col with
          | Ok cells => series_sum (map DataFrame.to_numeric cells)
          | Raise _ => 0%float
          end
        else 0%float
      else scan_cap_columns df rest
  end.

Definition _get_sse_market_cap (summary : operation DataFrame.t) : Py float :=
  try_except
    (fetched <- _call_akshare_with_retry summary "上交所市值统计" 2 ;;
     match fetched with
     | Some df =>
         if negb (DataFrame.empty df) then
           items <- lift (DataFrame.column df "项目") ;;
           match DataFrame.select (DataFrame.rows df) (eq_mask "总市值" items) with
           | row :: _ => lift (float_or_zero (DataFrame.row_get df row "股票"))
           | [] => ret (scan_cap_columns df (DataFrame.columns df))
           end
         else ret 0%float
     | None => ret 0%float
     end)
    (fun e => ret 0%float).

End SseMarketCap.

(** What [response.json()] returns. The keys of an object are distinct. *)
#[warnings="-register-all"]
Inductive json : Type :=
| JNull
| JBool (b : bool)
| JInt (z : Z)
| JFloat (f : float)
| JString (s : string)
| JArray (items : list json)
| JObject (members : list (string * json)).

(** [bool(value)] *)
Definition json_truthy (v : json) : bool :=
  match v with
  | JNull => false
  | JBool b => b
  | JInt z => negb (z =? 0)
  | JFloat f => PyFloat.truthy f
  | JString s => negb (String.eqb s "")
  | JArray items => negb (is_nil items)
  | JObject members => negb (is_nil members)
  end.

Fixpoint assoc (key : string) (members : list (string * json)) : option json :=
  match members with
  | [] => None
  | (k, v) :: rest => if String.eqb k key then Some v else assoc key rest
  end.

(** [row.get(key, default)] *)
Definition dict_get (members : list (string * json)) (key : string)
    (default : json) : json :=
  match assoc key members with
  | Some v => v
  | None => default
  end.

(** [a or b] *)
Definition py_or (a b : json) : json := if json_truthy a then a else b.

(** [value == text] *)
Definition json_is (v : json) (text : string) : bool :=
  match v with
  | JString s => String.eqb s text
  | _ => false
  end.

(** [s.replace(old, new)] for an [old] that is not empty: the occurrences of
    [old] from left to right, none overlapping another. [skip] is the number
    of bytes still to pass over, those of the occurrence just replaced. *)
Fixpoint replace_from (old new : string) (skip : nat) (s : string) : string :=
  match s with
  | EmptyString => ""
  | String c s' =>
      match skip with
      | S k => replace_from old new k s'
      | O =>
          if PyStr.starts_with old s
          then new ++ replace_from old new (Nat.pred (String.length old)) s'
          else String c (replace_from old new O s')
      end
  end.

Definition replace (old new s : string) : string := replace_from old new O s.

Section SzseMarketCap.

(** [float(text)]: the number the text spells, or nothing when Python raises
    [ValueError]. *)
Variable float_of_str : string -> option float.

(** [cap_str.replace(',', '').replace('亿元', '')] *)
Definition clean_cap (cap_str : string) : string :=
  replace "亿元" "" (replace "," "" cap_str).

(** The loop [for row in table_data]: [Return] is the value returned from
    inside the loop, [Continue] the normal end of the loop. *)
Fixpoint scan_szse_rows (table_data : list json)
    : result (completion float) :=
  match table_data with
  | [] => Ok Continue
  | JObject row :: rest =>
      if json_is (dict_get row "lbmc" JNull) "股票"
         || json_is (dict_get row "zqlb" JNull) "股票"
         || json_is (dict_get row "证券类别" JNull) "股票"
      then
        let cap_str :=
          py_or (dict_get row "sjzz" (JString ""))
            (py_or (dict_get row "zsz" (JString ""))
               (dict_get row "总市值" (JString ""))) in
        if json_truthy cap_str then
          match cap_str with
          | JString text =>
              match float_of_str (clean_cap text) with
              | Some cap => Ok (Return cap)
              | None => scan_szse_rows rest
              end
          | _ => Raise AttributeError
          end
        else scan_szse_rows rest
      else scan_szse_rows rest
  | _ :: _ => Raise AttributeError
  end.

(** [data[0].get('data', [])] and the rows it is iterated into. Only a list
    gives rows; a text or an object that is not empty gives items without
    [get], and what cannot be iterated raises. *)
Definition szse_table_data (first : json) : result (list json) :=
  match first with
  | JObject members =>
      match dict_get members "data" (JArray []) with
      | JArray rows => Ok rows
      | JString "" => Ok []
      | JObject [] => Ok []
      | JString _ => Raise AttributeError
      | JObject _ => Raise AttributeError
      | _ => Raise (OtherError "TypeError")
      end
  | _ => Raise AttributeError
  end.

(** [response] is what the request to the exchange and the decoding of its
    answer give: the decoded value, or the exception of the network, of the
    status or of the decoder. *)
Definition _get_szse_market_cap (response : result json) : Py float :=
  try_except
    (done <- try_except
               (data <- lift response ;;
                match data with
                | JArray (first :: _) =>
                    table_data <- lift (szse_table_data first) ;;
                    lift (scan_szse_rows table_data)
                | _ => ret Continue
                end)
               (fun e => ret Continue) ;;
     match done with
     | Return cap => ret cap
     | Continue => ret 0%float
     end)
    (fun e => ret 0%float).

End SzseMarketCap.

(** [total_cap] starts at 0.0 and each getter adds to it; what a getter
    raises ends the additions and the sum so far is returned. *)
Definition _get_total_market_cap (_get_sse_market_cap _get_szse_market_cap : Py float)
    : Py float :=
  let total_cap := 0%float in
  match _get_sse_market_cap with
  | (Raise e, t) => (Ok total_cap, t)
  | (Ok sse_cap, t) =>
      let total_cap := (total_cap + sse_cap)%float in
      match _get_szse_market_cap with
      | (Raise e, t') => (Ok total_cap, (t ++ t')%list)
      | (Ok szse_cap, t') => (Ok (total_cap + szse_cap)%float, (t ++ t')%list)
      end
  end.

(** ** The snapshot of a day *)

(** What the sources outside the module do in one run. *)
Record Sources : Type := mkSources {
  stock_zh_index_spot_sina : operation DataFrame.t;
  ticker_history : history_source;
  stock_zh_a_spot_em : operation DataFrame.t;
  stock_board_industry_name_em : operation SectorFrame.t;
  stock_margin_account_info : operation DataFrame.t;
  stock_sse_summary : operation DataFrame.t;
  szse_report : result json
}.

Section Overview.

Variable series_sum : list float -> float.
Variable newest_first : DataFrame.t -> result DataFrame.t.
Variable str_lower : string -> string.
Variable numeric_dtype : DataFrame.t -> string -> bool.
Variable float_of_str : string -> option float.

(** [_get_bull_market_indicator] with the getters of the module. *)
Definition bull_market_indicator (overview : MarketOverview.t)
    (src : Sources) : Py MarketOverview.t :=
  _get_bull_market_indicator overview
    (_get_margin_balance newest_first (stock_margin_account_info src))
    (_get_total_market_cap
       (_get_sse_market_cap series_sum str_lower numeric_dtype
          (stock_sse_summary src))
       (_get_szse_market_cap float_of_str (szse_report src))).

(** [today] is [datetime.now().strftime('%Y-%m-%d')]. *)
Definition get_market_overview (src : Sources) (today : string)
    : Py MarketOverview.t :=
  let overview := MarketOverview.new today in
  indices <- _get_main_indices (stock_zh_index_spot_sina src)
               (ticker_history src) ;;
  let overview := MarketOverview.set_indices indices overview in
  overview <- _get_market_statistics series_sum overview
                (stock_zh_a_spot_em src) ;;
  overview <- _get_sector_rankings overview
                (stock_board_industry_name_em src) ;;
  overview <- bull_market_indicator overview src ;;
  ret overview.

End Overview.

(** ** The news *)

(** A byte that [str.split()] takes for white space, among those below 128. *)
Definition is_space (c : ascii) : bool :=
  let n := N_of_ascii c in
  (n =? 32)%N || ((9 <=? n)%N && (n <=? 13)%N) || ((28 <=? n)%N && (n <=? 31)%N).

(** [current] is the word being read. *)
Fixpoint split_words (current : string) (s : string) : list string :=
  match s with
  | EmptyString => if String.eqb current "" then [] else [current]
  | String c s' =>
      if is_space c then
        if String.eqb current "" then split_words "" s'
        else current :: split_words "" s'
      else split_words (current ++ String c "") s'
  end.

(** [s.split()] on a text whose white space is below 128, as it is in the
    queries: they are made of digits, Chinese text, a letter and spaces. *)
Definition py_split (s : string) : list string := split_words "" s.

(** [self.search_service.search_stock_news(stock_code, stock_name,
    max_results, focus_keywords)]: the [results] of the response, [None] for a
    response that is false or has none; or the exception of the search. *)
Definition search_service : Type :=
  string -> string -> Z -> list string -> result (option (list RawNews)).

Definition month_str (year month : Z) : string :=
  PyStr.of_Z year ++ "年" ++ PyStr.of_Z month ++ "月".

Definition search_queries (year month : Z) : list string :=
  [ "A股 大盘 复盘 " ++ month_str year month;
    "股市 行情 分析 今日 " ++ month_str year month;
    "A股 市场 热点 板块 " ++ month_str year month ].

(** The loop [for query in search_queries], inside its [try]: the news
    gathered, and the keywords of the searches made, in order. An exception
    ends the loop with the news gathered before it. *)
Fixpoint search_loop (service : search_service) (queries : list string)
    (all_news : list RawNews) : list RawNews * list (list string) :=
  match queries with
  | [] => (all_news, [])
  | query :: rest =>
      let focus_keywords := py_split query in
      match service "market" "大盘" 3 focus_keywords with
      | Raise e => (all_news, [focus_keywords])
      | Ok response =>
          let all_news :=
            match response with
            | Some (item :: items) => (all_news ++ item :: items)%list
            | _ => all_news
            end in
          let (news, searched) := search_loop service rest all_news in
          (news, focus_keywords :: searched)
      end
  end.

(** [year] and [month] are those of [datetime.now()]. *)
Definition search_market_news (service : option search_service)
    (year month : Z) : list RawNews * list (list string) :=
  match service with
  | None => ([], [])
  | Some service => search_loop service (search_queries year month) []
  end.

(** ** The daily review *)

Section DailyReview.

Variable series_sum : list float -> float.
Variable newest_first : DataFrame.t -> result DataFrame.t.
Variable str_lower : string -> string.
Variable numeric_dtype : DataFrame.t -> string -> bool.
Variable float_of_str : string -> option float.

Definition run_daily_review (src : Sources) (service : option search_service)
    (analyzer : option Analyzer) (today now : string) (year month : Z)
    : Py string :=
  overview <- get_market_overview series_sum newest_first str_lower
                numeric_dtype float_of_str src today ;;
  let news := fst (search_market_news service year month) in
  lift (generate_market_review analyzer overview news now).

End DailyReview.

(** ** Vocabulary of the further statements *)

(** The number of invocations of the wrapped call in a trace, and the time
    slept in it. *)
Definition calls (t : list event) : Z :=
  Z.of_nat (List.length (filter (fun ev => match ev with EvCall _ => true | _ => false end) t)).

Fixpoint total_wait (t : list event) : Z :=
  match t with
  | [] => 0
  | EvSleep seconds :: t' => seconds + total_wait t'
  | _ :: t' => total_wait t'
  end.

(** A table of the quote source with two changes that are numbers, one of
    them at the upper limit, and one that is not a number. *)
Definition small_spot_table : DataFrame.t :=
  DataFrame.mk ["代码"; "涨跌幅"; "成交额"]
    [ [CStr "600000"; CNum 10.01%float; CNum 2e8%float];
      [CStr "600001"; CNum (-1.5)%float; CNum 1e8%float];
      [CStr "600002"; CStr "-"; CNone] ].

(** The change of the first row is at or above that of the second, at or
    below it. *)
Definition row_not_below (a b : string * float) : Prop :=
  PyFloat.ge (snd a) (snd b) = true.

Definition row_not_above (a b : string * float) : Prop :=
  PyFloat.le (snd a) (snd b) = true.

Definition sector_not_below (a b : Sector.t) : Prop :=
  PyFloat.ge (Sector.change_pct a) (Sector.change_pct b) = true.

Definition sector_not_above (a b : Sector.t) : Prop :=
  PyFloat.le (Sector.change_pct a) (Sector.change_pct b) = true.

(** The change of the row is a number. *)
Definition is_number (r : string * float) : Prop := is_nan (snd r) = false.

Definition sector_of_row (r : string * float) : Sector.t :=
  Sector.mk (fst r) (snd r).

(** A sector table of seven rows, one of them without a number. *)
Definition seven_sectors : SectorFrame.t :=
  SectorFrame.mk true true
    [ ("银行", CNum 1.2%float); ("煤炭", CNum (-2.5)%float);
      ("半导体", CNum 3.4%float); ("医药", CStr "-");
      ("白酒", CNum 1.2%float); ("电力", CNum 0%float);
      ("军工", CNum (-0.7)%float) ].

(** A sector table with three rows. *)
Definition three_sectors : SectorFrame.t :=
  SectorFrame.mk true true
    [ ("银行", CNum 1.2%float); ("煤炭", CNum (-2.5)%float);
      ("半导体", CNum 3.4%float) ].

(** [l1] is [l2] with some of its elements left out. *)
Inductive Subsequence {A : Type} : list A -> list A -> Prop :=
| Subsequence_nil : forall l, Subsequence [] l
| Subsequence_skip : forall x l1 l2, Subsequence l1 l2 -> Subsequence l1 (x :: l2)
| Subsequence_take : forall x l1 l2,
    Subsequence l1 l2 -> Subsequence (x :: l1) (x :: l2).

Definition index_key (idx : MarketIndex.t) : string * string :=
  (MarketIndex.code idx, MarketIndex.name idx).

(** The float is a zero or another finite number. *)
Definition is_finite_float (x : float) : bool :=
  match Prim2SF x with
  | S754_zero _ => true
  | S754_finite _ _ _ => true
  | _ => false
  end.

(** The columns [_get_main_indices] reads from a row of the primary table. *)
Definition quote_columns : list string :=
  ["最新价"; "涨跌额"; "涨跌幅"; "今开"; "最高"; "最低"; "昨收"; "成交量"; "成交额"].

(** A row of the primary table whose previous close is missing. *)
Definition row_without_prev_close : DataFrame.t :=
  DataFrame.mk ["代码"; "最新价"; "最高"; "最低"; "昨收"]
    [ [CStr "sh000001"; CNum 3366%float; CNum 3370%float; CNum 3305%float;
       CNone] ].

(** The index the secondary source gives for a last bar [today], the bar
    [prev] before it and a change in percent. *)
Definition index_from_bars (ak_code name : string) (prev today : Bar)
    (change_pct : float) : MarketIndex.t :=
  MarketIndex.mk ak_code name (bar_close today)
    (bar_close today - bar_close prev)%float change_pct
    (bar_open today) (bar_high today) (bar_low today) (bar_close prev)
    (bar_volume today) 0%float 0%float.

(** The row is the one of the stocks, under one of the three names of the
    field. *)
Definition is_stock_row (row : list (string * json)) : bool :=
  json_is (dict_get row "lbmc" JNull) "股票"
  || json_is (dict_get row "zqlb" JNull) "股票"
  || json_is (dict_get row "证券类别" JNull) "股票".

(** The value of the total market value of a row, under the first of the
    three names of the field that holds something. *)
Definition cap_value (row : list (string * json)) : json :=
  py_or (dict_get row "sjzz" (JString ""))
    (py_or (dict_get row "zsz" (JString ""))
       (dict_get row "总市值" (JString ""))).

(** A row the scan passes over: an object that is not the row of the stocks,
    or whose value is empty, or whose value is a text that is not
    a number. *)
Definition passed_over (float_of_str : string -> option float) (item : json)
    : Prop :=
  exists row,
    item = JObject row
    /\ (is_stock_row row = false
        \/ json_truthy (cap_value row) = false
        \/ exists text, cap_value row = JString text
                        /\ float_of_str (clean_cap text) = None).

(** An answer of the exchange: the row of the funds, a row of the stocks
    without a number, and the row of the stocks under another field name. *)
Definition szse_answer : json :=
  JArray
    [ JObject
        [ ("metadata", JObject [("name", JString "证券类别统计")]);
          ("data",
           JArray
             [ JObject [("lbmc", JString "基金"); ("sjzz", JString "9,876.54")];
               JObject [("lbmc", JString "股票"); ("sjzz", JString "--")];
               JObject [("zqlb", JString "股票"); ("zsz", JString "331,234.56亿元")] ]) ] ].

(** A reader of plain numbers for the examples: the two texts the examples
    use. *)
Definition demo_float_of_str (text : string) : option float :=
  if String.eqb text "331234.56" then Some 331234.56%float
  else if String.eqb text "9876.54" then Some 9876.54%float
  else None.

(** The second snapshot has what the first has in the fields that the
    resolver, the leverage indicator and nothing else write. *)
Definition keeps_identity (o o' : MarketOverview.t) : Prop :=
  MarketOverview.date o' = MarketOverview.date o
  /\ MarketOverview.indices o' = MarketOverview.indices o
  /\ MarketOverview.north_flow o' = MarketOverview.north_flow o
  /\ MarketOverview.margin_data_date o' = MarketOverview.margin_data_date o.

(** Sources that all fail: every call raises. *)
Definition dead_sources : Sources :=
  mkSources (fun _ => Raise (OtherError "timeout"))
    (fun _ => Raise (OtherError "timeout"))
    (fun _ => Raise (OtherError "timeout"))
    (fun _ => Raise (OtherError "timeout"))
    (fun _ => Raise (OtherError "timeout"))
    (fun _ => Raise (OtherError "timeout"))
    (Raise (OtherError "timeout")).

(** The items a search returned: none when the response was empty or the
    search raised. *)
Definition results_of (r : result (option (list RawNews))) : list RawNews :=
  match r with
  | Ok (Some items) => items
  | _ => []
  end.

(** The search [search_market_news] makes for a query. *)
Definition ask (service : search_service) (query : string)
    : result (option (list RawNews)) :=
  service "market" "大盘" 3 (py_split query).

(** The queries up to the first whose search raises, that one left out. *)
Fixpoint answered (service : search_service) (queries : list string)
    : list string :=
  match queries with
  | [] => []
  | query :: rest =>
      match ask service query with
      | Raise _ => []
      | Ok _ => query :: answered service rest
      end
  end.

(** The number of code points of a text: the bytes that do not continue a
    sequence. *)
Fixpoint utf8_length (s : string) : nat :=
  match s with
  | EmptyString => O
  | String c s' =>
      if PyStr.utf8_continuation c then utf8_length s'
      else S (utf8_length s')
  end.

(** The text is empty or starts at the first byte of a code point. *)
Definition starts_a_code_point (s : string) : Prop :=
  match s with
  | EmptyString => True
  | String c _ => PyStr.utf8_continuation c = false
  end.

(** The two lines of the prompt for the news item of number [i]. *)
Definition numbered_line (i : Z) (n : NewsItem) : string :=
  PyStr.of_Z i ++ ". " ++ news_title n ++ nl ++ "   " ++ news_snippet n ++ nl.

Fixpoint numbered (i : Z) (items : list NewsItem) : list string :=
  match items with
  | [] => []
  | n :: rest => numbered_line i n :: numbered (i + 1) rest
  end.

(** The instruction of the prompt for a snapshot without indices. *)
Definition no_index_guard : string :=
  "注意：由于行情数据获取失败，请主要根据【市场新闻】进行定性分析和总结，不要编造具体的指数点位。".

(** A search that answers the first query with two items, the second with
    nothing and raises at the third. *)
Definition demo_search : search_service :=
  fun _ _ _ focus_keywords =>
    match focus_keywords with
    | "A股" :: "大盘" :: _ =>
        Ok (Some [ NewsObject (CStr "沪指收涨") (Some (CStr "两市成交额放大"));
                   NewsObject (CStr "北向资金净流入") (Some CNone) ])
    | "股市" :: _ => Ok None
    | _ => Raise (OtherError "quota")
    end.

(** The title and the snippet a news item carries, empty when it has none. *)
Definition text_of (text : option string) : string :=
  match text with
  | Some s => s
  | None => ""
  end.

Definition item_title (n : NewsItem) : string :=
  match n with
  | SearchResult title _ => text_of title
  | NewsDict title _ => text_of title
  end.

Definition item_snippet (n : NewsItem) : string :=
  match n with
  | SearchResult _ snippet => text_of snippet
  | NewsDict _ snippet => text_of snippet
  end.

(** There is no generator, or it reports itself unavailable. *)
Definition no_generator (analyzer : option Analyzer) : Prop :=
  match analyzer with
  | None => True
  | Some a => is_available a = Ok false
  end.


(** A search whose first result is a dictionary with a title of [None]. *)
Definition unreadable_search : search_service :=
  fun _ _ _ _ =>
    Ok (Some [ NewsMapping (Some CNone) (Some (CStr "两市成交额放大")) ]).

(** What the prompt can show of a value: the text itself, nothing of a
    value that is not a text. *)
Definition text_of_cell (v : cell) : string :=
  match v with
  | CStr s => s
  | _ => ""
  end.

(** The title and the snippet of an element of the news, as texts. *)
Definition raw_title (n : RawNews) : string :=
  match n with
  | NewsObject title _ => text_of_cell title
  | NewsMapping (Some title) _ => text_of_cell title
  | _ => ""
  end.

Definition raw_snippet (n : RawNews) : string :=
  match n with
  | NewsObject _ (Some snippet) => text_of_cell snippet
  | NewsMapping _ (Some snippet) => text_of_cell snippet
  | _ => ""
  end.

(** A number other than zero: an attribute that is true and cannot be cut. *)
Definition number_not_zero (v : cell) : bool :=
  match v with
  | CNum f => negb (PrimFloat.eqb f 0%float)
  | _ => false
  end.

(** The value of a key that is there and is not a text. *)
Definition key_not_text (v : option cell) : bool :=
  match v with
  | Some (CStr _) | None => false
  | Some _ => true
  end.

(** The elements of the news the prompt cannot show: an object whose title or
    snippet is a number other than zero or that has no snippet, a dictionary
    whose title or snippet is there and is not a text, and a value that is
    neither. *)
Definition unreadable (n : RawNews) : bool :=
  match n with
  | NewsObject title (Some snippet) =>
      number_not_zero title || number_not_zero snippet
  | NewsObject _ None => true
  | NewsMapping title snippet => key_not_text title || key_not_text snippet
  | NewsOther => true
  end.

(** * Theorems *)

(** ** Ranges *)

Lemma py_range_nil (lo hi : Z) : hi <= lo -> py_range lo hi = [].
Proof.
  intros H. unfold py_range.
  replace (Z.to_nat (hi - lo)) with O by lia. reflexivity.
Qed.

Lemma py_range_cons (lo hi : Z) :
  lo < hi -> py_range lo hi = lo :: py_range (lo + 1) hi.
Proof.
  intros H. unfold py_range.
  replace (Z.to_nat (hi - lo)) with (S (Z.to_nat (hi - (lo + 1)))) by lia.
  cbn [seq map]. f_equal; [lia|].
  rewrite <- seq_shift, map_map.
  apply map_ext. intros i. lia.
Qed.

Lemma py_range_In (lo hi i : Z) : In i (py_range lo hi) <-> lo <= i < hi.
Proof.
  unfold py_range. rewrite in_map_iff. split.
  - intros (n & <- & Hn). apply in_seq in Hn. lia.
  - intros H. exists (Z.to_nat (i - lo)). split; [lia|].
    apply in_seq. lia.
Qed.

Lemma py_range_split (lo k hi : Z) :
  lo <= k <= hi -> py_range lo hi = (py_range lo k ++ py_range k hi)%list.
Proof.
  intros H.
  remember (Z.to_nat (k - lo)) as n eqn:En.
  revert lo H En. induction n as [|n IH]; intros lo H En.
  - assert (k = lo) by lia. subst k.
    rewrite (py_range_nil lo lo) by lia. reflexivity.
  - rewrite (py_range_cons lo hi) by lia.
    rewrite (py_range_cons lo k) by lia.
    cbn [app]. f_equal. apply IH; lia.
Qed.

Lemma flat_map_ext_In {A B : Type} (f g : A -> list B) (l : list A) :
  (forall a, In a l -> f a = g a) -> flat_map f l = flat_map g l.
Proof.
  induction l as [|a l IH]; intros H; [reflexivity|].
  cbn [flat_map]. rewrite (H a (or_introl eq_refl)), IH; [reflexivity|].
  intros b Hb. apply H. now right.
Qed.

(** ** The retry wrapper *)

Section RetryFacts.

Context {A : Type}.
Variable fn : operation A.
Variable name : string.
Variable attempts : Z.

Lemma retry_step_ok (attempt : Z) (rest : list Z) (v : A) :
  fn attempt = Ok v ->
  retry_attempts fn name attempts (attempt :: rest)
  = (Ok (Some v), [EvCall name]).
Proof.
  intros H. cbn. rewrite H. reflexivity.
Qed.

Lemma retry_step_raise (attempt : Z) (rest : list Z) (e : exn) :
  fn attempt = Raise e ->
  retry_attempts fn name attempts (attempt :: rest)
  = (outcome (retry_attempts fn name attempts rest),
     (attempt_events name attempts attempt
      ++ trace (retry_attempts fn name attempts rest))%list).
Proof.
  intros H. cbn [retry_attempts]. unfold attempt_events.
  unfold bind, try_except, emit, lift, ret. rewrite H.
  destruct (attempt <? attempts);
    destruct (retry_attempts fn name attempts rest) as [r t];
    reflexivity.
Qed.

Lemma retry_attempts_success (pre post : list Z) (k : Z) (v : A) :
  (forall i, In i pre -> exists e, fn i = Raise e) ->
  fn k = Ok v ->
  retry_attempts fn name attempts (pre ++ k :: post)
  = (Ok (Some v),
     (flat_map (attempt_events name attempts) pre ++ [EvCall name])%list).
Proof.
  intros Hpre Hk. induction pre as [|i pre IH].
  - cbn [app flat_map]. now apply retry_step_ok.
  - destruct (Hpre i (or_introl eq_refl)) as [e He].
    cbn [app]. rewrite (retry_step_raise _ _ _ He).
    rewrite IH by (intros j Hj; apply Hpre; now right).
    cbn [outcome trace fst snd flat_map].
    now rewrite <- app_assoc.
Qed.

Lemma retry_attempts_exhausted (todo : list Z) :
  (forall i, In i todo -> exists e, fn i = Raise e) ->
  retry_attempts fn name attempts todo
  = (Ok None, flat_map (attempt_events name attempts) todo).
Proof.
  intros Hall. induction todo as [|i todo IH].
  - reflexivity.
  - destruct (Hall i (or_introl eq_refl)) as [e He].
    rewrite (retry_step_raise _ _ _ He).
    rewrite IH by (intros j Hj; apply Hall; now right).
    reflexivity.
Qed.


Lemma retry_attempts_no_history (todo : list Z) :
  consulted_secondary (trace (retry_attempts fn name attempts todo)) = false.
Proof.
  induction todo as [|i todo IH].
  - reflexivity.
  - destruct (fn i) as [v|e] eqn:Hi.
    + now rewrite (retry_step_ok _ _ _ Hi).
    + rewrite (retry_step_raise _ _ _ Hi). cbn [trace snd].
      unfold consulted_secondary in *. rewrite existsb_app, IH.
      unfold attempt_events. now destruct (i <? attempts).
Qed.

(** Before the last attempt every failed attempt is followed by its wait. *)
Lemma attempt_events_before (k : Z) :
  k <= attempts ->
  flat_map (attempt_events name attempts) (py_range 1 k)
  = flat_map (fun i => [EvCall name; EvSleep (backoff i)]) (py_range 1 k).
Proof.
  intros Hk. apply flat_map_ext_In. intros i Hi.
  apply py_range_In in Hi. unfold attempt_events.
  replace (i <? attempts) with true by (symmetry; apply Z.ltb_lt; lia).
  reflexivity.
Qed.

Lemma retry_success_at (k : Z) (v : A) :
  1 <= k <= attempts ->
  (forall i, 1 <= i < k -> exists e, fn i = Raise e) ->
  fn k = Ok v ->
  _call_akshare_with_retry fn name attempts
  = (Ok (Some v), calls_and_waits name k).
Proof.
  intros Hk Hfail Hok. unfold _call_akshare_with_retry, calls_and_waits.
  rewrite (py_range_split 1 k (attempts + 1)) by lia.
  rewrite (py_range_cons k (attempts + 1)) by lia.
  rewrite retry_attempts_success with (v := v); trivial.
  - now rewrite attempt_events_before by lia.
  - intros i Hi. apply Hfail. now apply py_range_In.
Qed.

Lemma retry_exhausted :
  (forall i, 1 <= i <= attempts -> exists e, fn i = Raise e) ->
  _call_akshare_with_retry fn name attempts
  = (Ok None, exhausted_events name attempts).
Proof.
  intros Hfail. unfold _call_akshare_with_retry, exhausted_events.
  rewrite retry_attempts_exhausted
    by (intros i Hi; apply Hfail; apply py_range_In in Hi; lia).
  f_equal. destruct (Z.leb_spec 1 attempts) as [H|H].
  - unfold calls_and_waits.
    rewrite (py_range_split 1 attempts (attempts + 1)) by lia.
    rewrite flat_map_app, attempt_events_before by lia.
    rewrite (py_range_cons attempts (attempts + 1)) by lia.
    rewrite (py_range_nil (attempts + 1) (attempts + 1)) by lia.
    cbn [flat_map]. unfold attempt_events.
    rewrite Z.ltb_irrefl. now rewrite app_nil_r.
  - now rewrite py_range_nil by lia.
Qed.

End RetryFacts.



(** ** The leverage indicator *)

Lemma gt_zero_nonzero (x : float) :
  PyFloat.gt x 0%float = true -> PrimFloat.eqb x 0%float = false.
Proof.
  unfold PyFloat.gt. rewrite ltb_spec, eqb_spec.
  change (Prim2SF 0%float) with (S754_zero false).
  destruct (Prim2SF x) as [s|s| |s m e]; try destruct s; cbn;
    intros H; try reflexivity; discriminate H.
Qed.

Lemma div_by_positive (x y : float) :
  PyFloat.gt y 0%float = true -> PyFloat.div x y = Ok (x / y)%float.
Proof.
  intros H. unfold PyFloat.div. now rewrite (gt_zero_nonzero y H).
Qed.

(** What the indicator does, case by case on what the getters returned. *)
Lemma indicator_skips (overview : MarketOverview.t) (m c : Py float) :
  both_positive m c = false ->
  outcome (_get_bull_market_indicator overview m c) = Ok overview.
Proof.
  destruct m as [[mb|e] tm], c as [[cap|e'] tc];
    unfold both_positive, _get_bull_market_indicator;
    cbn -[PyFloat.gt PyFloat.div PyFloat.round]; try reflexivity.
  intros H. rewrite H. reflexivity.
Qed.

Lemma indicator_computes (overview : MarketOverview.t) (m c : Py float)
    (mb cap : float) :
  outcome m = Ok mb -> outcome c = Ok cap ->
  PyFloat.gt mb 0%float = true -> PyFloat.gt cap 0%float = true ->
  outcome (_get_bull_market_indicator overview m c)
  = Ok (MarketOverview.set_is_bull_top_warning
          (PyFloat.gt (mb / cap * 100)%float 3.5%float)
          (MarketOverview.set_margin_ratio
             (PyFloat.round (mb / cap * 100)%float 2)
             (MarketOverview.set_total_market_cap cap
                (MarketOverview.set_margin_balance mb overview)))).
Proof.
  destruct m as [rm tm], c as [rc tc]. cbn [outcome fst].
  intros -> -> Hm Hc.
  unfold _get_bull_market_indicator.
  cbn -[PyFloat.gt PyFloat.div PyFloat.round].
  rewrite Hm, Hc. cbn -[PyFloat.gt PyFloat.div PyFloat.round].
  rewrite (div_by_positive mb cap Hc). reflexivity.
Qed.

(** C1. On a snapshot whose leverage fields are at their defaults the
    indicator always returns; when a getter raised or a value is not strictly
    positive the snapshot is returned as it was, its four leverage fields at
    their defaults; a ratio that is not zero or a warning flag that is set
    means both values were strictly positive; and with both strictly positive
    the two values are stored, the ratio is [round(balance / cap * 100, 2)]
    and the flag says whether the unrounded product exceeds 3.5. *)
Theorem leverage_all_or_nothing (overview : MarketOverview.t)
    (m c : Py float) :
  leverage_fields overview = leverage_defaults ->
  exists overview',
    outcome (_get_bull_market_indicator overview m c) = Ok overview'
    /\ (both_positive m c = false ->
        overview' = overview /\ leverage_fields overview' = leverage_defaults)
    /\ (PrimFloat.eqb (MarketOverview.margin_ratio overview') 0%float = false
        \/ MarketOverview.is_bull_top_warning overview' = true ->
        both_positive m c = true)
    /\ (forall mb cap,
        outcome m = Ok mb -> outcome c = Ok cap ->
        PyFloat.gt mb 0%float = true -> PyFloat.gt cap 0%float = true ->
        MarketOverview.margin_balance overview' = mb
        /\ MarketOverview.total_market_cap overview' = cap
        /\ MarketOverview.margin_ratio overview'
           = PyFloat.round (mb / cap * 100)%float 2
        /\ MarketOverview.is_bull_top_warning overview'
           = PyFloat.gt (mb / cap * 100)%float 3.5%float).
Proof.
  intros Hdef.
  destruct (both_positive m c) eqn:Hpos.
  - assert (exists mb cap, outcome m = Ok mb /\ outcome c = Ok cap
                           /\ PyFloat.gt mb 0%float = true
                           /\ PyFloat.gt cap 0%float = true)
      as (mb & cap & Hm & Hc & Hmb & Hcap).
    { unfold both_positive in Hpos.
      destruct (outcome m) as [mb|]; [|discriminate].
      destruct (outcome c) as [cap|]; [|discriminate].
      apply andb_true_iff in Hpos. exists mb, cap. tauto. }
    eexists. split; [apply (indicator_computes overview m c mb cap); assumption|].
    split; [discriminate|]. split; [reflexivity|].
    intros mb' cap' Hm' Hc' _ _.
    rewrite Hm in Hm'. rewrite Hc in Hc'.
    injection Hm' as <-. injection Hc' as <-.
    repeat split.
  - exists overview. split; [now apply indicator_skips|].
    split; [now split|]. split.
    + unfold leverage_fields, leverage_defaults in Hdef.
      injection Hdef as _ _ Hratio Hflag. rewrite Hratio, Hflag.
      intros [H|H]; discriminate H.
    + intros mb cap Hm Hc Hmb Hcap. exfalso.
      unfold both_positive in Hpos. rewrite Hm, Hc, Hmb, Hcap in Hpos.
      discriminate Hpos.
Qed.

(** A balance of 18000 against a capitalisation of 900000 on a fresh
    snapshot. *)
Lemma leverage_all_or_nothing_witness :
  exists overview',
    outcome (_get_bull_market_indicator (MarketOverview.new "2025-01-02")
               (ret 18000%float) (ret 900000%float)) = Ok overview'
    /\ MarketOverview.margin_ratio overview' = 2%float
    /\ MarketOverview.is_bull_top_warning overview' = false.
Proof.
  destruct (leverage_all_or_nothing (MarketOverview.new "2025-01-02")
              (ret 18000%float) (ret 900000%float) eq_refl)
    as (overview' & Hrun & _ & _ & Hset).
  exists overview'. split; [exact Hrun|].
  destruct (Hset 18000%float 900000%float eq_refl eq_refl eq_refl eq_refl)
    as (_ & _ & Hratio & Hflag).
  split.
  - rewrite Hratio. vm_compute. reflexivity.
  - rewrite Hflag. vm_compute. reflexivity.
Defined.

(** C2. At a balance of 350 and a capitalisation of 10000 the stored ratio is
    3.5 and the warning flag is set: the binary64 product [350 / 10000 * 100]
    is 3.5000000000000004, which the strict test [> 3.5] accepts. At 351 the
    ratio is 3.51 and the flag is set. *)
Theorem boundary_350_over_10000 (today : string) :
  (350 / 10000 * 100)%float = 3.5000000000000004%float
  /\ MarketOverview.margin_ratio (indicator_of today 350%float 10000%float)
     = 3.5%float
  /\ MarketOverview.is_bull_top_warning
       (indicator_of today 350%float 10000%float) = true
  /\ MarketOverview.margin_ratio (indicator_of today 351%float 10000%float)
     = 3.51%float
  /\ MarketOverview.is_bull_top_warning
       (indicator_of today 351%float 10000%float) = true.
Proof.
  repeat split; vm_compute; reflexivity.
Qed.

(** ** Texts *)

Lemma append_assoc (a b c : string) : (a ++ b) ++ c = a ++ b ++ c.
Proof.
  induction a as [|x a IH]; [reflexivity|]. cbn. now rewrite IH.
Qed.

Lemma append_nil_r (a : string) : a ++ "" = a.
Proof.
  induction a as [|x a IH]; [reflexivity|]. cbn. now rewrite IH.
Qed.

Lemma starts_with_app (needle post : string) :
  PyStr.starts_with needle (needle ++ post) = true.
Proof.
  induction needle as [|x needle IH]; [reflexivity|].
  cbn. now rewrite Ascii.eqb_refl.
Qed.

Lemma starts_with_inv (needle hay : string) :
  PyStr.starts_with needle hay = true -> exists post, hay = needle ++ post.
Proof.
  revert hay. induction needle as [|x needle IH]; intros hay H.
  - now exists hay.
  - destruct hay as [|y hay]; [discriminate|].
    cbn in H. apply andb_true_iff in H. destruct H as [Hxy Hrest].
    apply Ascii.eqb_eq in Hxy. subst y.
    destruct (IH hay Hrest) as [post ->]. now exists post.
Qed.

(** [is_infix] decides [Contains]. *)
Lemma is_infix_Contains (needle hay : string) :
  PyStr.is_infix needle hay = true <-> PyStr.Contains hay needle.
Proof.
  split.
  - induction hay as [|y hay IH]; cbn; intros H.
    + rewrite orb_false_r in H.
      destruct (starts_with_inv _ _ H) as [post Hpost].
      now exists "", post.
    + apply orb_true_iff in H. destruct H as [H|H].
      * destruct (starts_with_inv _ _ H) as [post Hpost].
        now exists "", post.
      * destruct (IH H) as (pre & post & ->).
        now exists (String y pre), post.
  - intros (pre & post & ->). induction pre as [|y pre IH].
    + cbn [append]. destruct (needle ++ post) eqn:E; cbn.
      * rewrite <- E, starts_with_app. reflexivity.
      * rewrite <- E, starts_with_app. reflexivity.
    + cbn [append PyStr.is_infix]. rewrite IH. apply orb_true_r.
Qed.

Lemma not_Contains (needle hay : string) :
  PyStr.is_infix needle hay = false -> ~ PyStr.Contains hay needle.
Proof.
  intros H C. apply is_infix_Contains in C. congruence.
Qed.

Lemma Contains_refl (s : string) : PyStr.Contains s s.
Proof. exists "", "". cbn. now rewrite append_nil_r. Qed.

Lemma Contains_here (needle post : string) :
  PyStr.Contains (needle ++ post) needle.
Proof. now exists "", post. Qed.

Lemma Contains_app_r (pre hay needle : string) :
  PyStr.Contains hay needle -> PyStr.Contains (pre ++ hay) needle.
Proof.
  intros (a & b & ->). exists (pre ++ a), b. now rewrite append_assoc.
Qed.

Lemma Contains_app_l (hay post needle : string) :
  PyStr.Contains hay needle -> PyStr.Contains (hay ++ post) needle.
Proof.
  intros (a & b & ->). exists a, (b ++ post).
  now rewrite !append_assoc.
Qed.


(** Finds a part of a text that is written as a chain of appends. *)
Ltac find_part :=
  solve [ apply Contains_refl
        | apply Contains_here
        | apply Contains_app_l; find_part
        | apply Contains_app_r; find_part ].





Lemma or_else_nonempty (text fallback : string) :
  text <> "" -> or_else text fallback = text.
Proof.
  intros H. unfold or_else.
  destruct (String.eqb_spec text ""); [contradiction|reflexivity].
Qed.

(** ** The leverage section of the fallback report *)




(** The flag of a snapshot the indicator filled says that the product exceeded
    3.5 before it was rounded. *)
Lemma flag_of_indicator (today : string) (mb cap : float) :
  PyFloat.gt mb 0%float = true -> PyFloat.gt cap 0%float = true ->
  MarketOverview.is_bull_top_warning (indicator_of today mb cap)
  = PyFloat.gt (mb / cap * 100)%float 3.5%float.
Proof.
  intros Hmb Hcap. unfold indicator_of.
  now rewrite (indicator_computes _ (ret mb) (ret cap) mb cap eq_refl eq_refl
                 Hmb Hcap).
Qed.

(** ** The index lines of the two reports *)





(** ** The north-bound flow *)

(** C7, as the spec states it, fails. On a snapshot whose flow was never
    fetched both reports print the figure +0.00, and neither the table of the
    fallback report nor the market block of the prompt holds a placeholder. *)
Lemma north_flow_shown_as_zero :
  PyStr.Contains
    (Template._generate_template_review empty_snapshot [] "15:30")
    "| 北向资金 | +0.00亿 |"
  /\ PyStr.Contains (Prompt._build_review_prompt empty_snapshot [])
       "- 北向资金: +0.00 亿元"
  /\ ~ PyStr.Contains (Template.breadth_section empty_snapshot) no_data_marker
  /\ ~ PyStr.Contains (Prompt.market_block empty_snapshot) no_data_marker.
Proof.
  repeat split.
  - apply is_infix_Contains. vm_compute. reflexivity.
  - apply is_infix_Contains. vm_compute. reflexivity.
  - apply not_Contains. vm_compute. reflexivity.
  - apply not_Contains. vm_compute. reflexivity.
Qed.

(** C7, amended. Both reports print the north-bound flow of the snapshot as
    a signed figure with two decimals; a flow of zero, which is what the
    field holds when nothing fetched it, reads +0.00. *)
Theorem north_flow_is_printed (overview : MarketOverview.t)
    (news : list NewsItem) (now : string) :
  PyStr.Contains (Template._generate_template_review overview news now)
    ("| 北向资金 | " ++
     PyFloat.format_f true 2 (MarketOverview.north_flow overview) ++ "亿 |")
  /\ PyStr.Contains (Prompt._build_review_prompt overview news)
       ("- 北向资金: " ++
        PyFloat.format_f true 2 (MarketOverview.north_flow overview) ++ " 亿元")
  /\ (MarketOverview.north_flow overview = 0%float ->
      Template.north_flow_row overview = "| 北向资金 | +0.00亿 |"
      /\ Prompt.north_flow_line overview = "- 北向资金: +0.00 亿元").
Proof.
  split; [|split].
  - change (PyStr.Contains (Template._generate_template_review overview news now)
              (Template.north_flow_row overview)).
    unfold Template._generate_template_review, Template.breadth_section.
    find_part.
  - change (PyStr.Contains (Prompt._build_review_prompt overview news)
              (Prompt.north_flow_line overview)).
    unfold Prompt._build_review_prompt, Prompt.market_block.
    find_part.
  - intros H. unfold Template.north_flow_row, Prompt.north_flow_line.
    rewrite H. split; reflexivity.
Qed.

Lemma north_flow_is_printed_witness :
  Template.north_flow_row empty_snapshot = "| 北向资金 | +0.00亿 |"
  /\ Prompt.north_flow_line empty_snapshot = "- 北向资金: +0.00 亿元".
Proof.
  apply (proj2 (proj2 (north_flow_is_printed empty_snapshot [] "15:30"))).
  reflexivity.
Defined.

(** Nothing that fills the snapshot writes the north-bound flow. *)
Lemma indicator_keeps_north_flow (overview overview' : MarketOverview.t)
    (m c : Py float) :
  outcome (_get_bull_market_indicator overview m c) = Ok overview' ->
  MarketOverview.north_flow overview' = MarketOverview.north_flow overview.
Proof.
  destruct (both_positive m c) eqn:Hpos.
  - unfold both_positive in Hpos.
    destruct (outcome m) as [mb|] eqn:Hm; [|discriminate].
    destruct (outcome c) as [cap|] eqn:Hc; [|discriminate].
    apply andb_true_iff in Hpos. destruct Hpos as [Hmb Hcap].
    rewrite (indicator_computes overview m c mb cap Hm Hc Hmb Hcap).
    now intros [= <-].
  - rewrite (indicator_skips overview m c Hpos). now intros [= <-].
Qed.

(** ** The report of a snapshot without data *)




(** ** The index resolver *)

Lemma and_then_Ok {A B : Type} (r : result A) (k : A -> result B) (b : B) :
  and_then r k = Ok b -> exists a, r = Ok a /\ k a = Ok b.
Proof.
  destruct r as [a|e]; cbn; intros H; [now exists a|discriminate].
Qed.

(** The loop of the secondary source, in closed form: every tracked code is
    looked up, in the order of the mapping, and each lookup adds its index or
    nothing. *)
Lemma yf_loop_spec (history : history_source)
    (todo : list (string * (string * string))) (indices : list MarketIndex.t) :
  yf_loop history todo indices
  = (Ok (indices ++ flat_map (lookup_one history) (filter tracked todo))%list,
     map (fun entry => EvHistory (fst (snd entry))) (filter tracked todo)).
Proof.
  revert indices. induction todo as [|[ak_code [yf_code name]] todo IH];
    intros indices.
  - cbn. now rewrite app_nil_r.
  - assert (Hfilter :
      filter tracked ((ak_code, (yf_code, name)) :: todo)
      = if in_MAIN_INDICES ak_code
        then (ak_code, (yf_code, name)) :: filter tracked todo
        else filter tracked todo) by reflexivity.
    rewrite Hfilter. cbn [yf_loop].
    destruct (in_MAIN_INDICES ak_code); cbn [negb]; [|apply IH].
    unfold bind, try_except, emit, lift, ret.
    cbn [flat_map map lookup_one fst snd].
    destruct (history yf_code) as [hist|e].
    + destruct (index_of_history ak_code name hist) as [[index|]|e'];
        rewrite IH; cbn [app]; now rewrite <- ?app_assoc.
    + rewrite IH. reflexivity.
Qed.

Lemma yfinance_spec (history : history_source) :
  _get_indices_from_yfinance history
  = (Ok (flat_map (lookup_one history) yf_mapping),
     [ EvHistory "000001.SS"; EvHistory "399001.SZ"; EvHistory "399006.SZ";
       EvHistory "000688.SS"; EvHistory "000016.SS"; EvHistory "000300.SS" ]).
Proof.
  unfold _get_indices_from_yfinance. rewrite yf_loop_spec. reflexivity.
Qed.

Lemma fallback_if_empty_spec (history : history_source)
    (indices : list MarketIndex.t) :
  (indices = [] ->
   fallback_if_empty history indices = _get_indices_from_yfinance history)
  /\ (indices <> [] -> fallback_if_empty history indices = (Ok indices, [])).
Proof.
  unfold fallback_if_empty.
  destruct indices; cbn [is_nil]; split; intros H;
    solve [reflexivity | discriminate H | now contradiction H].
Qed.

Lemma retry_no_history {A : Type} (fn : operation A) (name : string)
    (attempts : Z) :
  consulted_secondary (trace (_call_akshare_with_retry fn name attempts))
  = false.
Proof. apply retry_attempts_no_history. Qed.

(** The run of the resolver, by what the primary source contributed. *)
Lemma main_indices_spec (spot : operation DataFrame.t)
    (history : history_source) :
  (primary_matches spot = [] ->
   _get_main_indices spot history
   = (Ok (flat_map (lookup_one history) yf_mapping),
      (trace (_call_akshare_with_retry spot "指数行情" 2)
       ++ trace (_get_indices_from_yfinance history))%list))
  /\ (primary_matches spot <> [] ->
      _get_main_indices spot history
      = (Ok (primary_matches spot),
         (trace (_call_akshare_with_retry spot "指数行情" 2) ++ [])%list)).
Proof.
  unfold primary_matches, _get_main_indices.
  destruct (primary_indices _) as [indices raised]. cbn [fst].
  destruct (fallback_if_empty_spec history indices) as [Hnil Hcons].
  split; intros H.
  - rewrite (Hnil H), yfinance_spec. now destruct raised.
  - rewrite (Hcons H). now destruct raised.
Qed.

(** C6. The run looks something up in the secondary source exactly when the
    primary source contributed no index (the wrapper returned nothing, the
    table was empty, or the matching built no index). When the primary source
    contributed some indices, be it only part of the six, they are the
    result, as they are. When it contributed none, the result is made of
    what each lookup of the secondary source gives, code by code in the order
    of the mapping: a lookup that raises leaves out its own index and no
    other. *)
Theorem fallback_only_without_primary_match (spot : operation DataFrame.t)
    (history : history_source) :
  let run := _get_main_indices spot history in
  (consulted_secondary (trace run) = true <-> primary_matches spot = [])
  /\ (primary_matches spot <> [] -> outcome run = Ok (primary_matches spot))
  /\ (primary_matches spot = [] ->
      outcome run = Ok (flat_map (lookup_one history) yf_mapping))
  /\ outcome (_get_indices_from_yfinance history)
     = Ok (flat_map (lookup_one history) yf_mapping).
Proof.
  cbv zeta.
  destruct (main_indices_spec spot history) as [Hnil Hcons].
  split; [|split; [|split]].
  - destruct (primary_matches spot) as [|i l] eqn:E.
    + rewrite (Hnil eq_refl), yfinance_spec. cbn [trace snd].
      unfold consulted_secondary. rewrite existsb_app.
      split; [reflexivity|]. intros _. apply orb_true_r.
    + rewrite Hcons by discriminate. cbn [trace snd].
      unfold consulted_secondary. rewrite existsb_app.
      fold (consulted_secondary
              (trace (_call_akshare_with_retry spot "指数行情" 2))).
      rewrite retry_no_history. cbn. split; discriminate.
  - intros H. now rewrite (Hcons H).
  - intros H. now rewrite (Hnil H).
  - now rewrite yfinance_spec.
Qed.

(** Three of the six codes are in the primary table: the three indices are
    the result and the secondary source is not asked for the other three. *)
Lemma fallback_only_without_primary_match_witness :
  map MarketIndex.code (primary_matches (fun _ => Ok three_of_six))
  = ["sh000001"; "sz399001"; "sh000300"]
  /\ outcome (_get_main_indices (fun _ => Ok three_of_six) patchy_history)
     = Ok (primary_matches (fun _ => Ok three_of_six))
  /\ consulted_secondary
       (trace (_get_main_indices (fun _ => Ok three_of_six) patchy_history))
     = false.
Proof.
  destruct (fallback_only_without_primary_match
              (fun _ => Ok three_of_six) patchy_history)
    as (Hiff & Hkeep & _).
  split; [vm_compute; reflexivity|]. split.
  - apply Hkeep. vm_compute. discriminate.
  - destruct (consulted_secondary _) eqn:E; [|reflexivity].
    pose proof (proj1 Hiff eq_refl) as H. vm_compute in H. discriminate H.
Defined.

(** The three ways in which the primary source contributes nothing. *)
Lemma primary_exception (spot : operation DataFrame.t) :
  (forall i, exists e, spot i = Raise e) -> primary_matches spot = [].
Proof.
  intros H. unfold primary_matches.
  rewrite (retry_exhausted spot "指数行情" 2) by (intros i _; apply H).
  reflexivity.
Qed.

Lemma primary_empty (spot : operation DataFrame.t) (df : DataFrame.t) :
  spot 1 = Ok df -> DataFrame.empty df = true -> primary_matches spot = [].
Proof.
  intros Hspot Hempty. unfold primary_matches.
  rewrite (retry_success_at spot "指数行情" 2 1 df) by (trivial; lia).
  cbn. now rewrite Hempty.
Qed.

Lemma primary_without_match :
  primary_matches (fun _ => Ok none_of_six) = []
  /\ map MarketIndex.code
       (match outcome (_get_main_indices (fun _ => Ok none_of_six)
                         patchy_history) with
        | Ok indices => indices
        | Raise _ => []
        end)
     = ["sh000001"; "sz399001"; "sh000688"; "sh000016"; "sh000300"].
Proof.
  split; vm_compute; reflexivity.
Qed.

(** *** The codes of the indices the resolver builds *)

Lemma index_of_row_code (df : DataFrame.t) (code name : string)
    (row : list cell) (index : MarketIndex.t) :
  index_of_row df code name row = Ok index -> MarketIndex.code index = code.
Proof.
  unfold index_of_row. intros H.
  repeat (apply and_then_Ok in H; destruct H as (? & _ & H)).
  destruct (PyFloat.gt _ _).
  - apply and_then_Ok in H. destruct H as (q & _ & H).
    injection H as <-. reflexivity.
  - injection H as <-. reflexivity.
Qed.

Lemma primary_loop_codes (df : DataFrame.t) (todo : list (string * string))
    (indices : list MarketIndex.t) :
  (forall entry, In entry todo -> in_MAIN_INDICES (fst entry) = true) ->
  Forall has_tracked_code indices ->
  Forall has_tracked_code (fst (primary_loop df todo indices)).
Proof.
  revert indices. induction todo as [|[code name] todo IH];
    intros indices Htodo Hacc; [exact Hacc|].
  cbn [primary_loop].
  destruct (find_row df code) as [[row|]|e]; cbn [fst]; trivial.
  - destruct (index_of_row df code name row) as [index|e] eqn:E; trivial.
    apply IH; [intros entry Hin; apply Htodo; now right|].
    apply Forall_app. split; [exact Hacc|]. constructor; [|constructor].
    unfold has_tracked_code. rewrite (index_of_row_code _ _ _ _ _ E).
    apply (Htodo (code, name)). now left.
  - apply IH; [intros entry Hin; apply Htodo; now right|exact Hacc].
Qed.

Lemma primary_matches_codes (spot : operation DataFrame.t) :
  Forall has_tracked_code (primary_matches spot).
Proof.
  unfold primary_matches, primary_indices.
  destruct (outcome _) as [[df|]|e]; cbn [fst]; try constructor.
  destruct (negb (DataFrame.empty df)); [|constructor].
  apply primary_loop_codes; [|constructor].
  intros entry Hin. cbn in Hin.
  repeat (destruct Hin as [<-|Hin]; [reflexivity|]). contradiction.
Qed.

Lemma index_of_history_code (ak_code name : string) (hist : list Bar)
    (index : MarketIndex.t) :
  index_of_history ak_code name hist = Ok (Some index) ->
  MarketIndex.code index = ak_code.
Proof.
  unfold index_of_history. destruct (rev hist) as [|today earlier];
    [discriminate|].
  intros H. apply and_then_Ok in H. destruct H as (pct & _ & H).
  injection H as <-. reflexivity.
Qed.

Lemma lookup_one_codes (history : history_source)
    (entry : string * (string * string)) :
  tracked entry = true -> Forall has_tracked_code (lookup_one history entry).
Proof.
  destruct entry as [ak_code [yf_code name]]. unfold tracked, lookup_one.
  cbn [fst]. intros Htracked.
  destruct (history yf_code) as [hist|e]; [|constructor].
  destruct (index_of_history ak_code name hist) as [[index|]|e] eqn:E;
    constructor; [|constructor].
  unfold has_tracked_code. now rewrite (index_of_history_code _ _ _ _ E).
Qed.

(** Every index the resolver returns carries one of the six tracked codes,
    with its exchange prefix. *)
Lemma resolved_codes (spot : operation DataFrame.t) (history : history_source)
    (indices : list MarketIndex.t) :
  outcome (_get_main_indices spot history) = Ok indices ->
  Forall has_tracked_code indices.
Proof.
  intros Hrun.
  destruct (main_indices_spec spot history) as [Hfall Hkeep].
  pose proof (primary_matches_codes spot) as Hprimary.
  destruct (primary_matches spot) as [|i l].
  - rewrite (Hfall eq_refl) in Hrun. cbn [outcome fst] in Hrun.
    assert (indices = flat_map (lookup_one history) yf_mapping) as ->
      by congruence.
    apply Forall_flat_map, Forall_forall. intros entry Hin.
    apply lookup_one_codes. cbn in Hin.
    repeat (destruct Hin as [<-|Hin]; [reflexivity|]). contradiction.
  - rewrite Hkeep in Hrun by discriminate. cbn [outcome fst] in Hrun.
    assert (indices = i :: l) as -> by congruence.
    exact Hprimary.
Qed.

(** ** The mood of the fallback report *)

Lemma no_composite_among_tracked (indices : list MarketIndex.t) :
  Forall has_tracked_code indices ->
  find (fun idx => String.eqb (MarketIndex.code idx) "000001") indices = None.
Proof.
  induction 1 as [|idx indices Hidx _ IH]; [reflexivity|].
  cbn [find]. destruct (String.eqb_spec (MarketIndex.code idx) "000001") as [E|_].
  - unfold has_tracked_code in Hidx. rewrite E in Hidx. discriminate Hidx.
  - exact IH.
Qed.

(** Whatever the composite index did, the report of a snapshot whose
    indices came from the resolver calls the market range-bound. *)
Lemma mood_of_resolved_snapshot (spot : operation DataFrame.t)
    (history : history_source) (indices : list MarketIndex.t)
    (overview : MarketOverview.t) :
  outcome (_get_main_indices spot history) = Ok indices ->
  Template.market_mood (MarketOverview.set_indices indices overview)
  = "震荡整理".
Proof.
  intros H. unfold Template.market_mood, Template.sh_index. cbn.
  now rewrite (no_composite_among_tracked indices (resolved_codes _ _ _ H)).
Qed.

(** The classification an index of code 000001 would get. *)
Lemma mood_of_found_index (overview : MarketOverview.t) (sh : MarketIndex.t) :
  Template.sh_index overview = Some sh ->
  let pct := MarketIndex.change_pct sh in
  (PyFloat.gt pct 1%float = true ->
   Template.market_mood overview = "强势上涨")
  /\ (PyFloat.gt pct 1%float = false -> PyFloat.gt pct 0%float = true ->
      Template.market_mood overview = "小幅上涨")
  /\ (PyFloat.gt pct 0%float = false -> PyFloat.gt pct (-1)%float = true ->
      PyFloat.gt pct 1%float = false ->
      Template.market_mood overview = "小幅下跌")
  /\ (PyFloat.le pct (-1)%float = true -> PyFloat.gt pct (-1)%float = false ->
      PyFloat.gt pct 0%float = false -> PyFloat.gt pct 1%float = false ->
      Template.market_mood overview = "明显下跌").
Proof.
  intros Hfound. cbv zeta. unfold Template.market_mood. rewrite Hfound.
  repeat split.
  - now intros ->.
  - now intros -> ->.
  - now intros -> -> ->.
  - now intros _ -> -> ->.
Qed.

(** C4. The composite index is in the snapshot, up by 2%, and the fallback
    report calls the market range-bound: the search looks for the code
    000001, and the index carries sh000001. *)
Theorem composite_rally_reported_as_choppy :
  map (fun idx => (MarketIndex.code idx, MarketIndex.name idx,
                   MarketIndex.change_pct idx))
    (MarketOverview.indices composite_rally_snapshot)
  = [("sh000001", "上证指数", 2%float)]
  /\ Template.sh_index composite_rally_snapshot = None
  /\ Template.market_mood composite_rally_snapshot = "震荡整理"
  /\ Template.summary_section composite_rally_snapshot
     = "### 一、市场总结" ++ nl ++
       "今日A股市场整体呈现**震荡整理**态势。" ++ nl ++ nl.
Proof.
  repeat split; vm_compute; reflexivity.
Qed.

(** ** The breadth calculator *)

(** A row whose change is not a number is in none of the five counts. *)
Lemma nan_in_no_bucket :
  PyFloat.gt nan 0%float = false
  /\ PyFloat.lt nan 0%float = false
  /\ PyFloat.eq nan 0%float = false
  /\ PyFloat.ge nan 9.9%float = false
  /\ PyFloat.le nan (-9.9)%float = false
  /\ DataFrame.to_numeric CNone = nan
  /\ (forall s, DataFrame.to_numeric (CStr s) = nan).
Proof.
  repeat split; reflexivity.
Qed.

(** C8. On the changes 10.0, 9.9, 5, 0, -3, -9.9, -10 and NaN the calculator
    counts 3 up, 3 down, 1 flat, 2 at the upper limit and 2 at the lower
    limit; the row of the NaN is in no count: without it the five counts are
    the same. *)
Theorem breadth_of_example (series_sum : list float -> float)
    (today : string) :
  outcome (_get_market_statistics series_sum (MarketOverview.new today)
             (fun _ => Ok breadth_example))
  = Ok (MarketOverview.mk today [] 3 3 1 2 2 0%float 0%float [] []
          0%float 0%float 0%float false "")
  /\ statistics_of series_sum breadth_example_without_nan
       (MarketOverview.new today)
     = statistics_of series_sum breadth_example (MarketOverview.new today)
  /\ List.length (DataFrame.rows breadth_example) = 8%nat.
Proof.
  repeat split; vm_compute; reflexivity.
Qed.

(** The calculator does not write the north-bound flow either. *)
Lemma statistics_keep_north_flow (series_sum : list float -> float)
    (overview overview' : MarketOverview.t) (spot : operation DataFrame.t) :
  outcome (_get_market_statistics series_sum overview spot) = Ok overview' ->
  MarketOverview.north_flow overview' = MarketOverview.north_flow overview.
Proof.
  unfold _get_market_statistics.
  destruct (_call_akshare_with_retry spot "A股实时行情" 2) as [[[df|]|e] t];
    cbn [bind try_except ret outcome fst].
  - destruct (negb (DataFrame.empty df)); cbn [outcome fst];
      intros [= <-]; [|reflexivity].
    unfold statistics_of.
    destruct (numeric_column df "涨跌幅"), (numeric_column df "成交额");
      reflexivity.
  - now intros [= <-].
  - now intros [= <-].
Qed.

(** * More of the module *)

(** ** The retry wrapper: bounds *)

Lemma calls_app (t t' : list event) : calls (t ++ t') = calls t + calls t'.
Proof.
  unfold calls. rewrite filter_app, length_app. lia.
Qed.

Lemma total_wait_app (t t' : list event) :
  total_wait (t ++ t') = total_wait t + total_wait t'.
Proof.
  induction t as [|ev t IH]; [reflexivity|].
  destruct ev; cbn [app total_wait]; rewrite IH; lia.
Qed.

Lemma backoff_bounds (i : Z) : 1 <= i -> 2 <= backoff i <= 5.
Proof.
  intros Hi. unfold backoff.
  assert (2 ^ 1 <= 2 ^ i) by (apply Z.pow_le_mono_r; lia).
  change (2 ^ 1) with 2 in *. lia.
Qed.

Lemma retry_attempts_bounded {A : Type} (fn : operation A) (name : string)
    (attempts : Z) (todo : list Z) :
  (forall i, In i todo -> 1 <= i) ->
  let t := trace (retry_attempts fn name attempts todo) in
  calls t <= Z.of_nat (List.length todo)
  /\ 0 <= total_wait t
     <= 5 * Z.of_nat (List.length (filter (fun i => i <? attempts) todo)).
Proof.
  cbv zeta. induction todo as [|i todo IH]; intros Hpos.
  - cbn. lia.
  - assert (Hi : 1 <= i) by (apply Hpos; now left).
    assert (Hrest : forall j, In j todo -> 1 <= j)
      by (intros j Hj; apply Hpos; now right).
    specialize (IH Hrest). destruct IH as [IHc IHw].
    destruct (fn i) as [v|e] eqn:E.
    + rewrite (retry_step_ok fn name attempts i todo v E).
      cbn [trace snd]. change (calls [EvCall name]) with 1.
      change (total_wait [EvCall name]) with 0.
      cbn [List.length filter]. destruct (i <? attempts); cbn [List.length]; lia.
    + rewrite (retry_step_raise fn name attempts i todo e E).
      cbn [trace snd]. rewrite calls_app, total_wait_app.
      unfold attempt_events. cbn [List.length filter].
      pose proof (backoff_bounds i Hi) as Hb.
      destruct (i <? attempts); cbn [List.length].
      * change (calls [EvCall name; EvSleep (backoff i)]) with 1.
        change (total_wait [EvCall name; EvSleep (backoff i)])
          with (backoff i + 0). lia.
      * change (calls [EvCall name]) with 1.
        change (total_wait [EvCall name]) with 0. lia.
Qed.

Lemma py_range_length (lo hi : Z) :
  Z.of_nat (List.length (py_range lo hi)) = Z.max 0 (hi - lo).
Proof.
  unfold py_range. rewrite length_map, length_seq. lia.
Qed.

Lemma py_range_below (attempts : Z) :
  Z.of_nat (List.length (filter (fun i => i <? attempts)
                           (py_range 1 (attempts + 1))))
  = Z.max 0 (attempts - 1).
Proof.
  destruct (Z.le_gt_cases attempts 0) as [H|H].
  - rewrite py_range_nil by lia. cbn. lia.
  - rewrite (py_range_split 1 attempts (attempts + 1)) by lia.
    rewrite filter_app.
    rewrite (py_range_cons attempts (attempts + 1)) by lia.
    rewrite (py_range_nil (attempts + 1) (attempts + 1)) by lia.
    cbn [filter]. rewrite Z.ltb_irrefl, app_nil_r.
    assert (Hall : filter (fun i => i <? attempts) (py_range 1 attempts)
                   = py_range 1 attempts).
    { apply forallb_filter_id, forallb_forall. intros i Hi.
      apply py_range_In in Hi. apply Z.ltb_lt. lia. }
    rewrite Hall, py_range_length. lia.
Qed.

(** X1. Whatever the wrapped call does, the wrapper invokes it at most
    [attempts] times and sleeps at most 5 seconds after each attempt but the
    last: at most [5 * (attempts - 1)] seconds in all. *)
Theorem retry_is_bounded (A : Type) (fn : operation A) (name : string)
    (attempts : Z) :
  let t := trace (_call_akshare_with_retry fn name attempts) in
  calls t <= Z.max 0 attempts
  /\ 0 <= total_wait t <= 5 * Z.max 0 (attempts - 1).
Proof.
  cbv zeta. unfold _call_akshare_with_retry.
  destruct (retry_attempts_bounded fn name attempts
              (py_range 1 (attempts + 1))) as [Hc Hw].
  { intros i Hi. apply py_range_In in Hi. lia. }
  rewrite py_range_length in Hc. rewrite py_range_below in Hw.
  split; [|exact Hw]. replace (attempts + 1 - 1) with attempts in Hc by lia.
  exact Hc.
Qed.

(** X2. With a number of attempts that is not positive the wrapped call is
    never invoked and the wrapper returns [None] at once. *)
Theorem retry_without_attempts (A : Type) (fn : operation A) (name : string)
    (attempts : Z) :
  attempts <= 0 -> _call_akshare_with_retry fn name attempts = (Ok None, []).
Proof.
  intros H. unfold _call_akshare_with_retry.
  now rewrite py_range_nil by lia.
Qed.

Lemma retry_without_attempts_witness :
  _call_akshare_with_retry (fun _ => Ok 7) "demo" 0 = (Ok None, []).
Proof.
  apply (retry_without_attempts Z (fun _ => Ok 7) "demo" 0). lia.
Defined.

(** ** The order of the floats *)

Lemma SFcompare_refl (f : spec_float) :
  f <> S754_nan -> SFcompare f f = Some Eq.
Proof.
  destruct f as [s|s| |s m e]; intros H; try (now destruct s);
    [contradiction|].
  cbn. rewrite Z.compare_refl.
  change (Pos.compare_cont Eq m m) with (Pos.compare m m).
  rewrite Pos.compare_refl. now destruct s.
Qed.

Lemma SFcompare_antisym (f1 f2 : spec_float) :
  SFcompare f2 f1 = option_map CompOpp (SFcompare f1 f2).
Proof.
  destruct f1 as [s1|s1| |s1 m1 e1], f2 as [s2|s2| |s2 m2 e2];
    try destruct s1; try destruct s2; try reflexivity;
    cbn; f_equal; rewrite (Z.compare_antisym e1 e2);
    destruct (e1 ?= e2); cbn; try reflexivity;
    change (Pos.compare_cont Eq m2 m1) with (Pos.compare m2 m1);
    change (Pos.compare_cont Eq m1 m2) with (Pos.compare m1 m2);
    rewrite (Pos.compare_antisym m1 m2); now destruct (m1 ?= m2)%positive.
Qed.

Lemma SFleb_total (f1 f2 : spec_float) :
  f1 <> S754_nan -> f2 <> S754_nan ->
  SFleb f1 f2 = false -> SFleb f2 f1 = true.
Proof.
  intros H1 H2. unfold SFleb. rewrite (SFcompare_antisym f1 f2).
  assert (Hsome : exists c, SFcompare f1 f2 = Some c)
    by (destruct f1, f2; try contradiction; cbn; eauto).
  destruct Hsome as [c ->]. destruct c; cbn; intros H;
    try reflexivity; discriminate H.
Qed.

Ltac compare_cases :=
  repeat match goal with
         | H : context [(?a ?= ?b)%Z] |- _ =>
             destruct (Z.compare_spec a b); try subst
         | |- context [(?a ?= ?b)%Z] =>
             destruct (Z.compare_spec a b); try subst
         | H : context [(?a ?= ?b)%positive] |- _ =>
             destruct (Pos.compare_spec a b); try subst
         | |- context [(?a ?= ?b)%positive] =>
             destruct (Pos.compare_spec a b); try subst
         end.

Lemma SFleb_trans (f1 f2 f3 : spec_float) :
  SFleb f1 f2 = true -> SFleb f2 f3 = true -> SFleb f1 f3 = true.
Proof.
  unfold SFleb.
  destruct f1 as [s1|s1| |s1 m1 e1], f2 as [s2|s2| |s2 m2 e2],
    f3 as [s3|s3| |s3 m3 e3];
    try destruct s1; try destruct s2; try destruct s3; cbn;
    try reflexivity; try discriminate;
    change (Pos.compare_cont Eq) with Pos.compare;
    intros H12 H23; compare_cases; cbn in *;
    try reflexivity; try discriminate; try lia.
Qed.

Lemma is_nan_false (x : float) :
  is_nan x = false <-> Prim2SF x <> S754_nan.
Proof.
  unfold is_nan. rewrite FloatAxioms.eqb_spec. unfold SFeqb. split.
  - intros H E. rewrite E in H. discriminate H.
  - intros H. now rewrite (SFcompare_refl _ H).
Qed.

Lemma le_total (x y : float) :
  is_nan x = false -> is_nan y = false ->
  PyFloat.le x y = false -> PyFloat.le y x = true.
Proof.
  intros Hx Hy. unfold PyFloat.le. rewrite !leb_spec.
  apply SFleb_total; now apply is_nan_false.
Qed.

Lemma le_trans (x y z : float) :
  PyFloat.le x y = true -> PyFloat.le y z = true -> PyFloat.le x z = true.
Proof.
  unfold PyFloat.le. rewrite !leb_spec. apply SFleb_trans.
Qed.

Lemma ge_le (x y : float) : PyFloat.ge x y = PyFloat.le y x.
Proof. reflexivity. Qed.

(** Of a float that is not NaN exactly one of [x > 0], [x < 0] and [x == 0]
    holds; of NaN none does. *)
Lemma sign_cases (x : float) :
  (if PyFloat.gt x 0%float then 1 else 0)
  + (if PyFloat.lt x 0%float then 1 else 0)
  + (if PyFloat.eq x 0%float then 1 else 0)
  = if is_nan x then 0 else 1.
Proof.
  unfold PyFloat.gt, PyFloat.lt, PyFloat.eq, is_nan.
  rewrite !ltb_spec, !FloatAxioms.eqb_spec.
  change (Prim2SF 0%float) with (S754_zero false).
  assert (Hself : SFeqb (Prim2SF x) (Prim2SF x)
                  = match Prim2SF x with S754_nan => false | _ => true end).
  { unfold SFeqb. destruct (Prim2SF x) eqn:E; try reflexivity;
      now rewrite SFcompare_refl by discriminate. }
  rewrite Hself.
  destruct (Prim2SF x) as [s|s| |s m e]; try destruct s; reflexivity.
Qed.

(** A change at or above 9.9 is above zero, one at or below -9.9 below. *)
Lemma limit_up_is_up (x : float) :
  PyFloat.ge x 9.9%float = true -> PyFloat.gt x 0%float = true.
Proof.
  unfold PyFloat.ge, PyFloat.gt. rewrite leb_spec, ltb_spec.
  change (Prim2SF 0%float) with (S754_zero false).
  replace (Prim2SF 9.9%float)
    with (S754_finite false 5573204538870989 (-49)) by (vm_compute; reflexivity).
  destruct (Prim2SF x) as [s|s| |s m e]; try destruct s;
    unfold SFleb, SFltb; cbn [SFcompare];
    intros H; try reflexivity; discriminate H.
Qed.

Lemma limit_down_is_down (x : float) :
  PyFloat.le x (-9.9)%float = true -> PyFloat.lt x 0%float = true.
Proof.
  unfold PyFloat.le, PyFloat.lt. rewrite leb_spec, ltb_spec.
  change (Prim2SF 0%float) with (S754_zero false).
  replace (Prim2SF (-9.9)%float)
    with (S754_finite true 5573204538870989 (-49)) by (vm_compute; reflexivity).
  destruct (Prim2SF x) as [s|s| |s m e]; try destruct s;
    unfold SFleb, SFltb; cbn [SFcompare];
    intros H; try reflexivity; discriminate H.
Qed.

(** ** The breadth calculator: what its counts are *)

Lemma count_where_le (p q : float -> bool) (col : list float) :
  (forall c, p c = true -> q c = true) ->
  count_where p col <= count_where q col.
Proof.
  intros Hpq. unfold count_where. induction col as [|c col IH]; [cbn; lia|].
  cbn [filter]. destruct (p c) eqn:Hp.
  - rewrite (Hpq c Hp). cbn [List.length]. lia.
  - destruct (q c); cbn [List.length]; lia.
Qed.

Lemma count_where_nonneg (p : float -> bool) (col : list float) :
  0 <= count_where p col <= Z.of_nat (List.length col).
Proof.
  unfold count_where. pose proof (filter_length_le p col). lia.
Qed.

Lemma count_by_sign (col : list float) :
  count_where (fun c => PyFloat.gt c 0%float) col
  + count_where (fun c => PyFloat.lt c 0%float) col
  + count_where (fun c => PyFloat.eq c 0%float) col
  = count_where (fun c => negb (is_nan c)) col.
Proof.
  unfold count_where. induction col as [|c col IH]; [reflexivity|].
  cbn [filter]. pose proof (sign_cases c) as Hc.
  destruct (PyFloat.gt c 0%float), (PyFloat.lt c 0%float),
    (PyFloat.eq c 0%float), (is_nan c); cbn [negb List.length] in *; lia.
Qed.

(** The five counts after the table was read. *)
Lemma statistics_counts (series_sum : list float -> float) (df : DataFrame.t)
    (overview : MarketOverview.t) (changes : list float) :
  numeric_column df "涨跌幅" = Some changes ->
  let o := statistics_of series_sum df overview in
  MarketOverview.up_count o = count_where (fun c => PyFloat.gt c 0%float) changes
  /\ MarketOverview.down_count o
     = count_where (fun c => PyFloat.lt c 0%float) changes
  /\ MarketOverview.flat_count o
     = count_where (fun c => PyFloat.eq c 0%float) changes
  /\ MarketOverview.limit_up_count o
     = count_where (fun c => PyFloat.ge c 9.9%float) changes
  /\ MarketOverview.limit_down_count o
     = count_where (fun c => PyFloat.le c (-9.9)%float) changes.
Proof.
  intros H. cbv zeta. unfold statistics_of. rewrite H.
  destruct (numeric_column df "成交额"); repeat split.
Qed.

Lemma numeric_column_length (df : DataFrame.t) (col : string)
    (values : list float) :
  numeric_column df col = Some values ->
  List.length values = List.length (DataFrame.rows df).
Proof.
  unfold numeric_column, DataFrame.column.
  destruct (DataFrame.position col (DataFrame.columns df)); [|discriminate].
  intros [= <-]. now rewrite !length_map.
Qed.

(** X3. When the quote table has the column of the changes, every row whose
    change is a number is counted once among up, down and flat, and a row
    whose change is not a number in none of them: the three counts add up to
    the number of numeric rows, which is at most the number of rows. *)
Theorem breadth_counts_partition (series_sum : list float -> float)
    (df : DataFrame.t) (overview : MarketOverview.t) (changes : list float) :
  numeric_column df "涨跌幅" = Some changes ->
  let o := statistics_of series_sum df overview in
  MarketOverview.up_count o + MarketOverview.down_count o
  + MarketOverview.flat_count o
  = count_where (fun c => negb (is_nan c)) changes
  /\ MarketOverview.up_count o + MarketOverview.down_count o
     + MarketOverview.flat_count o
     <= Z.of_nat (List.length (DataFrame.rows df)).
Proof.
  intros H. cbv zeta.
  destruct (statistics_counts series_sum df overview changes H)
    as (-> & -> & -> & _).
  rewrite count_by_sign. split; [reflexivity|].
  rewrite <- (numeric_column_length df "涨跌幅" changes H).
  apply count_where_nonneg.
Qed.

Lemma breadth_counts_partition_witness :
  let o := statistics_of (fun _ => 0%float) small_spot_table empty_snapshot in
  MarketOverview.up_count o + MarketOverview.down_count o
  + MarketOverview.flat_count o = 2
  /\ List.length (DataFrame.rows small_spot_table) = 3%nat.
Proof.
  cbv zeta.
  destruct (breadth_counts_partition (fun _ => 0%float) small_spot_table
              empty_snapshot [10.01%float; (-1.5)%float; nan] eq_refl)
    as [Hsum _].
  split; [|reflexivity]. rewrite Hsum. vm_compute. reflexivity.
Defined.

(** X4. In every run on a snapshot whose counts are zero the calculator
    returns, and in what it returns the securities at the upper limit are
    among those that rose and the securities at the lower limit among those
    that fell: 0 <= limit_up <= up and 0 <= limit_down <= down. *)
Theorem breadth_limits_within_counts (series_sum : list float -> float)
    (today : string) (spot : operation DataFrame.t) :
  exists o,
    outcome (_get_market_statistics series_sum (MarketOverview.new today) spot)
    = Ok o
    /\ 0 <= MarketOverview.limit_up_count o <= MarketOverview.up_count o
    /\ 0 <= MarketOverview.limit_down_count o <= MarketOverview.down_count o
    /\ 0 <= MarketOverview.flat_count o.
Proof.
  unfold _get_market_statistics.
  destruct (_call_akshare_with_retry spot "A股实时行情" 2) as [[[df|]|e] t];
    cbn [bind try_except ret outcome fst];
    try (eexists; split; [reflexivity|cbn; lia]).
  destruct (negb (DataFrame.empty df)); cbn [outcome fst];
    [|eexists; split; [reflexivity|cbn; lia]].
  eexists. split; [reflexivity|].
  destruct (numeric_column df "涨跌幅") as [changes|] eqn:E.
  - destruct (statistics_counts series_sum df (MarketOverview.new today)
                changes E) as (-> & -> & -> & -> & ->).
    pose proof (count_where_nonneg (fun c => PyFloat.ge c 9.9%float) changes).
    pose proof (count_where_nonneg (fun c => PyFloat.le c (-9.9)%float) changes).
    pose proof (count_where_nonneg (fun c => PyFloat.eq c 0%float) changes).
    pose proof (count_where_le (fun c => PyFloat.ge c 9.9%float)
                  (fun c => PyFloat.gt c 0%float) changes limit_up_is_up).
    pose proof (count_where_le (fun c => PyFloat.le c (-9.9)%float)
                  (fun c => PyFloat.lt c 0%float) changes limit_down_is_down).
    lia.
  - unfold statistics_of. rewrite E.
    destruct (numeric_column df "成交额"); cbn; lia.
Qed.

(** X5. When the quote source fails at both attempts, or answers with an
    empty table, or with a table that has neither the column of the changes
    nor that of the amounts, the calculator hands the snapshot back as it
    was. *)
Theorem breadth_unchanged_without_data (series_sum : list float -> float)
    (overview : MarketOverview.t) (spot : operation DataFrame.t) :
  ((forall i, exists e, spot i = Raise e) ->
   _get_market_statistics series_sum overview spot
   = (Ok overview, [EvCall "A股实时行情"; EvSleep 2; EvCall "A股实时行情"]))
  /\ (forall df,
      spot 1 = Ok df ->
      DataFrame.empty df = true
      \/ (DataFrame.has_column df "涨跌幅" = false
          /\ DataFrame.has_column df "成交额" = false) ->
      _get_market_statistics series_sum overview spot
      = (Ok overview, [EvCall "A股实时行情"])).
Proof.
  split.
  - intros H. unfold _get_market_statistics.
    rewrite (retry_exhausted spot "A股实时行情" 2) by (intros i _; apply H).
    reflexivity.
  - intros df Hspot Hcase. unfold _get_market_statistics.
    rewrite (retry_success_at spot "A股实时行情" 2 1 df) by (trivial; lia).
    cbn [bind try_except ret calls_and_waits py_range].
    destruct Hcase as [Hempty|[Hc Ha]].
    + rewrite Hempty. reflexivity.
    + destruct (negb (DataFrame.empty df)); [|reflexivity].
      unfold statistics_of, numeric_column, DataFrame.column.
      unfold DataFrame.has_column in Hc, Ha.
      destruct (DataFrame.position "涨跌幅" (DataFrame.columns df));
        [discriminate|].
      destruct (DataFrame.position "成交额" (DataFrame.columns df));
        [discriminate|].
      reflexivity.
Qed.

Lemma breadth_unchanged_without_data_witness :
  _get_market_statistics (fun _ => 0%float) empty_snapshot
    (fun _ => Raise (OtherError "timeout"))
  = (Ok empty_snapshot, [EvCall "A股实时行情"; EvSleep 2; EvCall "A股实时行情"]).
Proof.
  apply (proj1 (breadth_unchanged_without_data (fun _ => 0%float)
                  empty_snapshot (fun _ => Raise (OtherError "timeout")))).
  intros i. now exists (OtherError "timeout").
Defined.

(** ** The sector ranking *)

Lemma insert_descending_perm (x : string * float) (l : list (string * float)) :
  Permutation (insert_descending x l) (x :: l).
Proof.
  induction l as [|y l IH]; [reflexivity|].
  cbn [insert_descending]. destruct (PyFloat.ge (snd x) (snd y)).
  - reflexivity.
  - rewrite IH. apply perm_swap.
Qed.

Lemma insert_ascending_perm (x : string * float) (l : list (string * float)) :
  Permutation (insert_ascending x l) (x :: l).
Proof.
  induction l as [|y l IH]; [reflexivity|].
  cbn [insert_ascending]. destruct (PyFloat.le (snd x) (snd y)).
  - reflexivity.
  - rewrite IH. apply perm_swap.
Qed.

Lemma sort_descending_perm (l : list (string * float)) :
  Permutation (fold_right insert_descending [] l) l.
Proof.
  induction l as [|x l IH]; [reflexivity|].
  cbn [fold_right]. rewrite insert_descending_perm. now constructor.
Qed.

Lemma sort_ascending_perm (l : list (string * float)) :
  Permutation (fold_right insert_ascending [] l) l.
Proof.
  induction l as [|x l IH]; [reflexivity|].
  cbn [fold_right]. rewrite insert_ascending_perm. now constructor.
Qed.

Lemma insert_descending_sorted (x : string * float)
    (l : list (string * float)) :
  is_number x -> Forall is_number l ->
  Sorted row_not_below l -> Sorted row_not_below (insert_descending x l).
Proof.
  intros Hx Hl Hs. induction l as [|y l IH]; [repeat constructor|].
  cbn [insert_descending].
  destruct (PyFloat.ge (snd x) (snd y)) eqn:E.
  - constructor; [exact Hs|]. constructor. exact E.
  - inversion Hl as [|? ? Hy Hl']; subst.
    inversion Hs as [|? ? Hs' Hhd]; subst.
    constructor; [now apply IH|].
    assert (Hyx : row_not_below y x).
    { unfold row_not_below. rewrite ge_le. rewrite ge_le in E.
      now apply le_total. }
    destruct l as [|z l]; [constructor; exact Hyx|].
    cbn [insert_descending]. destruct (PyFloat.ge (snd x) (snd z)).
    + constructor. exact Hyx.
    + inversion Hhd; subst. now constructor.
Qed.

Lemma insert_ascending_sorted (x : string * float)
    (l : list (string * float)) :
  is_number x -> Forall is_number l ->
  Sorted row_not_above l -> Sorted row_not_above (insert_ascending x l).
Proof.
  intros Hx Hl Hs. induction l as [|y l IH]; [repeat constructor|].
  cbn [insert_ascending].
  destruct (PyFloat.le (snd x) (snd y)) eqn:E.
  - constructor; [exact Hs|]. constructor. exact E.
  - inversion Hl as [|? ? Hy Hl']; subst.
    inversion Hs as [|? ? Hs' Hhd]; subst.
    constructor; [now apply IH|].
    assert (Hyx : row_not_above y x)
      by (unfold row_not_above; now apply le_total).
    destruct l as [|z l]; [constructor; exact Hyx|].
    cbn [insert_ascending]. destruct (PyFloat.le (snd x) (snd z)).
    + constructor. exact Hyx.
    + inversion Hhd; subst. now constructor.
Qed.

Lemma sort_descending_sorted (l : list (string * float)) :
  Forall is_number l -> Sorted row_not_below (fold_right insert_descending [] l).
Proof.
  induction 1 as [|x l Hx Hl IH]; [constructor|].
  cbn [fold_right]. apply insert_descending_sorted; trivial.
  eapply Permutation_Forall; [|exact Hl].
  symmetry. apply sort_descending_perm.
Qed.

Lemma sort_ascending_sorted (l : list (string * float)) :
  Forall is_number l -> Sorted row_not_above (fold_right insert_ascending [] l).
Proof.
  induction 1 as [|x l Hx Hl IH]; [constructor|].
  cbn [fold_right]. apply insert_ascending_sorted; trivial.
  eapply Permutation_Forall; [|exact Hl].
  symmetry. apply sort_ascending_perm.
Qed.

Lemma valid_rows_are_numbers (df : SectorFrame.t) :
  Forall is_number (valid_sector_rows df).
Proof.
  unfold valid_sector_rows. apply Forall_forall. intros r Hr.
  apply filter_In in Hr. destruct Hr as [_ Hr].
  unfold is_number. now destruct (is_nan (snd r)).
Qed.

Lemma Sorted_firstn {A : Type} (R : A -> A -> Prop) (n : nat) (l : list A) :
  Sorted R l -> Sorted R (firstn n l).
Proof.
  revert l. induction n as [|n IH]; intros l Hs; [constructor|].
  destruct l as [|x l]; [constructor|].
  inversion Hs as [|? ? Hs' Hhd]; subst. cbn [firstn].
  constructor; [now apply IH|].
  destruct n; [constructor|]. destruct l as [|y l]; [constructor|].
  inversion Hhd; subst. now constructor.
Qed.

Lemma Sorted_map {A B : Type} (R : A -> A -> Prop) (R' : B -> B -> Prop)
    (f : A -> B) (l : list A) :
  (forall a b, R a b -> R' (f a) (f b)) ->
  Sorted R l -> Sorted R' (map f l).
Proof.
  intros Hf. induction 1 as [|x l Hs IH Hhd]; [constructor|].
  cbn [map]. constructor; [exact IH|].
  destruct Hhd; cbn [map]; constructor. now apply Hf.
Qed.

(** What the ranking makes of a table. *)
Lemma rankings_spec (df : SectorFrame.t) (overview : MarketOverview.t) :
  (SectorFrame.has_names df = true \/ valid_sector_rows df = [] ->
   rankings_of df overview
   = set_bottom_sectors
       (map sector_of_row (nsmallest 5 (valid_sector_rows df)))
       (set_top_sectors
          (map sector_of_row (nlargest 5 (valid_sector_rows df))) overview))
  /\ (SectorFrame.has_names df = false -> valid_sector_rows df <> [] ->
      rankings_of df overview = overview).
Proof.
  unfold rankings_of, sector_dicts, nlargest, nsmallest.
  pose proof (sort_descending_perm (valid_sector_rows df)) as Hd.
  pose proof (sort_ascending_perm (valid_sector_rows df)) as Ha.
  destruct (valid_sector_rows df) as [|r l] eqn:E.
  - cbn. split; [reflexivity|congruence].
  - destruct (fold_right insert_descending [] (r :: l)) as [|d ds] eqn:Ed;
      [apply Permutation_nil in Hd; discriminate Hd|].
    destruct (fold_right insert_ascending [] (r :: l)) as [|a als] eqn:Ea;
      [apply Permutation_nil in Ha; discriminate Ha|].
    cbn [firstn]. split.
    + intros [Hn|Hn]; [|discriminate Hn]. now rewrite Hn.
    + intros Hn _. now rewrite Hn.
Qed.

(** Every run ends in the snapshot as it was or in the ranking of a table. *)
Lemma sector_run_cases (overview : MarketOverview.t)
    (board : operation SectorFrame.t) :
  outcome (_get_sector_rankings overview board) = Ok overview
  \/ exists df, outcome (_get_sector_rankings overview board)
                = Ok (rankings_of df overview).
Proof.
  unfold _get_sector_rankings.
  destruct (_call_akshare_with_retry board "行业板块行情" 2) as [[[df|]|e] t];
    cbn [bind try_except ret outcome fst]; try (now left).
  destruct (negb (SectorFrame.empty df)); [|now left].
  destruct (SectorFrame.has_changes df); [|now left].
  right. now exists df.
Qed.

Lemma sector_run_of_table (overview : MarketOverview.t)
    (board : operation SectorFrame.t) (df : SectorFrame.t) :
  board 1 = Ok df ->
  SectorFrame.rows df <> [] -> SectorFrame.has_changes df = true ->
  _get_sector_rankings overview board
  = (Ok (rankings_of df overview), [EvCall "行业板块行情"]).
Proof.
  intros Hboard Hrows Hchanges. unfold _get_sector_rankings.
  rewrite (retry_success_at board "行业板块行情" 2 1 df) by (trivial; lia).
  cbn [bind try_except ret calls_and_waits py_range].
  unfold SectorFrame.empty. destruct (SectorFrame.rows df); [contradiction|].
  cbn [is_nil negb]. now rewrite Hchanges.
Qed.

Lemma firstn_length_min {A : Type} (n : nat) (l : list A) :
  List.length (firstn n l) = Nat.min n (List.length l).
Proof. apply length_firstn. Qed.

Lemma top_bottom_of_ranking (df : SectorFrame.t) (overview : MarketOverview.t) :
  SectorFrame.has_names df = true \/ valid_sector_rows df = [] ->
  MarketOverview.top_sectors (rankings_of df overview)
  = map sector_of_row (nlargest 5 (valid_sector_rows df))
  /\ MarketOverview.bottom_sectors (rankings_of df overview)
     = map sector_of_row (nsmallest 5 (valid_sector_rows df)).
Proof.
  intros H. rewrite (proj1 (rankings_spec df overview) H). now split.
Qed.

Lemma nlargest_sorted (n : nat) (df : SectorFrame.t) :
  Sorted sector_not_below
    (map sector_of_row (nlargest n (valid_sector_rows df))).
Proof.
  apply Sorted_map with (R := row_not_below); [now intros a b|].
  apply Sorted_firstn, sort_descending_sorted, valid_rows_are_numbers.
Qed.

Lemma nsmallest_sorted (n : nat) (df : SectorFrame.t) :
  Sorted sector_not_above
    (map sector_of_row (nsmallest n (valid_sector_rows df))).
Proof.
  apply Sorted_map with (R := row_not_above); [now intros a b|].
  apply Sorted_firstn, sort_ascending_sorted, valid_rows_are_numbers.
Qed.

Lemma nlargest_length (n : nat) (l : list (string * float)) :
  List.length (nlargest n l) = Nat.min n (List.length l).
Proof.
  unfold nlargest. rewrite length_firstn.
  now rewrite (Permutation_length (sort_descending_perm l)).
Qed.

Lemma nsmallest_length (n : nat) (l : list (string * float)) :
  List.length (nsmallest n l) = Nat.min n (List.length l).
Proof.
  unfold nsmallest. rewrite length_firstn.
  now rewrite (Permutation_length (sort_ascending_perm l)).
Qed.

(** X6. Every run of the ranking on a fresh snapshot returns, and in what it
    returns each of the two lists has at most five sectors, both have the
    same number of them, the first is in descending order of the change and
    the second in ascending order. *)
Theorem sector_lists_are_short_and_sorted (today : string)
    (board : operation SectorFrame.t) :
  exists o,
    outcome (_get_sector_rankings (MarketOverview.new today) board) = Ok o
    /\ (List.length (MarketOverview.top_sectors o) <= 5)%nat
    /\ List.length (MarketOverview.bottom_sectors o)
       = List.length (MarketOverview.top_sectors o)
    /\ Sorted sector_not_below (MarketOverview.top_sectors o)
    /\ Sorted sector_not_above (MarketOverview.bottom_sectors o).
Proof.
  destruct (sector_run_cases (MarketOverview.new today) board)
    as [->|[df ->]].
  - eexists. split; [reflexivity|]. cbn. repeat split; try lia; constructor.
  - eexists. split; [reflexivity|].
    destruct (SectorFrame.has_names df) eqn:Hn.
    + destruct (top_bottom_of_ranking df (MarketOverview.new today)
                  (or_introl Hn)) as [-> ->].
      rewrite !length_map, nlargest_length, nsmallest_length.
      repeat split; try lia;
        [apply nlargest_sorted|apply nsmallest_sorted].
    + destruct (valid_sector_rows df) as [|r l] eqn:E.
      * destruct (top_bottom_of_ranking df (MarketOverview.new today))
          as [-> ->]; [right; exact E|].
        rewrite E. cbn. repeat split; try lia; constructor.
      * rewrite (proj2 (rankings_spec df (MarketOverview.new today)) Hn)
          by (rewrite E; discriminate).
        cbn. repeat split; try lia; constructor.
Qed.

Lemma row_not_below_trans : Relations_1.Transitive row_not_below.
Proof.
  intros a b c Hab Hbc. unfold row_not_below in *. rewrite ge_le in *.
  now apply le_trans with (y := snd b).
Qed.

Lemma row_not_above_trans : Relations_1.Transitive row_not_above.
Proof.
  intros a b c Hab Hbc. unfold row_not_above in *.
  now apply le_trans with (y := snd b).
Qed.

Lemma StronglySorted_app {A : Type} (R : A -> A -> Prop) (l1 l2 : list A) :
  StronglySorted R (l1 ++ l2) ->
  forall a b, In a l1 -> In b l2 -> R a b.
Proof.
  induction l1 as [|x l1 IH]; intros Hs a b Ha Hb; [contradiction|].
  cbn [app] in Hs. inversion Hs as [|? ? Hs' Hall]; subst.
  destruct Ha as [->|Ha].
  - rewrite Forall_forall in Hall. apply Hall, in_or_app. now right.
  - now apply IH.
Qed.

(** The first [n] rows of a sorted list are not below the rows after them. *)
Lemma nlargest_dominates (n : nat) (l : list (string * float)) :
  Forall is_number l ->
  exists rest,
    Permutation (nlargest n l ++ rest) l
    /\ forall a b, In a (nlargest n l) -> In b rest -> row_not_below a b.
Proof.
  intros Hl. exists (skipn n (fold_right insert_descending [] l)).
  unfold nlargest. split.
  - rewrite firstn_skipn. apply sort_descending_perm.
  - apply StronglySorted_app. rewrite firstn_skipn.
    apply Sorted_StronglySorted; [exact row_not_below_trans|].
    now apply sort_descending_sorted.
Qed.

Lemma nsmallest_dominated (n : nat) (l : list (string * float)) :
  Forall is_number l ->
  exists rest,
    Permutation (nsmallest n l ++ rest) l
    /\ forall a b, In a (nsmallest n l) -> In b rest -> row_not_above a b.
Proof.
  intros Hl. exists (skipn n (fold_right insert_ascending [] l)).
  unfold nsmallest. split.
  - rewrite firstn_skipn. apply sort_ascending_perm.
  - apply StronglySorted_app. rewrite firstn_skipn.
    apply Sorted_StronglySorted; [exact row_not_above_trans|].
    now apply sort_ascending_sorted.
Qed.

(** X7. When the sector source answers with a table that has rows and its
    two columns, the first list holds the five rows of the highest change
    (all of them when there are fewer): each of its sectors is a row of the
    table whose change is a number, and no numeric row left out of it has a
    change above that of a sector in it. The second list holds, in the same
    way, the rows of the lowest change. *)
Theorem sector_lists_hold_the_extremes (overview : MarketOverview.t)
    (board : operation SectorFrame.t) (df : SectorFrame.t) :
  board 1 = Ok df ->
  SectorFrame.rows df <> [] ->
  SectorFrame.has_changes df = true ->
  SectorFrame.has_names df = true ->
  exists o top bottom above below,
    outcome (_get_sector_rankings overview board) = Ok o
    /\ MarketOverview.top_sectors o = map sector_of_row top
    /\ MarketOverview.bottom_sectors o = map sector_of_row bottom
    /\ List.length top = Nat.min 5 (List.length (valid_sector_rows df))
    /\ List.length bottom = Nat.min 5 (List.length (valid_sector_rows df))
    /\ Permutation (top ++ below) (valid_sector_rows df)
    /\ Permutation (bottom ++ above) (valid_sector_rows df)
    /\ (forall a b, In a top -> In b below -> row_not_below a b)
    /\ (forall a b, In a bottom -> In b above -> row_not_above a b)
    /\ Forall is_number (valid_sector_rows df).
Proof.
  intros Hboard Hrows Hchanges Hnames.
  pose proof (valid_rows_are_numbers df) as Hvalid.
  destruct (nlargest_dominates 5 (valid_sector_rows df) Hvalid)
    as (below & Hpb & Hdb).
  destruct (nsmallest_dominated 5 (valid_sector_rows df) Hvalid)
    as (above & Hpa & Hda).
  exists (rankings_of df overview), (nlargest 5 (valid_sector_rows df)),
    (nsmallest 5 (valid_sector_rows df)), above, below.
  rewrite (sector_run_of_table overview board df Hboard Hrows Hchanges).
  destruct (top_bottom_of_ranking df overview (or_introl Hnames)) as [-> ->].
  rewrite nlargest_length, nsmallest_length.
  repeat split; trivial.
Qed.

Lemma sector_lists_hold_the_extremes_witness :
  exists o,
    outcome (_get_sector_rankings empty_snapshot (fun _ => Ok seven_sectors))
    = Ok o
    /\ map Sector.name (MarketOverview.top_sectors o)
       = ["半导体"; "银行"; "白酒"; "电力"; "军工"]
    /\ map Sector.name (MarketOverview.bottom_sectors o)
       = ["煤炭"; "军工"; "电力"; "银行"; "白酒"].
Proof.
  destruct (sector_lists_hold_the_extremes empty_snapshot
              (fun _ => Ok seven_sectors) seven_sectors eq_refl)
    as (o & top & bottom & above & below & Hrun & _);
    [discriminate|reflexivity|reflexivity|].
  exists o. split; [exact Hrun|].
  vm_compute in Hrun. injection Hrun as <-. split; reflexivity.
Defined.

(** X8. With at most five numeric rows in the table nothing is left out and
    nothing is added: both lists hold exactly the numeric rows of the table,
    the second in the opposite order of the first up to rows of equal
    change. *)
Theorem sector_lists_of_a_short_table (overview : MarketOverview.t)
    (board : operation SectorFrame.t) (df : SectorFrame.t) :
  board 1 = Ok df ->
  SectorFrame.rows df <> [] ->
  SectorFrame.has_changes df = true ->
  SectorFrame.has_names df = true ->
  (List.length (valid_sector_rows df) <= 5)%nat ->
  exists o,
    outcome (_get_sector_rankings overview board) = Ok o
    /\ Permutation (MarketOverview.top_sectors o)
         (map sector_of_row (valid_sector_rows df))
    /\ Permutation (MarketOverview.bottom_sectors o)
         (map sector_of_row (valid_sector_rows df)).
Proof.
  intros Hboard Hrows Hchanges Hnames Hshort.
  exists (rankings_of df overview).
  rewrite (sector_run_of_table overview board df Hboard Hrows Hchanges).
  destruct (top_bottom_of_ranking df overview (or_introl Hnames)) as [-> ->].
  split; [reflexivity|].
  unfold nlargest, nsmallest.
  rewrite !firstn_all2.
  - split; apply Permutation_map;
      [apply sort_descending_perm|apply sort_ascending_perm].
  - now rewrite (Permutation_length (sort_ascending_perm _)).
  - now rewrite (Permutation_length (sort_descending_perm _)).
Qed.

Lemma sector_lists_of_a_short_table_witness :
  exists o,
    outcome (_get_sector_rankings empty_snapshot (fun _ => Ok three_sectors))
    = Ok o
    /\ map Sector.name (MarketOverview.top_sectors o)
       = ["半导体"; "银行"; "煤炭"]
    /\ map Sector.name (MarketOverview.bottom_sectors o)
       = ["煤炭"; "银行"; "半导体"].
Proof.
  destruct (sector_lists_of_a_short_table empty_snapshot
              (fun _ => Ok three_sectors) three_sectors eq_refl)
    as (o & Hrun & _);
    [discriminate|reflexivity|reflexivity|cbn; lia|].
  exists o. split; [exact Hrun|].
  vm_compute in Hrun. injection Hrun as <-. split; reflexivity.
Defined.

(** X9. The ranking hands the snapshot back as it was when the source fails
    at both attempts, when its table has no row or lacks the column of the
    changes, and when the table has numeric rows but lacks the column of the
    names. *)
Theorem sectors_unchanged_without_data (overview : MarketOverview.t)
    (board : operation SectorFrame.t) :
  ((forall i, exists e, board i = Raise e) ->
   _get_sector_rankings overview board
   = (Ok overview, [EvCall "行业板块行情"; EvSleep 2; EvCall "行业板块行情"]))
  /\ (forall df,
      board 1 = Ok df ->
      SectorFrame.rows df = []
      \/ SectorFrame.has_changes df = false
      \/ (SectorFrame.has_names df = false /\ valid_sector_rows df <> []) ->
      _get_sector_rankings overview board
      = (Ok overview, [EvCall "行业板块行情"])).
Proof.
  split.
  - intros H. unfold _get_sector_rankings.
    rewrite (retry_exhausted board "行业板块行情" 2) by (intros i _; apply H).
    reflexivity.
  - intros df Hboard Hcase. unfold _get_sector_rankings.
    rewrite (retry_success_at board "行业板块行情" 2 1 df) by (trivial; lia).
    cbn [bind try_except ret calls_and_waits py_range].
    unfold SectorFrame.empty.
    destruct Hcase as [Hrows|[Hchanges|[Hnames Hvalid]]].
    + now rewrite Hrows.
    + rewrite Hchanges. now destruct (negb _).
    + destruct (negb _); [|reflexivity].
      destruct (SectorFrame.has_changes df); [|reflexivity].
      now rewrite (proj2 (rankings_spec df overview) Hnames Hvalid).
Qed.

Lemma sectors_unchanged_without_data_witness :
  _get_sector_rankings empty_snapshot
    (fun _ => Ok (SectorFrame.mk false true [("", CNum 1%float)]))
  = (Ok empty_snapshot, [EvCall "行业板块行情"]).
Proof.
  apply (proj2 (sectors_unchanged_without_data empty_snapshot
                  (fun _ => Ok (SectorFrame.mk false true [("", CNum 1%float)])))
           (SectorFrame.mk false true [("", CNum 1%float)]) eq_refl).
  right. right. split; [reflexivity|]. vm_compute. discriminate.
Defined.

(** ** The index resolver: what its list looks like *)

Lemma Subsequence_refl {A : Type} (l : list A) : Subsequence l l.
Proof. induction l; constructor; assumption. Qed.

Lemma Subsequence_In {A : Type} (l1 l2 : list A) (x : A) :
  Subsequence l1 l2 -> In x l1 -> In x l2.
Proof.
  induction 1 as [l|y l1 l2 _ IH|y l1 l2 _ IH]; intros Hx.
  - contradiction.
  - right. now apply IH.
  - destruct Hx as [->|Hx]; [now left|right; now apply IH].
Qed.

Lemma Subsequence_length {A : Type} (l1 l2 : list A) :
  Subsequence l1 l2 -> (List.length l1 <= List.length l2)%nat.
Proof.
  induction 1; cbn [List.length]; lia.
Qed.

Lemma Subsequence_NoDup {A : Type} (l1 l2 : list A) :
  Subsequence l1 l2 -> NoDup l2 -> NoDup l1.
Proof.
  induction 1 as [l|y l1 l2 Hs IH|y l1 l2 Hs IH]; intros Hnd.
  - constructor.
  - inversion Hnd; subst. now apply IH.
  - inversion Hnd as [|? ? Hy Hnd']; subst. constructor; [|now apply IH].
    intros Hin. apply Hy. now apply (Subsequence_In l1 l2).
Qed.

Lemma Subsequence_map {A B : Type} (f : A -> B) (l1 l2 : list A) :
  Subsequence l1 l2 -> Subsequence (map f l1) (map f l2).
Proof.
  induction 1; cbn [map]; constructor; assumption.
Qed.

Lemma Subsequence_app {A : Type} (l1 l2 m1 m2 : list A) :
  Subsequence l1 m1 -> Subsequence l2 m2 -> Subsequence (l1 ++ l2) (m1 ++ m2).
Proof.
  intros H1 H2. induction H1 as [l|y l1 m _ IH|y l1 m _ IH]; cbn [app].
  - induction l as [|z l IHl]; [exact H2|]. cbn [app]. now constructor.
  - now constructor.
  - now constructor.
Qed.

Lemma index_of_row_key (df : DataFrame.t) (code name : string)
    (row : list cell) (index : MarketIndex.t) :
  index_of_row df code name row = Ok index -> index_key index = (code, name).
Proof.
  unfold index_of_row. intros H.
  repeat (apply and_then_Ok in H; destruct H as (? & _ & H)).
  destruct (PyFloat.gt _ _).
  - apply and_then_Ok in H. destruct H as (q & _ & H).
    injection H as <-. reflexivity.
  - injection H as <-. reflexivity.
Qed.

(** The loop over the primary table adds, to the list it starts from, indices
    whose codes and names follow the order of the entries it goes through. *)
Lemma primary_loop_keys (df : DataFrame.t) (todo : list (string * string))
    (indices : list MarketIndex.t) :
  exists added,
    fst (primary_loop df todo indices) = (indices ++ added)%list
    /\ Subsequence (map index_key added) todo.
Proof.
  revert indices. induction todo as [|[code name] todo IH]; intros indices.
  - exists []. cbn. rewrite app_nil_r. split; [reflexivity|constructor].
  - cbn [primary_loop].
    destruct (find_row df code) as [[row|]|e].
    + destruct (index_of_row df code name row) as [index|e] eqn:E.
      * destruct (IH (indices ++ [index])%list) as (added & -> & Hsub).
        exists (index :: added). rewrite <- app_assoc. split; [reflexivity|].
        cbn [map]. rewrite (index_of_row_key _ _ _ _ _ E). now constructor.
      * exists []. cbn. rewrite app_nil_r. split; [reflexivity|constructor].
    + destruct (IH indices) as (added & -> & Hsub).
      exists added. split; [reflexivity|]. now constructor.
    + exists []. cbn. rewrite app_nil_r. split; [reflexivity|constructor].
Qed.

Lemma primary_matches_keys (spot : operation DataFrame.t) :
  Subsequence (map index_key (primary_matches spot)) MAIN_INDICES.
Proof.
  unfold primary_matches, primary_indices.
  destruct (outcome _) as [[df|]|e]; cbn [fst map];
    [|apply Subsequence_nil|apply Subsequence_nil].
  destruct (negb (DataFrame.empty df)); [|apply Subsequence_nil].
  destruct (primary_loop_keys df MAIN_INDICES []) as (added & -> & Hsub).
  exact Hsub.
Qed.

Lemma lookup_one_keys (history : history_source)
    (entry : string * (string * string)) :
  Subsequence (map index_key (lookup_one history entry))
    [(fst entry, snd (snd entry))].
Proof.
  destruct entry as [ak_code [yf_code name]]. unfold lookup_one. cbn [fst snd].
  destruct (history yf_code) as [hist|e]; [|apply Subsequence_nil].
  destruct (index_of_history ak_code name hist) as [[index|]|e] eqn:E;
    [|apply Subsequence_nil|apply Subsequence_nil].
  cbn [map]. unfold index_of_history in E.
  destruct (rev hist) as [|today earlier]; [discriminate|].
  apply and_then_Ok in E. destruct E as (pct & _ & E).
  injection E as <-. apply Subsequence_take, Subsequence_nil.
Qed.

Lemma secondary_keys (history : history_source)
    (entries : list (string * (string * string))) :
  Subsequence (map index_key (flat_map (lookup_one history) entries))
    (map (fun entry => (fst entry, snd (snd entry))) entries).
Proof.
  induction entries as [|entry entries IH]; [apply Subsequence_nil|].
  cbn [flat_map map]. rewrite map_app.
  apply (Subsequence_app _ _ [_] _); [apply lookup_one_keys|exact IH].
Qed.

Lemma resolver_keys (spot : operation DataFrame.t)
    (history : history_source) :
  exists indices,
    outcome (_get_main_indices spot history) = Ok indices
    /\ Subsequence (map index_key indices) MAIN_INDICES.
Proof.
  destruct (main_indices_spec spot history) as [Hfall Hkeep].
  pose proof (primary_matches_keys spot) as Hprimary.
  destruct (primary_matches spot) as [|i l].
  - rewrite (Hfall eq_refl). eexists. split; [reflexivity|].
    apply (secondary_keys history yf_mapping).
  - rewrite Hkeep by discriminate. eexists. split; [reflexivity|].
    exact Hprimary.
Qed.

(** X10. Every run of the resolver returns a list, and the codes and names
    of the list are those of the table of tracked indices with some of them
    left out: at most six indices, in the order of that table, none twice,
    each under the name the table gives its code. *)
Theorem resolver_keeps_the_tracked_order (spot : operation DataFrame.t)
    (history : history_source) :
  exists indices,
    outcome (_get_main_indices spot history) = Ok indices
    /\ Subsequence (map index_key indices) MAIN_INDICES
    /\ (List.length indices <= 6)%nat
    /\ NoDup (map MarketIndex.code indices).
Proof.
  destruct (resolver_keys spot history) as (indices & Hrun & Hsub).
  exists indices.
  split; [exact Hrun|]. split; [exact Hsub|]. split.
  - apply Subsequence_length in Hsub. rewrite length_map in Hsub. exact Hsub.
  - replace (map MarketIndex.code indices)
      with (map fst (map index_key indices)) by (now rewrite map_map).
    apply (Subsequence_NoDup _ (map fst MAIN_INDICES)).
    + now apply Subsequence_map.
    + cbn. repeat constructor; cbn; intuition discriminate.
Qed.

(** X11. A row of the primary table whose nine cells are numbers, empty or
    missing always gives an index, under the code and the name it was looked
    up for; its amplitude is [(high - low) / prev_close * 100] when the
    previous close is above zero and stays 0.0 otherwise: no division by
    zero. *)
Theorem amplitude_needs_previous_close (df : DataFrame.t)
    (code name : string) (row : list cell) :
  (forall col, In col quote_columns ->
               exists v, float_or_zero (DataFrame.row_get df row col) = Ok v) ->
  exists index,
    index_of_row df code name row = Ok index
    /\ index_key index = (code, name)
    /\ float_or_zero (DataFrame.row_get df row "昨收")
       = Ok (MarketIndex.prev_close index)
    /\ (PyFloat.gt (MarketIndex.prev_close index) 0%float = true ->
        MarketIndex.amplitude index
        = ((MarketIndex.high index - MarketIndex.low index)
           / MarketIndex.prev_close index * 100)%float)
    /\ (PyFloat.gt (MarketIndex.prev_close index) 0%float = false ->
        MarketIndex.amplitude index = 0%float).
Proof.
  intros Hcells. unfold index_of_row.
  destruct (Hcells "最新价") as [v1 ->]; [cbn; tauto|].
  destruct (Hcells "涨跌额") as [v2 ->]; [cbn; tauto|].
  destruct (Hcells "涨跌幅") as [v3 ->]; [cbn; tauto|].
  destruct (Hcells "今开") as [v4 ->]; [cbn; tauto|].
  destruct (Hcells "最高") as [v5 ->]; [cbn; tauto|].
  destruct (Hcells "最低") as [v6 ->]; [cbn; tauto|].
  destruct (Hcells "昨收") as [v7 ->]; [cbn; tauto|].
  destruct (Hcells "成交量") as [v8 ->]; [cbn; tauto|].
  destruct (Hcells "成交额") as [v9 ->]; [cbn; tauto|].
  cbn [and_then MarketIndex.prev_close MarketIndex.high MarketIndex.low].
  destruct (PyFloat.gt v7 0%float) eqn:E.
  - rewrite (div_by_positive _ v7 E). cbn [and_then].
    eexists. split; [reflexivity|].
    unfold index_key, MarketIndex.set_amplitude.
    cbn [MarketIndex.code MarketIndex.name MarketIndex.prev_close
         MarketIndex.high MarketIndex.low MarketIndex.amplitude].
    repeat split; intros; congruence.
  - eexists. split; [reflexivity|].
    unfold index_key.
    cbn [MarketIndex.code MarketIndex.name MarketIndex.prev_close
         MarketIndex.high MarketIndex.low MarketIndex.amplitude].
    repeat split; intros; congruence.
Qed.

Lemma amplitude_needs_previous_close_witness :
  exists index,
    index_of_row row_without_prev_close "sh000001" "上证指数"
      [CStr "sh000001"; CNum 3366%float; CNum 3370%float; CNum 3305%float;
       CNone]
    = Ok index
    /\ MarketIndex.prev_close index = 0%float
    /\ MarketIndex.amplitude index = 0%float.
Proof.
  destruct (amplitude_needs_previous_close row_without_prev_close
              "sh000001" "上证指数"
              [CStr "sh000001"; CNum 3366%float; CNum 3370%float;
               CNum 3305%float; CNone])
    as (index & Hrow & _ & Hprev & _ & Hzero).
  { intros col Hcol. cbn in Hcol.
    repeat (destruct Hcol as [<-|Hcol]; [eexists; reflexivity|]).
    contradiction. }
  exists index. split; [exact Hrow|].
  cbn in Hprev. injection Hprev as Hprev.
  split; [now symmetry|]. apply Hzero. now rewrite <- Hprev.
Defined.

(** ** The index of the secondary source *)

Lemma index_of_bars (ak_code name : string) (prev today : Bar)
    (earlier : list Bar) :
  rev earlier = [] /\ prev = today
  \/ (exists older, rev earlier = prev :: older) ->
  exists pct,
    index_of_history ak_code name (earlier ++ [today])
    = Ok (Some (index_from_bars ak_code name prev today pct))
    /\ (PrimFloat.eqb (bar_close prev) 0%float = true -> pct = 0%float)
    /\ (PrimFloat.eqb (bar_close prev) 0%float = false ->
        pct = ((bar_close today - bar_close prev) / bar_close prev * 100)%float).
Proof.
  intros Hprev. unfold index_of_history. rewrite rev_unit.
  assert (Hp : match rev earlier with p :: _ => p | [] => today end = prev).
  { destruct Hprev as [[-> ->]|[older ->]]; reflexivity. }
  rewrite Hp. unfold PyFloat.truthy, PyFloat.div.
  destruct (PrimFloat.eqb (bar_close prev) 0%float) eqn:E; cbn [negb and_then].
  - exists 0%float. repeat split; congruence.
  - eexists. split; [reflexivity|]. split; congruence.
Qed.

(** X12. The building of an index from a history never raises, whatever
    the history: an empty history gives no index and any other history
    gives one. The index takes its level, open, high, low and volume from
    the last bar and its previous close from the bar before it, or from the
    last bar itself when the history has a single bar; its change is the
    difference of the two closes, its change in percent is 0 when the
    previous close is zero and [change / prev_close * 100] otherwise, and
    its traded value and amplitude are 0.0. *)
Theorem history_always_gives_an_index (ak_code name : string)
    (earlier : list Bar) (prev today : Bar) :
  let change_pct_of := fun (prev today : Bar) (pct : float) =>
    (PrimFloat.eqb (bar_close prev) 0%float = true -> pct = 0%float)
    /\ (PrimFloat.eqb (bar_close prev) 0%float = false ->
        pct = ((bar_close today - bar_close prev) / bar_close prev
               * 100)%float) in
  (forall hist,
   exists r, index_of_history ak_code name hist = Ok r
             /\ (r = None <-> hist = []))
  /\ index_of_history ak_code name [] = Ok None
  /\ (exists pct,
      index_of_history ak_code name [today]
      = Ok (Some (index_from_bars ak_code name today today pct))
      /\ change_pct_of today today pct)
  /\ (exists pct,
      index_of_history ak_code name (earlier ++ [prev; today])
      = Ok (Some (index_from_bars ak_code name prev today pct))
      /\ change_pct_of prev today pct).
Proof.
  cbv zeta. split; [|split; [reflexivity|split]].
  - intros hist. destruct hist as [|b rest] using rev_ind.
    + exists None. now split.
    + destruct (index_of_bars ak_code name
                  (match rev rest with p :: _ => p | [] => b end) b rest)
        as (pct & Hrun & _).
      { destruct (rev rest) as [|p older]; [now left|right; now exists older]. }
      eexists. split; [exact Hrun|]. split; [discriminate|].
      intros H. now destruct rest.
  - destruct (index_of_bars ak_code name today today [])
      as (pct & Hrun & Hpct); [now left|].
    now exists pct.
  - replace (earlier ++ [prev; today])%list
      with ((earlier ++ [prev]) ++ [today])%list by (now rewrite <- app_assoc).
    apply index_of_bars. right. exists (rev earlier). apply rev_unit.
Qed.

Lemma sub_self_is_zero (x : float) :
  is_finite_float x = true -> Prim2SF (x - x)%float = S754_zero false.
Proof.
  unfold is_finite_float. rewrite sub_spec. unfold SF64sub, SFsub.
  destruct (Prim2SF x) as [s|s| |s m e]; try discriminate; intros _.
  - now destruct s.
  - cbv zeta. rewrite Z.sub_diag. reflexivity.
Qed.

Lemma eqb_zero_of_SF (x : float) (s : bool) :
  Prim2SF x = S754_zero s -> PrimFloat.eqb x 0%float = true.
Proof.
  intros H. rewrite FloatAxioms.eqb_spec, H. reflexivity.
Qed.

(** X13. A history of a single bar whose close is a finite number gives an
    index whose previous close is its level, and whose change and change in
    percent are zero. *)
Theorem single_bar_means_no_change (ak_code name : string) (today : Bar) :
  is_finite_float (bar_close today) = true ->
  exists index,
    index_of_history ak_code name [today] = Ok (Some index)
    /\ MarketIndex.current index = bar_close today
    /\ MarketIndex.prev_close index = bar_close today
    /\ PrimFloat.eqb (MarketIndex.change index) 0%float = true
    /\ PrimFloat.eqb (MarketIndex.change_pct index) 0%float = true.
Proof.
  intros Hfin.
  destruct (index_of_bars ak_code name today today [])
    as (pct & Hrun & Hzero & Hdiv); [now left|].
  cbn [app] in Hrun. eexists. split; [exact Hrun|].
  cbn [index_from_bars MarketIndex.current MarketIndex.prev_close
       MarketIndex.change MarketIndex.change_pct].
  pose proof (sub_self_is_zero _ Hfin) as Hsub.
  repeat split.
  - exact (eqb_zero_of_SF _ _ Hsub).
  - destruct (PrimFloat.eqb (bar_close today) 0%float) eqn:E.
    + now rewrite (Hzero eq_refl).
    + rewrite (Hdiv eq_refl).
      assert (H100 : exists m e, Prim2SF 100%float = S754_finite false m e)
        by (vm_compute; eauto).
      destruct H100 as (m100 & e100 & H100).
      unfold is_finite_float in Hfin.
      destruct (Prim2SF (bar_close today)) as [s|s| |s m e] eqn:Ec;
        try discriminate Hfin.
      * rewrite FloatAxioms.eqb_spec, Ec in E. discriminate E.
      * apply (eqb_zero_of_SF _ (xorb (xorb false s) false)).
        rewrite mul_spec, div_spec, Hsub, Ec, H100. reflexivity.
Qed.

Lemma single_bar_means_no_change_witness :
  exists index,
    index_of_history "sh000001" "上证指数"
      [mkBar 3300%float 3370%float 3290%float 3366%float 1e9%float]
    = Ok (Some index)
    /\ MarketIndex.current index = 3366%float
    /\ MarketIndex.prev_close index = 3366%float
    /\ PrimFloat.eqb (MarketIndex.change index) 0%float = true
    /\ PrimFloat.eqb (MarketIndex.change_pct index) 0%float = true.
Proof.
  apply (single_bar_means_no_change "sh000001" "上证指数"
           (mkBar 3300%float 3370%float 3290%float 3366%float 1e9%float)).
  vm_compute. reflexivity.
Defined.

(** ** The sources of the leverage indicator *)

Lemma try_except_total {A : Type} (body : Py A) (handler : exn -> Py A) :
  (forall e, exists v, outcome (handler e) = Ok v) ->
  exists v, outcome (try_except body handler) = Ok v.
Proof.
  intros H. destruct body as [[a|e] t]; cbn.
  - now exists a.
  - destruct (H e) as [v Hv]. destruct (handler e) as [r t'].
    cbn in Hv. subst r. now exists v.
Qed.

Lemma retry_first_attempt {A : Type} (fn : operation A) (name : string)
    (v : A) :
  fn 1 = Ok v ->
  _call_akshare_with_retry fn name 2 = (Ok (Some v), [EvCall name]).
Proof.
  intros H. now rewrite (retry_success_at fn name 2 1 v) by (trivial; lia).
Qed.

Lemma retry_all_fail {A : Type} (fn : operation A) (name : string) :
  (forall i, exists e, fn i = Raise e) ->
  _call_akshare_with_retry fn name 2
  = (Ok None, [EvCall name; EvSleep 2; EvCall name]).
Proof.
  intros H. now rewrite (retry_exhausted fn name 2) by (intros i _; apply H).
Qed.

(** X14. The getter of the margin balance never raises. It returns 0.0 when
    the source fails at both attempts, when the table is empty, when pandas
    cannot put the table in the order of its dates, and when a table without
    dates has no column of the balance; on a table without dates that has
    the column it returns the balance of the first row. *)
Theorem margin_balance_degrades_to_zero
    (newest_first : DataFrame.t -> result DataFrame.t)
    (info : operation DataFrame.t) :
  (exists v, outcome (_get_margin_balance newest_first info) = Ok v)
  /\ ((forall i, exists e, info i = Raise e) ->
      outcome (_get_margin_balance newest_first info) = Ok 0%float)
  /\ (forall df,
      info 1 = Ok df ->
      (DataFrame.empty df = true ->
       outcome (_get_margin_balance newest_first info) = Ok 0%float)
      /\ (DataFrame.has_column df "日期" = true ->
          (exists e, newest_first df = Raise e) ->
          outcome (_get_margin_balance newest_first info) = Ok 0%float)
      /\ (DataFrame.empty df = false ->
          DataFrame.has_column df "日期" = false ->
          DataFrame.has_column df "融资余额" = false ->
          outcome (_get_margin_balance newest_first info) = Ok 0%float)
      /\ (forall row rest balance,
          DataFrame.has_column df "日期" = false ->
          DataFrame.columns df <> [] ->
          DataFrame.rows df = row :: rest ->
          DataFrame.row_get df row "融资余额" = Some (CNum balance) ->
          outcome (_get_margin_balance newest_first info) = Ok balance)).
Proof.
  split; [|split].
  - apply try_except_total. intros e. now exists 0%float.
  - intros H. unfold _get_margin_balance.
    now rewrite (retry_all_fail info _ H).
  - intros df Hinfo. unfold _get_margin_balance.
    rewrite (retry_first_attempt info _ df Hinfo).
    cbn [bind try_except ret lift outcome fst].
    split; [|split; [|split]].
    + now intros ->.
    + intros Hdate [e He]. rewrite Hdate, He.
      now destruct (negb (DataFrame.empty df)).
    + intros -> -> Hcol. cbn [negb bind ret lift].
      unfold DataFrame.row_get. unfold DataFrame.has_column in Hcol.
      destruct (DataFrame.position "融资余额" (DataFrame.columns df));
        [discriminate|].
      now destruct (DataFrame.rows df).
    + intros row rest balance -> Hcols Hrows Hget.
      unfold DataFrame.empty. rewrite Hrows.
      destruct (DataFrame.columns df); [contradiction|].
      cbn [negb bind ret lift]. rewrite Hrows.
      cbn [negb bind ret lift]. now rewrite Hget.
Qed.

Lemma margin_balance_degrades_to_zero_witness :
  outcome (_get_margin_balance (fun df => Ok df)
             (fun _ => Ok (DataFrame.mk ["融资余额"] [[CNum 18000%float]])))
  = Ok 18000%float.
Proof.
  destruct (margin_balance_degrades_to_zero (fun df => Ok df)
              (fun _ => Ok (DataFrame.mk ["融资余额"] [[CNum 18000%float]])))
    as (_ & _ & Htable).
  destruct (Htable (DataFrame.mk ["融资余额"] [[CNum 18000%float]]) eq_refl)
    as (_ & _ & _ & Hrow).
  apply (Hrow [CNum 18000%float] [] 18000%float); try reflexivity.
  discriminate.
Defined.

(** X15. The getter of the capitalisation of the first exchange never
    raises. It returns 0.0 when the source fails at both attempts, when the
    table is empty and when the table has no column 项目; when the table has
    a row 总市值 it returns the number in the column 股票 of the first such
    row, 0.0 for a cell that is empty or missing. *)
Theorem sse_cap_degrades_to_zero (series_sum : list float -> float)
    (str_lower : string -> string)
    (numeric_dtype : DataFrame.t -> string -> bool)
    (summary : operation DataFrame.t) :
  let run := _get_sse_market_cap series_sum str_lower numeric_dtype summary in
  (exists v, outcome run = Ok v)
  /\ ((forall i, exists e, summary i = Raise e) -> outcome run = Ok 0%float)
  /\ (forall df,
      summary 1 = Ok df ->
      (DataFrame.empty df = true \/ DataFrame.has_column df "项目" = false ->
       outcome run = Ok 0%float)
      /\ (forall items row rest v,
          DataFrame.empty df = false ->
          DataFrame.column df "项目" = Ok items ->
          DataFrame.select (DataFrame.rows df) (eq_mask "总市值" items)
          = row :: rest ->
          float_or_zero (DataFrame.row_get df row "股票") = Ok v ->
          outcome run = Ok v)).
Proof.
  cbv zeta. split; [|split].
  - apply try_except_total. intros e. now exists 0%float.
  - intros H. unfold _get_sse_market_cap.
    now rewrite (retry_all_fail summary _ H).
  - intros df Hsummary. unfold _get_sse_market_cap.
    rewrite (retry_first_attempt summary _ df Hsummary).
    cbn [bind try_except ret lift outcome fst]. split.
    + intros [->|Hcol]; [reflexivity|].
      destruct (negb (DataFrame.empty df)); [|reflexivity].
      unfold DataFrame.column. unfold DataFrame.has_column in Hcol.
      now destruct (DataFrame.position "项目" (DataFrame.columns df)).
    + intros items row rest v -> -> -> ->. reflexivity.
Qed.

Lemma sse_cap_degrades_to_zero_witness :
  outcome (_get_sse_market_cap (fun _ => 0%float) (fun s => s)
             (fun _ _ => false)
             (fun _ => Ok (DataFrame.mk ["项目"; "股票"; "主板"]
                             [ [CStr "流通市值"; CNum 480000%float; CNum 1%float];
                               [CStr "总市值"; CNum 520000%float; CNum 2%float] ])))
  = Ok 520000%float.
Proof.
  destruct (sse_cap_degrades_to_zero (fun _ => 0%float) (fun s => s)
              (fun _ _ => false)
              (fun _ => Ok (DataFrame.mk ["项目"; "股票"; "主板"]
                              [ [CStr "流通市值"; CNum 480000%float; CNum 1%float];
                                [CStr "总市值"; CNum 520000%float; CNum 2%float] ])))
    as (_ & _ & Htable).
  destruct (Htable _ eq_refl) as (_ & Hrow).
  apply (Hrow [CStr "流通市值"; CStr "总市值"]
           [CStr "总市值"; CNum 520000%float; CNum 2%float] [] 520000%float);
    reflexivity.
Defined.

(** The scan of the rows of the second exchange. *)
Lemma scan_passes_over (float_of_str : string -> option float)
    (item : json) (rest : list json) :
  passed_over float_of_str item ->
  scan_szse_rows float_of_str (item :: rest)
  = scan_szse_rows float_of_str rest.
Proof.
  intros (row & -> & Hcase). cbn [scan_szse_rows].
  fold (is_stock_row row). fold (cap_value row).
  destruct Hcase as [->|[Hempty|(text & Htext & Hnone)]].
  - reflexivity.
  - rewrite Hempty. now destruct (is_stock_row row).
  - rewrite Htext, Hnone. cbn [json_truthy].
    now destruct (is_stock_row row), (negb (String.eqb text "")).
Qed.

Lemma scan_prefix (float_of_str : string -> option float)
    (pre rest : list json) :
  Forall (passed_over float_of_str) pre ->
  scan_szse_rows float_of_str (pre ++ rest)
  = scan_szse_rows float_of_str rest.
Proof.
  induction 1 as [|item pre Hitem _ IH]; [reflexivity|].
  cbn [app]. now rewrite scan_passes_over.
Qed.

(** X16. From an answer of the second exchange that is a list whose first
    item holds the rows under [data], the getter returns the number of the
    first row of the stocks whose value is a text that spells a number, with
    the thousands separators and the unit 亿元 taken out of the text. The
    rows before it are passed over: rows that are not the row of the stocks,
    and rows of the stocks whose value is empty or does not spell
    a number. *)
Theorem szse_cap_of_first_readable_row
    (float_of_str : string -> option float)
    (first : list (string * json)) (others pre post : list json)
    (row : list (string * json)) (text : string) (cap : float) :
  dict_get first "data" (JArray []) = JArray (pre ++ JObject row :: post) ->
  Forall (passed_over float_of_str) pre ->
  is_stock_row row = true ->
  cap_value row = JString text ->
  text <> "" ->
  float_of_str (clean_cap text) = Some cap ->
  _get_szse_market_cap float_of_str (Ok (JArray (JObject first :: others)))
  = (Ok cap, []).
Proof.
  intros Hdata Hpre Hstock Hvalue Htext Hcap.
  unfold _get_szse_market_cap, szse_table_data.
  cbn [lift bind try_except ret]. rewrite Hdata.
  cbn [lift bind try_except ret]. rewrite (scan_prefix _ pre _ Hpre).
  cbn [scan_szse_rows]. fold (is_stock_row row). fold (cap_value row).
  rewrite Hstock, Hvalue. cbn [json_truthy].
  destruct (String.eqb_spec text ""); [contradiction|].
  cbn [negb]. rewrite Hcap. reflexivity.
Qed.

Lemma szse_cap_of_first_readable_row_witness :
  _get_szse_market_cap demo_float_of_str (Ok szse_answer)
  = (Ok 331234.56%float, [])
  /\ clean_cap "331,234.56亿元" = "331234.56".
Proof.
  split; [|vm_compute; reflexivity].
  apply (szse_cap_of_first_readable_row demo_float_of_str
           [ ("metadata", JObject [("name", JString "证券类别统计")]);
             ("data",
              JArray
                [ JObject [("lbmc", JString "基金"); ("sjzz", JString "9,876.54")];
                  JObject [("lbmc", JString "股票"); ("sjzz", JString "--")];
                  JObject [("zqlb", JString "股票"); ("zsz", JString "331,234.56亿元")] ]) ]
           []
           [ JObject [("lbmc", JString "基金"); ("sjzz", JString "9,876.54")];
             JObject [("lbmc", JString "股票"); ("sjzz", JString "--")] ]
           []
           [("zqlb", JString "股票"); ("zsz", JString "331,234.56亿元")]
           "331,234.56亿元" 331234.56%float).
  - reflexivity.
  - repeat constructor.
    + eexists. split; [reflexivity|]. left. reflexivity.
    + eexists. split; [reflexivity|]. right. right.
      exists "--". split; reflexivity.
  - reflexivity.
  - reflexivity.
  - discriminate.
  - vm_compute. reflexivity.
Defined.

(** X17. The getter of the capitalisation of the second exchange never
    raises, whatever the request gives and whatever the reader of numbers
    does. It returns 0.0 when the request or the decoding raises, when the
    answer is not a list or is an empty one, when no row gives a number, and
    when a row that is not an object comes before the first row that would
    give one: such a row ends the scan. *)
Theorem szse_cap_degrades_to_zero (float_of_str : string -> option float)
    (response : result json) :
  (exists v, _get_szse_market_cap float_of_str response = (Ok v, []))
  /\ ((exists e, response = Raise e) ->
      _get_szse_market_cap float_of_str response = (Ok 0%float, []))
  /\ ((forall first others, response <> Ok (JArray (first :: others))) ->
      _get_szse_market_cap float_of_str response = (Ok 0%float, []))
  /\ (forall first others pre bad post,
      response = Ok (JArray (JObject first :: others)) ->
      dict_get first "data" (JArray []) = JArray (pre ++ bad :: post) ->
      Forall (passed_over float_of_str) pre ->
      (forall row, bad <> JObject row) ->
      _get_szse_market_cap float_of_str response = (Ok 0%float, []))
  /\ (forall first others rows,
      response = Ok (JArray (JObject first :: others)) ->
      dict_get first "data" (JArray []) = JArray rows ->
      Forall (passed_over float_of_str) rows ->
      _get_szse_market_cap float_of_str response = (Ok 0%float, [])).
Proof.
  split; [|split; [|split; [|split]]].
  - unfold _get_szse_market_cap.
    destruct response as [data|e]; cbn [lift bind try_except ret];
      [|now exists 0%float].
    destruct data as [| | | | |[|first others]|]; cbn [bind try_except ret];
      try (now exists 0%float).
    destruct (szse_table_data first) as [table_data|e];
      cbn [lift bind try_except ret]; [|now exists 0%float].
    destruct (scan_szse_rows float_of_str table_data) as [[cap|]|e];
      cbn [bind try_except ret]; eauto.
  - intros [e ->]. reflexivity.
  - intros H. unfold _get_szse_market_cap.
    destruct response as [data|e]; [|reflexivity].
    destruct data as [| | | | |[|first others]|]; try reflexivity.
    now contradiction (H first others).
  - intros first others pre bad post -> Hdata Hpre Hbad.
    unfold _get_szse_market_cap, szse_table_data.
    cbn [lift bind try_except ret]. rewrite Hdata.
    cbn [lift bind try_except ret]. rewrite (scan_prefix _ pre _ Hpre).
    destruct bad; try reflexivity. now contradiction (Hbad members).
  - intros first others rows -> Hdata Hrows.
    unfold _get_szse_market_cap, szse_table_data.
    cbn [lift bind try_except ret]. rewrite Hdata.
    cbn [lift bind try_except ret].
    rewrite <- (app_nil_r rows), (scan_prefix _ rows [] Hrows). reflexivity.
Qed.

Lemma szse_cap_degrades_to_zero_witness :
  _get_szse_market_cap demo_float_of_str
    (Ok (JArray [JObject [("data", JArray [JNull; JObject [("lbmc", JString "股票"); ("sjzz", JString "331234.56")]])]]))
  = (Ok 0%float, []).
Proof.
  destruct (szse_cap_degrades_to_zero demo_float_of_str
              (Ok (JArray [JObject [("data", JArray [JNull; JObject [("lbmc", JString "股票"); ("sjzz", JString "331234.56")]])]])))
    as (_ & _ & _ & Hbad & _).
  apply (Hbad
           [("data", JArray [JNull; JObject [("lbmc", JString "股票"); ("sjzz", JString "331234.56")]])]
           [] [] JNull
           [JObject [("lbmc", JString "股票"); ("sjzz", JString "331234.56")]]).
  - reflexivity.
  - reflexivity.
  - constructor.
  - discriminate.
Defined.

(** X18. The total capitalisation is the sum, from 0.0, of what the two
    getters return; when the second getter raises it is what the first
    returned, and when the first raises it is 0.0 and the second is not
    called. It never raises. *)
Theorem total_cap_is_the_sum (sse szse : Py float) :
  (exists v, outcome (_get_total_market_cap sse szse) = Ok v)
  /\ (forall a b,
      outcome sse = Ok a -> outcome szse = Ok b ->
      _get_total_market_cap sse szse
      = (Ok (0 + a + b)%float, (trace sse ++ trace szse)%list))
  /\ (forall a e,
      outcome sse = Ok a -> outcome szse = Raise e ->
      outcome (_get_total_market_cap sse szse) = Ok (0 + a)%float)
  /\ (forall e,
      outcome sse = Raise e ->
      _get_total_market_cap sse szse = (Ok 0%float, trace sse)).
Proof.
  destruct sse as [[a|e] t], szse as [[b|e'] t'];
    cbn [_get_total_market_cap outcome trace fst snd];
    repeat split; eauto; intros; congruence.
Qed.

Lemma total_cap_is_the_sum_witness :
  _get_total_market_cap (ret 520000%float) (ret 331234.56%float)
  = (Ok 851234.56%float, []).
Proof.
  rewrite (proj1 (proj2 (total_cap_is_the_sum (ret 520000%float)
                           (ret 331234.56%float)))
             520000%float 331234.56%float eq_refl eq_refl).
  vm_compute. reflexivity.
Defined.

(** ** The snapshot of a day *)

Lemma bind_outcome {A B : Type} (m : Py A) (k : A -> Py B) (a : A) :
  outcome m = Ok a -> outcome (bind m k) = outcome (k a).
Proof.
  destruct m as [r t]. cbn. intros ->. now destruct (k a).
Qed.

Lemma statistics_run_cases (series_sum : list float -> float)
    (overview : MarketOverview.t) (spot : operation DataFrame.t) :
  outcome (_get_market_statistics series_sum overview spot) = Ok overview
  \/ exists df, outcome (_get_market_statistics series_sum overview spot)
                = Ok (statistics_of series_sum df overview).
Proof.
  unfold _get_market_statistics.
  destruct (_call_akshare_with_retry spot "A股实时行情" 2) as [[[df|]|e] t];
    cbn [bind try_except ret outcome fst]; try (now left).
  destruct (negb (DataFrame.empty df)); [|now left].
  right. now exists df.
Qed.

Lemma statistics_of_keeps (series_sum : list float -> float)
    (df : DataFrame.t) (o : MarketOverview.t) :
  keeps_identity o (statistics_of series_sum df o)
  /\ leverage_fields (statistics_of series_sum df o) = leverage_fields o
  /\ MarketOverview.top_sectors (statistics_of series_sum df o)
     = MarketOverview.top_sectors o
  /\ MarketOverview.bottom_sectors (statistics_of series_sum df o)
     = MarketOverview.bottom_sectors o.
Proof.
  unfold statistics_of, keeps_identity.
  destruct (numeric_column df "涨跌幅"), (numeric_column df "成交额");
    repeat split.
Qed.

Lemma rankings_of_keeps (df : SectorFrame.t) (o : MarketOverview.t) :
  keeps_identity o (rankings_of df o)
  /\ leverage_fields (rankings_of df o) = leverage_fields o.
Proof.
  unfold rankings_of, keeps_identity.
  destruct (sector_dicts df (nlargest 5 (valid_sector_rows df)));
    [|repeat split].
  destruct (sector_dicts df (nsmallest 5 (valid_sector_rows df)));
    repeat split.
Qed.

Lemma indicator_run_cases (overview : MarketOverview.t) (m c : Py float) :
  outcome (_get_bull_market_indicator overview m c) = Ok overview
  \/ exists mb cap,
       PyFloat.gt mb 0%float = true /\ PyFloat.gt cap 0%float = true
       /\ outcome m = Ok mb /\ outcome c = Ok cap
       /\ outcome (_get_bull_market_indicator overview m c)
          = Ok (MarketOverview.set_is_bull_top_warning
                  (PyFloat.gt (mb / cap * 100)%float 3.5%float)
                  (MarketOverview.set_margin_ratio
                     (PyFloat.round (mb / cap * 100)%float 2)
                     (MarketOverview.set_total_market_cap cap
                        (MarketOverview.set_margin_balance mb overview)))).
Proof.
  destruct (both_positive m c) eqn:Hpos.
  - right. unfold both_positive in Hpos.
    destruct (outcome m) as [mb|] eqn:Hm; [|discriminate].
    destruct (outcome c) as [cap|] eqn:Hc; [|discriminate].
    apply andb_true_iff in Hpos. destruct Hpos as [Hmb Hcap].
    exists mb, cap. repeat split; trivial.
    now apply indicator_computes.
  - left. now apply indicator_skips.
Qed.

(** What a run of [get_market_overview] is made of. *)
Lemma overview_stages (series_sum : list float -> float)
    (newest_first : DataFrame.t -> result DataFrame.t)
    (str_lower : string -> string)
    (numeric_dtype : DataFrame.t -> string -> bool)
    (float_of_str : string -> option float) (src : Sources) (today : string) :
  exists indices o1 o2 o3,
    outcome (_get_main_indices (stock_zh_index_spot_sina src)
               (ticker_history src)) = Ok indices
    /\ outcome (_get_market_statistics series_sum
                  (MarketOverview.set_indices indices (MarketOverview.new today))
                  (stock_zh_a_spot_em src)) = Ok o1
    /\ outcome (_get_sector_rankings o1 (stock_board_industry_name_em src))
       = Ok o2
    /\ outcome (bull_market_indicator series_sum newest_first str_lower
                  numeric_dtype float_of_str o2 src) = Ok o3
    /\ outcome (get_market_overview series_sum newest_first str_lower
                  numeric_dtype float_of_str src today) = Ok o3.
Proof.
  destruct (resolver_keys (stock_zh_index_spot_sina src) (ticker_history src))
    as (indices & Hidx & _).
  assert (H1 : exists o1,
             outcome (_get_market_statistics series_sum
                        (MarketOverview.set_indices indices
                           (MarketOverview.new today))
                        (stock_zh_a_spot_em src)) = Ok o1)
    by (destruct (statistics_run_cases series_sum
                    (MarketOverview.set_indices indices
                       (MarketOverview.new today))
                    (stock_zh_a_spot_em src)) as [H|[df H]]; eauto).
  destruct H1 as [o1 H1].
  assert (H2 : exists o2,
             outcome (_get_sector_rankings o1
                        (stock_board_industry_name_em src)) = Ok o2)
    by (destruct (sector_run_cases o1 (stock_board_industry_name_em src))
          as [H|[df H]]; eauto).
  destruct H2 as [o2 H2].
  assert (H3 : exists o3,
             outcome (bull_market_indicator series_sum newest_first str_lower
                        numeric_dtype float_of_str o2 src) = Ok o3).
  { unfold bull_market_indicator.
    destruct (indicator_run_cases o2
                (_get_margin_balance newest_first
                   (stock_margin_account_info src))
                (_get_total_market_cap
                   (_get_sse_market_cap series_sum str_lower numeric_dtype
                      (stock_sse_summary src))
                   (_get_szse_market_cap float_of_str (szse_report src))))
      as [H|(mb & cap & _ & _ & _ & _ & H)]; eauto. }
  destruct H3 as [o3 H3].
  exists indices, o1, o2, o3. repeat split; trivial.
  unfold get_market_overview.
  rewrite (bind_outcome _ _ indices Hidx).
  rewrite (bind_outcome _ _ o1 H1).
  rewrite (bind_outcome _ _ o2 H2).
  rewrite (bind_outcome _ _ o3 H3).
  reflexivity.
Qed.

Lemma keeps_identity_trans (a b c : MarketOverview.t) :
  keeps_identity a b -> keeps_identity b c -> keeps_identity a c.
Proof.
  unfold keeps_identity. intros (? & ? & ? & ?) (? & ? & ? & ?).
  repeat split; congruence.
Qed.

Lemma keeps_identity_refl (a : MarketOverview.t) : keeps_identity a a.
Proof. now repeat split. Qed.

Lemma statistics_keep (series_sum : list float -> float)
    (o o' : MarketOverview.t) (spot : operation DataFrame.t) :
  outcome (_get_market_statistics series_sum o spot) = Ok o' ->
  keeps_identity o o' /\ leverage_fields o' = leverage_fields o.
Proof.
  destruct (statistics_run_cases series_sum o spot) as [->|[df ->]];
    intros [= <-].
  - split; [apply keeps_identity_refl|reflexivity].
  - destruct (statistics_of_keeps series_sum df o) as (? & ? & _). now split.
Qed.

Lemma sectors_keep (o o' : MarketOverview.t)
    (board : operation SectorFrame.t) :
  outcome (_get_sector_rankings o board) = Ok o' ->
  keeps_identity o o' /\ leverage_fields o' = leverage_fields o.
Proof.
  destruct (sector_run_cases o board) as [->|[df ->]]; intros [= <-].
  - split; [apply keeps_identity_refl|reflexivity].
  - apply rankings_of_keeps.
Qed.

Lemma indicator_keeps (o o' : MarketOverview.t) (m c : Py float) :
  outcome (_get_bull_market_indicator o m c) = Ok o' -> keeps_identity o o'.
Proof.
  destruct (indicator_run_cases o m c) as [->|(mb & cap & _ & _ & _ & _ & ->)];
    intros [= <-]; now repeat split.
Qed.

(** X19. Every run of [get_market_overview] returns a snapshot. Its date is
    the day of the run, its indices are the list the resolver returned, and
    two of its fields are never written: the north-bound flow is 0.0 and the
    date of the margin data is the empty text. Its leverage fields are all
    at their defaults or come from a balance and a capitalisation that are
    both above zero. *)
Theorem overview_is_always_built (series_sum : list float -> float)
    (newest_first : DataFrame.t -> result DataFrame.t)
    (str_lower : string -> string)
    (numeric_dtype : DataFrame.t -> string -> bool)
    (float_of_str : string -> option float) (src : Sources) (today : string) :
  exists o,
    outcome (get_market_overview series_sum newest_first str_lower
               numeric_dtype float_of_str src today) = Ok o
    /\ MarketOverview.date o = today
    /\ outcome (_get_main_indices (stock_zh_index_spot_sina src)
                  (ticker_history src)) = Ok (MarketOverview.indices o)
    /\ MarketOverview.north_flow o = 0%float
    /\ MarketOverview.margin_data_date o = ""
    /\ (leverage_fields o = leverage_defaults
        \/ (PyFloat.gt (MarketOverview.margin_balance o) 0%float = true
            /\ PyFloat.gt (MarketOverview.total_market_cap o) 0%float = true
            /\ MarketOverview.margin_ratio o
               = PyFloat.round
                   (MarketOverview.margin_balance o
                    / MarketOverview.total_market_cap o * 100)%float 2)).
Proof.
  destruct (overview_stages series_sum newest_first str_lower numeric_dtype
              float_of_str src today)
    as (indices & o1 & o2 & o3 & Hidx & H1 & H2 & H3 & Hrun).
  exists o3. split; [exact Hrun|].
  destruct (statistics_keep _ _ _ _ H1) as [K1 L1].
  destruct (sectors_keep _ _ _ H2) as [K2 L2].
  unfold bull_market_indicator in H3.
  pose proof (indicator_keeps _ _ _ _ H3) as K3.
  pose proof (keeps_identity_trans _ _ _ (keeps_identity_trans _ _ _ K1 K2) K3)
    as (Hdate & Hindices & Hflow & Hmdate).
  cbn in Hdate, Hindices, Hflow, Hmdate.
  rewrite Hindices. repeat split; trivial.
  destruct (indicator_run_cases o2
              (_get_margin_balance newest_first (stock_margin_account_info src))
              (_get_total_market_cap
                 (_get_sse_market_cap series_sum str_lower numeric_dtype
                    (stock_sse_summary src))
                 (_get_szse_market_cap float_of_str (szse_report src))))
    as [Hskip|(mb & cap & Hmb & Hcap & _ & _ & Hset)].
  - left. rewrite Hskip in H3. injection H3 as <-.
    now rewrite L2, L1.
  - right. rewrite Hset in H3. injection H3 as <-. cbn.
    repeat split; trivial.
Qed.

Lemma dead_lookups (history : history_source)
    (entries : list (string * (string * string))) :
  (forall yf_code, exists e, history yf_code = Raise e) ->
  flat_map (lookup_one history) entries = [].
Proof.
  intros H. induction entries as [|[ak_code [yf_code name]] entries IH];
    [reflexivity|].
  cbn [flat_map lookup_one]. destruct (H yf_code) as [e ->]. exact IH.
Qed.

(** X20. When the two index sources, the quote source, the sector source and
    the margin source all fail, the snapshot of the day is the one the run
    started from: the date and every other field at its default, whatever
    the two sources of the capitalisation give. *)
Theorem overview_without_sources (series_sum : list float -> float)
    (newest_first : DataFrame.t -> result DataFrame.t)
    (str_lower : string -> string)
    (numeric_dtype : DataFrame.t -> string -> bool)
    (float_of_str : string -> option float) (src : Sources) (today : string) :
  (forall i, exists e, stock_zh_index_spot_sina src i = Raise e) ->
  (forall yf_code, exists e, ticker_history src yf_code = Raise e) ->
  (forall i, exists e, stock_zh_a_spot_em src i = Raise e) ->
  (forall i, exists e, stock_board_industry_name_em src i = Raise e) ->
  (forall i, exists e, stock_margin_account_info src i = Raise e) ->
  outcome (get_market_overview series_sum newest_first str_lower
             numeric_dtype float_of_str src today)
  = Ok (MarketOverview.new today).
Proof.
  intros Hspot Hhist Hquote Hboard Hmargin.
  destruct (overview_stages series_sum newest_first str_lower numeric_dtype
              float_of_str src today)
    as (indices & o1 & o2 & o3 & Hidx & H1 & H2 & H3 & ->).
  destruct (main_indices_spec (stock_zh_index_spot_sina src)
              (ticker_history src)) as [Hfall _].
  rewrite (Hfall (primary_exception _ Hspot)) in Hidx.
  rewrite (dead_lookups _ _ Hhist) in Hidx. injection Hidx as <-.
  unfold _get_market_statistics in H1.
  rewrite (retry_all_fail _ _ Hquote) in H1. injection H1 as <-.
  unfold _get_sector_rankings in H2.
  rewrite (retry_all_fail _ _ Hboard) in H2. injection H2 as <-.
  unfold bull_market_indicator in H3.
  rewrite indicator_skips in H3.
  - now injection H3 as <-.
  - unfold both_positive, _get_margin_balance.
    rewrite (retry_all_fail _ _ Hmargin).
    cbn [bind try_except ret outcome fst].
    now destruct (outcome (_get_total_market_cap _ _)).
Qed.

Lemma overview_without_sources_witness :
  outcome (get_market_overview (fun _ => 0%float) (fun df => Ok df)
             (fun s => s) (fun _ _ => false) demo_float_of_str dead_sources
             "2025-01-02")
  = Ok (MarketOverview.new "2025-01-02").
Proof.
  apply (overview_without_sources (fun _ => 0%float) (fun df => Ok df)
           (fun s => s) (fun _ _ => false) demo_float_of_str dead_sources
           "2025-01-02");
    intros i; exists (OtherError "timeout"); reflexivity.
Defined.

(** ** The news *)

Lemma search_loop_spec (service : search_service) (queries : list string)
    (all_news : list RawNews) :
  search_loop service queries all_news
  = ((all_news
      ++ flat_map (fun q => results_of (ask service q))
           (answered service queries))%list,
     map py_split
       (firstn (S (List.length (answered service queries))) queries)).
Proof.
  revert all_news. induction queries as [|query rest IH]; intros all_news.
  - cbn. now rewrite app_nil_r.
  - cbn [search_loop answered]. fold (ask service query).
    destruct (ask service query) as [response|e] eqn:E.
    + destruct response as [[|item items]|]; rewrite IH;
        cbn [List.length firstn map flat_map]; rewrite E;
        cbn [results_of app]; now rewrite <- ?app_assoc.
    + cbn. now rewrite app_nil_r.
Qed.

(** X21. Without a search service no search is made and there is no news.
    With one, the queries are searched in their order until one raises: the
    news is what the searches before that one returned, one after the other,
    and the queries after it are not searched. *)
Theorem news_until_the_first_failure (service : search_service)
    (year month : Z) :
  let queries := search_queries year month in
  search_market_news None year month = ([], [])
  /\ fst (search_market_news (Some service) year month)
     = flat_map (fun q => results_of (ask service q)) (answered service queries)
  /\ snd (search_market_news (Some service) year month)
     = map py_split (firstn (S (List.length (answered service queries))) queries)
  /\ ((forall q, In q queries -> exists r, ask service q = Ok r) ->
      answered service queries = queries).
Proof.
  cbv zeta. split; [reflexivity|]. unfold search_market_news.
  rewrite search_loop_spec. cbn [fst snd app]. repeat split.
  generalize (search_queries year month). intros queries H.
  induction queries as [|q rest IH]; [reflexivity|].
  cbn [answered]. destruct (H q (or_introl eq_refl)) as [r ->].
  f_equal. apply IH. intros q' Hq'. apply H. now right.
Qed.

Lemma news_until_the_first_failure_witness :
  search_market_news (Some demo_search) 2025 1
  = ([ NewsObject (CStr "沪指收涨") (Some (CStr "两市成交额放大"));
       NewsObject (CStr "北向资金净流入") (Some CNone) ],
     [ ["A股"; "大盘"; "复盘"; "2025年1月"];
       ["股市"; "行情"; "分析"; "今日"; "2025年1月"];
       ["A股"; "市场"; "热点"; "板块"; "2025年1月"] ])
  /\ answered demo_search (search_queries 2025 1)
     = firstn 2 (search_queries 2025 1).
Proof.
  destruct (news_until_the_first_failure demo_search 2025 1)
    as (_ & Hnews & Hsearched & _).
  split; [|vm_compute; reflexivity].
  rewrite (surjective_pairing (search_market_news (Some demo_search) 2025 1)).
  rewrite Hnews, Hsearched. vm_compute. reflexivity.
Defined.

(** ** The report *)

Lemma template_nonempty (overview : MarketOverview.t) (news : list NewsItem)
    (now : string) :
  Template._generate_template_review overview news now <> "".
Proof.
  unfold Template._generate_template_review, Template.title_section.
  discriminate.
Qed.

Lemma market_review_cases (template prompt : result string)
    (analyzer : option Analyzer) :
  market_review_of template prompt analyzer = template
  \/ (exists e, market_review_of template prompt analyzer = Raise e)
  \/ (exists review,
       review <> ""
       /\ market_review_of template prompt analyzer = Ok review).
Proof.
  unfold market_review_of.
  destruct analyzer as [a|]; [|now left].
  destruct (is_available a) as [[|]|e]; cbn [and_then negb];
    [|now left|right; left; now exists e].
  destruct prompt as [prompt|e]; cbn [and_then];
    [|right; left; now exists e].
  destruct (generate a prompt) as [[review|]|e]; try now left.
  destruct (String.eqb_spec review ""); [now left|].
  right. right. now exists review.
Qed.

Lemma review_nonempty (analyzer : option Analyzer)
    (overview : MarketOverview.t) (news : list RawNews) (now report : string) :
  generate_market_review analyzer overview news now = Ok report ->
  report <> "".
Proof.
  unfold generate_market_review.
  destruct (market_review_cases
              (Ok (Template._generate_template_review overview [] now))
              (review_prompt overview news) analyzer)
    as [H|[[e H]|(review & Hne & H)]]; rewrite H; intros E.
  - injection E as <-. apply template_nonempty.
  - discriminate E.
  - now injection E as <-.
Qed.

Lemma market_review_without_generator (template prompt : result string)
    (analyzer : option Analyzer) :
  no_generator analyzer -> market_review_of template prompt analyzer = template.
Proof.
  unfold market_review_of, no_generator.
  destruct analyzer as [a|]; [|reflexivity]. now intros ->.
Qed.

Lemma review_without_generator (analyzer : option Analyzer)
    (overview : MarketOverview.t) (news : list RawNews) (now : string) :
  no_generator analyzer ->
  generate_market_review analyzer overview news now
  = Ok (Template._generate_template_review overview [] now).
Proof.
  intros H. unfold generate_market_review.
  now apply market_review_without_generator.
Qed.

Lemma read_attribute_spec (v : cell) :
  (number_not_zero v = true -> exists e, read_attribute v = Raise e)
  /\ (number_not_zero v = false ->
      exists text, read_attribute v = Ok text
                   /\ text_of text = text_of_cell v).
Proof.
  unfold read_attribute. destruct v as [f|s|]; cbn.
  - unfold PyFloat.truthy. destruct (PrimFloat.eqb f 0%float); cbn.
    + split; [discriminate|]. intros _. now exists None.
    + split; [|discriminate]. intros _. eauto.
  - split; [discriminate|]. intros _.
    destruct (String.eqb_spec s "") as [->|]; cbn.
    + now exists None.
    + now exists (Some s).
  - split; [discriminate|]. intros _. now exists None.
Qed.

Lemma read_key_spec (v : option cell) :
  (key_not_text v = true -> exists e, read_key v = Raise e)
  /\ (key_not_text v = false ->
      exists text, read_key v = Ok text
                   /\ text_of text = match v with
                                     | Some x => text_of_cell x
                                     | None => ""
                                     end).
Proof.
  destruct v as [[f|s|]|]; cbn; split; try discriminate; intros _; eauto.
Qed.

Lemma read_news_item_spec (n : RawNews) :
  (unreadable n = true -> exists e, read_news_item n = Raise e)
  /\ (unreadable n = false ->
      exists item, read_news_item n = Ok item
                   /\ item_title item = raw_title n
                   /\ item_snippet item = raw_snippet n).
Proof.
  destruct n as [title [snippet|]|title snippet|]; cbn [unreadable].
  - destruct (read_attribute_spec title) as [Ht1 Ht0].
    destruct (read_attribute_spec snippet) as [Hs1 Hs0].
    cbn [read_news_item]. split.
    + intros H. destruct (number_not_zero title).
      * destruct (Ht1 eq_refl) as [e ->]. now exists e.
      * destruct (Ht0 eq_refl) as (t & -> & _). cbn [and_then].
        destruct (Hs1 H) as [e ->]. now exists e.
    + intros H. apply orb_false_iff in H as [H1 H2].
      destruct (Ht0 H1) as (t & -> & Ht). destruct (Hs0 H2) as (x & -> & Hx).
      cbn [and_then]. eexists. split; [reflexivity|]. now split.
  - split; [|discriminate]. intros _. cbn [read_news_item].
    destruct (read_attribute title) as [t|e]; cbn [and_then]; eauto.
  - destruct (read_key_spec title) as [Ht1 Ht0].
    destruct (read_key_spec snippet) as [Hs1 Hs0].
    cbn [read_news_item]. split.
    + intros H. destruct (key_not_text title).
      * destruct (Ht1 eq_refl) as [e ->]. now exists e.
      * destruct (Ht0 eq_refl) as (t & -> & _). cbn [and_then].
        destruct (Hs1 H) as [e ->]. now exists e.
    + intros H. apply orb_false_iff in H as [H1 H2].
      destruct (Ht0 H1) as (t & -> & Ht). destruct (Hs0 H2) as (x & -> & Hx).
      cbn [and_then]. eexists. split; [reflexivity|].
      cbn [item_title item_snippet raw_title raw_snippet].
      rewrite Ht, Hx. now destruct title, snippet.
  - split; [|discriminate]. intros _. cbn. eauto.
Qed.

Lemma read_news_spec (news : list RawNews) :
  (existsb unreadable news = true -> exists e, read_news news = Raise e)
  /\ (existsb unreadable news = false ->
      exists items, read_news news = Ok items
                    /\ map item_title items = map raw_title news
                    /\ map item_snippet items = map raw_snippet news).
Proof.
  induction news as [|n rest [IH1 IH0]]; cbn [existsb read_news map].
  - split; [discriminate|]. intros _. now exists [].
  - destruct (read_news_item_spec n) as [Hn1 Hn0]. split.
    + intros H. destruct (unreadable n).
      * destruct (Hn1 eq_refl) as [e ->]. now exists e.
      * destruct (Hn0 eq_refl) as (item & -> & _). cbn [and_then].
        destruct (IH1 H) as [e ->]. now exists e.
    + intros H. apply orb_false_iff in H as [H1 H2].
      destruct (Hn0 H1) as (item & -> & Ht & Hs).
      destruct (IH0 H2) as (items & -> & Hts & Hss). cbn [and_then].
      exists (item :: items). cbn [map]. now rewrite Ht, Hs, Hts, Hss.
Qed.

Lemma review_unreadable_news (a : Analyzer) (overview : MarketOverview.t)
    (news : list RawNews) (now : string) :
  is_available a = Ok true ->
  existsb unreadable (firstn 6 news) = true ->
  exists e, generate_market_review (Some a) overview news now = Raise e.
Proof.
  intros Ha Hbad.
  unfold generate_market_review, market_review_of, review_prompt.
  destruct (proj1 (read_news_spec (firstn 6 news)) Hbad) as [e Hread].
  exists e. now rewrite Ha, Hread.
Qed.

(** X22. [generate_market_review] tests the generator and builds the prompt
    before its [try], and renders the template outside it. Whatever the
    template and the prompt give, a text or an exception: without a
    generator, or with one that reports itself unavailable, the result is
    what the template gives; what the availability test raises leaves the
    method; with an available generator what the prompt raises leaves the
    method, whatever the generator would return; and with a prompt the
    result is the text of the generator if it is not empty, and what the
    template gives when the generator raises, has no text or an empty one.
    The prompt reads the first six elements of the news and no other: an
    element among them that cannot be shown makes the method raise, as a
    dictionary whose title is [None] does with [TypeError]; when the six can
    be shown the prompt is built from their titles and snippets. A report
    that is returned is never empty. *)
Theorem review_falls_back_to_the_template (analyzer : option Analyzer)
    (template prompt : result string) (overview : MarketOverview.t)
    (news : list RawNews) (now : string) :
  let result := market_review_of template prompt analyzer in
  let review := generate_market_review analyzer overview news now in
  (no_generator analyzer -> result = template)
  /\ (forall a e,
      analyzer = Some a -> is_available a = Raise e -> result = Raise e)
  /\ (forall a e,
      analyzer = Some a -> is_available a = Ok true -> prompt = Raise e ->
      result = Raise e)
  /\ (forall a text,
      analyzer = Some a -> is_available a = Ok true -> prompt = Ok text ->
      (forall answer,
       generate a text = Ok (Some answer) -> answer <> "" ->
       result = Ok answer)
      /\ ((exists e, generate a text = Raise e)
          \/ generate a text = Ok None
          \/ generate a text = Ok (Some "") ->
          result = template))
  /\ (existsb unreadable (firstn 6 news) = true ->
      (exists e, review_prompt overview news = Raise e)
      /\ forall a,
           analyzer = Some a -> is_available a = Ok true ->
           exists e, review = Raise e)
  /\ (existsb unreadable (firstn 6 news) = false ->
      exists items,
        map item_title items = map raw_title (firstn 6 news)
        /\ map item_snippet items = map raw_snippet (firstn 6 news)
        /\ review_prompt overview news
           = Ok (Prompt._build_review_prompt overview items)
        /\ review
           = market_review_of
               (Ok (Template._generate_template_review overview [] now))
               (Ok (Prompt._build_review_prompt overview items)) analyzer)
  /\ (forall a snippet rest,
      is_available a = Ok true ->
      generate_market_review (Some a) overview
        (NewsMapping (Some CNone) snippet :: rest) now
      = Raise (OtherError "TypeError"))
  /\ (forall report, review = Ok report -> report <> "").
Proof.
  cbv zeta. repeat match goal with |- _ /\ _ => split end.
  - apply market_review_without_generator.
  - intros a e -> Ha. unfold market_review_of. now rewrite Ha.
  - intros a e -> Ha ->. unfold market_review_of. now rewrite Ha.
  - intros a text -> Ha ->. unfold market_review_of. rewrite Ha.
    cbn [and_then negb]. split.
    + intros answer -> Hne. now destruct (String.eqb_spec answer "").
    + intros [[e ->]|[->| ->]]; reflexivity.
  - intros Hbad. split.
    + unfold review_prompt.
      destruct (proj1 (read_news_spec (firstn 6 news)) Hbad) as [e ->].
      now exists e.
    + intros a -> Ha. now apply review_unreadable_news.
  - intros Hgood.
    destruct (proj2 (read_news_spec (firstn 6 news)) Hgood)
      as (items & Hread & Htitles & Hsnippets).
    exists items. split; [exact Htitles|]. split; [exact Hsnippets|].
    unfold generate_market_review, review_prompt. now rewrite Hread.
  - intros a snippet rest Ha.
    unfold generate_market_review, market_review_of, review_prompt.
    now rewrite Ha.
  - apply review_nonempty.
Qed.

Lemma review_falls_back_to_the_template_witness :
  market_review_of (Raise (OtherError "TypeError")) (Ok "prompt")
    (Some (mkAnalyzer (Ok true) (fun _ => Ok None)))
  = Raise (OtherError "TypeError")
  /\ (exists items,
       map item_title items = ["沪指收涨"; ""]
       /\ map item_snippet items = ["两市成交额放大"; "北向资金净流入"]
       /\ generate_market_review
            (Some (mkAnalyzer (Ok true) (fun _ => Ok None)))
            empty_snapshot
            [ NewsObject (CStr "沪指收涨") (Some (CStr "两市成交额放大"));
              NewsMapping None (Some (CStr "北向资金净流入")) ] "15:30"
          = Ok (Template._generate_template_review empty_snapshot []
                  "15:30"))
  /\ exists e,
       generate_market_review
         (Some (mkAnalyzer (Ok true) (fun prompt => Ok (Some "复盘"))))
         empty_snapshot
         [ NewsObject (CStr "沪指收涨") (Some (CStr "两市成交额放大"));
           NewsObject (CNum 1%float) (Some CNone) ] "15:30"
       = Raise e.
Proof.
  split; [|split].
  - destruct (review_falls_back_to_the_template
                (Some (mkAnalyzer (Ok true) (fun _ => Ok None)))
                (Raise (OtherError "TypeError")) (Ok "prompt")
                empty_snapshot [] "15:30")
      as (_ & _ & _ & Hprompt & _).
    destruct (Hprompt _ "prompt" eq_refl eq_refl eq_refl) as [_ Hfall].
    apply Hfall. right. left. reflexivity.
  - destruct (review_falls_back_to_the_template
                (Some (mkAnalyzer (Ok true) (fun _ => Ok None)))
                (Ok "") (Ok "") empty_snapshot
                [ NewsObject (CStr "沪指收涨") (Some (CStr "两市成交额放大"));
                  NewsMapping None (Some (CStr "北向资金净流入")) ] "15:30")
      as (_ & _ & _ & _ & _ & Hgood & _).
    destruct (Hgood eq_refl) as (items & Htitles & Hsnippets & _ & Hreview).
    exists items. split; [exact Htitles|]. split; [exact Hsnippets|].
    rewrite Hreview. reflexivity.
  - destruct (review_falls_back_to_the_template
                (Some (mkAnalyzer (Ok true) (fun prompt => Ok (Some "复盘"))))
                (Ok "") (Ok "") empty_snapshot
                [ NewsObject (CStr "沪指收涨") (Some (CStr "两市成交额放大"));
                  NewsObject (CNum 1%float) (Some CNone) ] "15:30")
      as (_ & _ & _ & _ & Hbad & _).
    destruct (Hbad eq_refl) as [_ Hraise].
    apply (Hraise _ eq_refl eq_refl).
Defined.

(** X23. [run_daily_review] has no handler of its own. With an available
    generator, an element among the first six of the news the search
    gathered that cannot be shown makes the whole review raise, after the
    snapshot was fetched. A report that is returned is never empty. When the
    index sources, the quote source, the sector source and the margin source
    all fail and there is neither a search service nor a generator, the
    review returns the template filled from the snapshot the run started
    with. *)
Theorem daily_review_outcomes (series_sum : list float -> float)
    (newest_first : DataFrame.t -> result DataFrame.t)
    (str_lower : string -> string)
    (numeric_dtype : DataFrame.t -> string -> bool)
    (float_of_str : string -> option float) (src : Sources)
    (service : option search_service) (analyzer : option Analyzer)
    (today now : string) (year month : Z) :
  let run := run_daily_review series_sum newest_first str_lower numeric_dtype
               float_of_str src service analyzer today now year month in
  let news := fst (search_market_news service year month) in
  (forall a,
   analyzer = Some a -> is_available a = Ok true ->
   existsb unreadable (firstn 6 news) = true ->
   exists e, outcome run = Raise e)
  /\ (forall report, outcome run = Ok report -> report <> "")
  /\ ((forall i, exists e, stock_zh_index_spot_sina src i = Raise e) ->
      (forall yf_code, exists e, ticker_history src yf_code = Raise e) ->
      (forall i, exists e, stock_zh_a_spot_em src i = Raise e) ->
      (forall i, exists e, stock_board_industry_name_em src i = Raise e) ->
      (forall i, exists e, stock_margin_account_info src i = Raise e) ->
      service = None -> analyzer = None ->
      outcome run
      = Ok (Template._generate_template_review (MarketOverview.new today) []
              now)).
Proof.
  cbv zeta. unfold run_daily_review.
  destruct (overview_stages series_sum newest_first str_lower numeric_dtype
              float_of_str src today)
    as (indices & o1 & o2 & o3 & Hidx & H1 & H2 & H3 & Hrun).
  rewrite (bind_outcome _ _ o3 Hrun). cbn [lift outcome fst].
  split; [|split].
  - intros a -> Ha Hbad. now apply review_unreadable_news.
  - apply review_nonempty.
  - intros Hspot Hhist Hquote Hboard Hmargin -> ->.
    unfold generate_market_review. cbn [market_review_of]. do 2 f_equal.
    destruct (main_indices_spec (stock_zh_index_spot_sina src)
                (ticker_history src)) as [Hfall _].
    rewrite (Hfall (primary_exception _ Hspot)) in Hidx.
    rewrite (dead_lookups _ _ Hhist) in Hidx. injection Hidx as <-.
    unfold _get_market_statistics in H1.
    rewrite (retry_all_fail _ _ Hquote) in H1. injection H1 as <-.
    unfold _get_sector_rankings in H2.
    rewrite (retry_all_fail _ _ Hboard) in H2. injection H2 as <-.
    unfold bull_market_indicator in H3.
    rewrite indicator_skips in H3.
    + now injection H3 as <-.
    + unfold both_positive, _get_margin_balance.
      rewrite (retry_all_fail _ _ Hmargin).
      cbn [bind try_except ret outcome fst].
      now destruct (outcome (_get_total_market_cap _ _)).
Qed.

Lemma daily_review_outcomes_witness :
  outcome (run_daily_review (fun _ => 0%float) (fun df => Ok df) (fun s => s)
             (fun _ _ => false) demo_float_of_str dead_sources None None
             "2025-01-02" "15:30" 2025 1)
  = Ok (Template._generate_template_review (MarketOverview.new "2025-01-02")
          [] "15:30")
  /\ exists e,
       outcome (run_daily_review (fun _ => 0%float) (fun df => Ok df)
                  (fun s => s) (fun _ _ => false) demo_float_of_str
                  dead_sources (Some unreadable_search)
                  (Some (mkAnalyzer (Ok true)
                           (fun prompt => Ok (Some "复盘"))))
                  "2025-01-02" "15:30" 2025 1)
       = Raise e.
Proof.
  split.
  - apply (proj2 (proj2 (daily_review_outcomes (fun _ => 0%float)
                    (fun df => Ok df) (fun s => s) (fun _ _ => false)
                    demo_float_of_str dead_sources None None
                    "2025-01-02" "15:30" 2025 1)));
      try reflexivity; intros i; exists (OtherError "timeout"); reflexivity.
  - apply (proj1 (daily_review_outcomes (fun _ => 0%float)
                    (fun df => Ok df) (fun s => s) (fun _ _ => false)
                    demo_float_of_str dead_sources (Some unreadable_search)
                    (Some (mkAnalyzer (Ok true)
                             (fun prompt => Ok (Some "复盘"))))
                    "2025-01-02" "15:30" 2025 1)
             (mkAnalyzer (Ok true) (fun prompt => Ok (Some "复盘")))
             eq_refl eq_refl).
    vm_compute. reflexivity.
Defined.

(** ** The prompt *)

Lemma news_lines_spec (i : Z) (items : list NewsItem) (news_text : string) :
  news_lines i items news_text = news_text ++ flatten (numbered i items).
Proof.
  revert i news_text. induction items as [|n rest IH]; intros i news_text.
  - cbn. now rewrite append_nil_r.
  - cbn [news_lines numbered flatten fold_right]. rewrite IH.
    unfold numbered_line. now rewrite !append_assoc.
Qed.

Lemma numbered_length (i : Z) (items : list NewsItem) :
  List.length (numbered i items) = List.length items.
Proof.
  revert i. induction items as [|n rest IH]; intros i; [reflexivity|].
  cbn [numbered List.length]. now rewrite IH.
Qed.

(** X24. The prompt holds the news as numbered items, from 1, in the order
    of the list: the first six items and no other, each with its title and
    its snippet under its number. Without news it holds the placeholder
    暂无相关新闻. *)
Theorem prompt_numbers_six_news (overview : MarketOverview.t)
    (news : list NewsItem) :
  (news = [] ->
   PyStr.Contains (Prompt._build_review_prompt overview news) "暂无相关新闻")
  /\ (news <> [] ->
      PyStr.Contains (Prompt._build_review_prompt overview news)
        ("## 市场新闻" ++ nl ++ flatten (numbered 1 (firstn 6 news)) ++ nl ++ nl)
      /\ (List.length (numbered 1 (firstn 6 news)) <= 6)%nat).
Proof.
  split.
  - intros ->. unfold Prompt._build_review_prompt, Prompt.news_block.
    cbn [firstn news_lines or_else String.eqb].
    apply Contains_app_r, Contains_app_r, Contains_app_r, Contains_app_r.
    apply Contains_app_r, Contains_app_r, Contains_app_l.
    apply Contains_app_r, Contains_app_r, Contains_here.
  - intros Hnews. split.
    + unfold Prompt._build_review_prompt.
      apply Contains_app_r, Contains_app_r, Contains_app_r, Contains_app_r.
      apply Contains_app_r, Contains_app_r, Contains_app_l.
      unfold Prompt.news_block. rewrite news_lines_spec.
      change ("" ++ flatten (numbered 1 (firstn 6 news)))
        with (flatten (numbered 1 (firstn 6 news))).
      rewrite or_else_nonempty.
      * exists "". eexists.
        change ("" ++ ?x) with x. rewrite !append_assoc. reflexivity.
      * destruct news as [|n rest]; [contradiction|].
        cbn [firstn numbered flatten fold_right]. unfold numbered_line.
        destruct (PyStr.of_Z 1) eqn:E; [discriminate E|discriminate].
    + rewrite numbered_length, length_firstn. lia.
Qed.

Lemma prompt_numbers_six_news_witness :
  PyStr.Contains
    (Prompt._build_review_prompt empty_snapshot
       [ SearchResult (Some "沪指收涨") (Some "两市成交额放大");
         NewsDict (Some "北向资金净流入") None ])
    ("## 市场新闻" ++ nl ++
     "1. 沪指收涨" ++ nl ++ "   两市成交额放大" ++ nl ++
     "2. 北向资金净流入" ++ nl ++ "   " ++ nl ++ nl ++ nl).
Proof.
  destruct (prompt_numbers_six_news empty_snapshot
              [ SearchResult (Some "沪指收涨") (Some "两市成交额放大");
                NewsDict (Some "北向资金净流入") None ]) as [_ H].
  destruct H as [H _]; [discriminate|].
  exact H.
Defined.

(** X25. For a snapshot without indices the prompt holds the placeholder
    暂无指数数据（接口异常） in the place of the index lines, and the
    instruction not to invent index levels. *)
Theorem prompt_guards_missing_indices (overview : MarketOverview.t)
    (news : list NewsItem) :
  MarketOverview.indices overview = [] ->
  PyStr.Contains (Prompt._build_review_prompt overview news)
    ("## 主要指数" ++ nl ++ "暂无指数数据（接口异常）" ++ nl)
  /\ PyStr.Contains (Prompt._build_review_prompt overview news)
       no_index_guard.
Proof.
  intros Hidx.
  assert (Htext : Prompt.indices_text overview = "")
    by (unfold Prompt.indices_text; now rewrite Hidx).
  unfold Prompt._build_review_prompt, Prompt.indices_block, Prompt.news_block.
  rewrite Htext. cbn [or_else String.eqb]. split.
  - apply Contains_app_r, Contains_app_r, Contains_app_l.
    exists "", nl. cbn [append]. now rewrite !append_assoc.
  - fold no_index_guard. find_part.
Qed.

Lemma prompt_guards_missing_indices_witness :
  PyStr.Contains (Prompt._build_review_prompt empty_snapshot [])
    no_index_guard.
Proof.
  apply (proj2 (prompt_guards_missing_indices empty_snapshot [] eq_refl)).
Defined.

(** ** The clipped fields of a news item *)

Lemma utf8_length_app (a b : string) :
  utf8_length (a ++ b) = (utf8_length a + utf8_length b)%nat.
Proof.
  induction a as [|c a IH]; [reflexivity|].
  cbn [append utf8_length]. rewrite IH.
  now destruct (PyStr.utf8_continuation c).
Qed.

Lemma utf8_tail_spec (s : string) :
  s = fst (PyStr.utf8_tail s) ++ snd (PyStr.utf8_tail s)
  /\ utf8_length (fst (PyStr.utf8_tail s)) = O
  /\ starts_a_code_point (snd (PyStr.utf8_tail s))
  /\ (String.length (snd (PyStr.utf8_tail s)) <= String.length s)%nat.
Proof.
  induction s as [|c s (IH1 & IH2 & IH3 & IH4)]; [now cbn|].
  cbn [PyStr.utf8_tail].
  destruct (PyStr.utf8_continuation c) eqn:E.
  - destruct (PyStr.utf8_tail s) as [t r]. cbn [fst snd] in *.
    cbn [append utf8_length String.length]. rewrite E.
    repeat split; [now f_equal|assumption|assumption|lia].
  - cbn [fst snd append utf8_length starts_a_code_point].
    repeat split; [assumption|lia].
Qed.

Lemma utf8_take_fuel_prefix (fuel n : nat) (s : string) :
  exists rest, s = PyStr.utf8_take_fuel fuel n s ++ rest.
Proof.
  revert n s. induction fuel as [|f IH]; intros n s; [now exists s|].
  destruct n as [|n']; [now exists s|].
  destruct s as [|c s']; [now exists ""|].
  cbn [PyStr.utf8_take_fuel].
  destruct (utf8_tail_spec s') as (Hsplit & _).
  destruct (PyStr.utf8_tail s') as [t r]. cbn [fst snd] in Hsplit.
  destruct (IH n' r) as [rest Hrest]. exists rest.
  rewrite append_assoc, <- Hrest. cbn [append]. now rewrite <- Hsplit.
Qed.

Lemma utf8_take_fuel_length (fuel n : nat) (s : string) :
  (String.length s <= fuel)%nat -> starts_a_code_point s ->
  utf8_length (PyStr.utf8_take_fuel fuel n s) = Nat.min n (utf8_length s).
Proof.
  revert n s. induction fuel as [|f IH]; intros n s Hfuel Hstart.
  - destruct s; [|cbn in Hfuel; lia]. cbn. lia.
  - destruct n as [|n']; [reflexivity|].
    destruct s as [|c s']; [reflexivity|].
    cbn [PyStr.utf8_take_fuel]. cbn in Hstart.
    destruct (utf8_tail_spec s') as (Hsplit & Ht & Hr & Hlen).
    destruct (PyStr.utf8_tail s') as [t r]. cbn [fst snd] in *.
    cbn [String.length] in Hfuel.
    rewrite utf8_length_app, IH by (assumption || lia).
    cbn [utf8_length]. rewrite Hstart, Ht.
    rewrite Hsplit, utf8_length_app, Ht. lia.
Qed.

Lemma clipped_spec (k : nat) (text : option string) :
  (exists rest, text_of text = clipped k text ++ rest)
  /\ (starts_a_code_point (text_of text) ->
      utf8_length (clipped k text) = Nat.min k (utf8_length (text_of text))).
Proof.
  destruct text as [s|]; cbn [clipped text_of].
  - split; [apply utf8_take_fuel_prefix|].
    intros Hstart. now apply utf8_take_fuel_length.
  - split; [now exists ""|]. intros _. cbn [utf8_length]. lia.
Qed.

(** X26. What the prompt shows of a news item is the start of its title, cut
    after 50 characters, and the start of its snippet, cut after 100
    characters: whole characters, never a part of one. An attribute that
    is [None] and a key that is missing are shown as the empty text. *)
Theorem news_fields_are_clipped (n : NewsItem) :
  (exists rest, item_title n = news_title n ++ rest)
  /\ (exists rest, item_snippet n = news_snippet n ++ rest)
  /\ (starts_a_code_point (item_title n) ->
      utf8_length (news_title n) = Nat.min 50 (utf8_length (item_title n)))
  /\ (starts_a_code_point (item_snippet n) ->
      utf8_length (news_snippet n)
      = Nat.min 100 (utf8_length (item_snippet n))).
Proof.
  destruct n as [title snippet|title snippet];
    cbn [item_title item_snippet news_title news_snippet];
    destruct (clipped_spec 50 title) as [Ht1 Ht2];
    destruct (clipped_spec 100 snippet) as [Hs1 Hs2];
    repeat split; assumption.
Qed.

Lemma news_fields_are_clipped_witness :
  utf8_length (news_title (SearchResult (Some "沪指收涨") None)) = 4%nat
  /\ utf8_length (news_snippet (NewsDict None (Some "两市成交额放大")))
     = 7%nat.
Proof.
  destruct (news_fields_are_clipped (SearchResult (Some "沪指收涨") None))
    as (_ & _ & Htitle & _).
  destruct (news_fields_are_clipped (NewsDict None (Some "两市成交额放大")))
    as (_ & _ & _ & Hsnippet).
  split; [rewrite Htitle|rewrite Hsnippet]; reflexivity.
Defined.

(** ** The sectors and the news in the two reports *)



(** X28. Without a generator, or with one that reports itself unavailable,
    the report of the daily review does not depend on the search service:
    the news that was searched is not used. *)
Theorem report_without_generator_ignores_news
    (series_sum : list float -> float)
    (newest_first : DataFrame.t -> result DataFrame.t)
    (str_lower : string -> string)
    (numeric_dtype : DataFrame.t -> string -> bool)
    (float_of_str : string -> option float) (src : Sources)
    (service other : option search_service) (analyzer : option Analyzer)
    (today now : string) (year month : Z) :
  no_generator analyzer ->
  outcome (run_daily_review series_sum newest_first str_lower numeric_dtype
             float_of_str src service analyzer today now year month)
  = outcome (run_daily_review series_sum newest_first str_lower numeric_dtype
               float_of_str src other analyzer today now year month).
Proof.
  intros Hnone. unfold run_daily_review.
  destruct (overview_stages series_sum newest_first str_lower numeric_dtype
              float_of_str src today)
    as (indices & o1 & o2 & o3 & _ & _ & _ & _ & Hrun).
  rewrite !(bind_outcome _ _ o3 Hrun). cbn [lift outcome fst].
  now rewrite !review_without_generator.
Qed.

Lemma report_without_generator_ignores_news_witness :
  outcome (run_daily_review (fun _ => 0%float) (fun df => Ok df) (fun s => s)
             (fun _ _ => false) demo_float_of_str dead_sources
             (Some demo_search) None "2025-01-02" "15:30" 2025 1)
  = outcome (run_daily_review (fun _ => 0%float) (fun df => Ok df)
               (fun s => s) (fun _ _ => false) demo_float_of_str dead_sources
               None None "2025-01-02" "15:30" 2025 1).
Proof.
  apply (report_without_generator_ignores_news (fun _ => 0%float)
           (fun df => Ok df) (fun s => s) (fun _ _ => false)
           demo_float_of_str dead_sources (Some demo_search) None None
           "2025-01-02" "15:30" 2025 1).
  exact I.
Defined.
